(** * airpollutionbot: the subscription, caching and change-detection engine

    A shallow embedding of [store.go], of the location handler and the two
    cron jobs of [bot.go], and of the types of [owmapi.go], over a small model
    of the SQL engine the store talks to.  Store methods keep the statement
    texts of the source; the engine model splits them into tokens, parses
    them and runs them on tables of rows.

    Numbers: [int64], [int] and [AirQualityIndex] values are [Z] (the program
    only compares and stores them); [float64] is the kernel's binary64
    [float]; [time.Time] is the number of nanoseconds since the Unix epoch
    (the seconds that [time.Unix] makes of an int64 wrap as they do in Go) and
    [time.Duration] a saturating signed 64-bit count of nanoseconds.  The
    process's time zone, in which the driver writes timestamps, is part of the
    database handle.

    What the model leaves out: failures of the database file itself (the
    errors of a statement are those its text and the rows decide), goroutines
    (every method runs to its end before the next one starts), the log lines
    of the store methods, and the rendering of texts by the message catalog,
    which is a parameter. *)

From Stdlib Require Import ZArith List String Ascii Bool Lia PrimFloat Permutation.
Import ListNotations.

#[local] Set Warnings "-inexact-float".
#[local] Open Scope string_scope.
#[local] Open Scope Z_scope.

(** ** Errors and results *)

(** The [error] values that flow through the program. *)
Inductive error : Type :=
| ErrNoRows                              (* sql.ErrNoRows *)
| ErrNotificationExists                  (* store.go: "location is already subscribed" *)
| ErrSyntax (near : string)              (* engine: near "...": syntax error *)
| ErrNoSuchTable (t : string)
| ErrNoSuchColumn (c : string)
| ErrArgs                                (* driver: wrong number of bound arguments *)
| ErrMismatch                            (* engine: datatype mismatch / bad column count *)
| ErrConstraint (t : string)             (* engine: UNIQUE constraint failed *)
| ErrScan                                (* database/sql: unsupported Scan *)
| ErrMarshal                             (* encoding/json: unsupported value *)
| ErrProvider (msg : string)             (* any error of the AQI provider *)
| Errorf (prefix : string) (e : error).  (* fmt.Errorf(prefix + "%v", e) *)

Inductive result (A : Type) : Type :=
| Ok (a : A)
| Err (e : error).
Arguments Ok {A} a.
Arguments Err {A} e.

Definition bind {A B : Type} (r : result A) (k : A -> result B) : result B :=
  match r with
  | Ok a => k a
  | Err e => Err e
  end.

Declare Scope result_scope.
Delimit Scope result_scope with result.
Notation "x <- c ;; k" := (bind c (fun x => k))
  (at level 100, c at next level, right associativity) : result_scope.
Notation "' p <- c ;; k" := (bind c (fun p => k))
  (at level 100, p pattern, c at next level, right associativity) : result_scope.
#[local] Open Scope result_scope.

Fixpoint mapM {A B : Type} (f : A -> result B) (l : list A) : result (list B) :=
  match l with
  | [] => Ok []
  | a :: l' => b <- f a ;; bs <- mapM f l' ;; Ok (b :: bs)
  end.

(** ** package time *)

Definition Time := Z.       (* nanoseconds since 1970-01-01T00:00:00Z *)
Definition Duration := Z.   (* int64 nanoseconds *)

Definition minDuration : Duration := - 2 ^ 63.
Definition maxDuration : Duration := 2 ^ 63 - 1.
Definition Second : Duration := 1000000000.
Definition Minute : Duration := 60 * Second.
Definition Hour : Duration := 60 * Minute.

(** int64 arithmetic: the result of an operation, wrapped into 64 bits. *)
Definition int64 (z : Z) : Z := (z + 2 ^ 63) mod 2 ^ 64 - 2 ^ 63.

(** Seconds from January 1 of year 1, which is what a [Time] counts, to the
    Unix epoch. *)
Definition unixToInternal : Z := 62135596800.

(** [time.Unix(sec, 0)]: [sec + unixToInternal] is computed in int64 and wraps
    for seconds within 62135596800 of the largest int64. *)
Definition time_Unix (sec : Z) : Time :=
  (int64 (sec + unixToInternal) - unixToInternal) * Second.

(** [t.Sub(u)]: the difference, or the nearest Duration when it does not fit. *)
Definition time_Sub (t u : Time) : Duration :=
  let d := t - u in
  if d <? minDuration then minDuration
  else if maxDuration <? d then maxDuration
  else d.

(** [time.Since(t)] when the clock reads [now]. *)
Definition time_Since (now t : Time) : Duration := time_Sub now t.

(** *** Locations and the text of a time

    A [*time.Location] is the offset, in seconds east of UTC, that the zone
    has at a Unix second ([Location.lookup]). *)
Definition time_Location := Z -> Z.

Definition time_UTC : time_Location := fun _ => 0.

(** The year of the absolute epoch from which [Time.abs] counts, and the
    seconds from it to the Unix epoch. *)
Definition absoluteZeroYear : Z := -292277022399.
Definition unixToAbsolute : Z := 9223372028715321600.

(** [t.unixSec()]: the seconds since the Unix epoch, an int64. *)
Definition unixSec (t : Time) : Z := int64 (t / Second).

(** [t.abs()] in location [loc]: local seconds since the absolute epoch, a
    uint64. *)
Definition time_abs (loc : time_Location) (t : Time) : Z :=
  let sec := unixSec t in
  (sec + loc sec + unixToAbsolute) mod 2 ^ 64.

(** [absDate]: the year and the day of the year (from 0), by cycles of 400,
    100, 4 and 1 years. *)
Definition absDate (abs : Z) : Z * Z :=
  let d := abs / 86400 in
  let n400 := d / 146097 in
  let d := d - 146097 * n400 in
  let n100 := d / 36524 in
  let n100 := n100 - n100 / 4 in
  let d := d - 36524 * n100 in
  let n4 := d / 1461 in
  let d := d - 1461 * n4 in
  let n1 := d / 365 in
  let n1 := n1 - n1 / 4 in
  let d := d - 365 * n1 in
  (400 * n400 + 100 * n100 + 4 * n4 + n1 + absoluteZeroYear, d).

(** [isLeap]. *)
Definition isLeap (year : Z) : bool :=
  (year mod 4 =? 0) && (negb (year mod 100 =? 0) || (year mod 400 =? 0)).

(** [daysBefore]: days before a month (from 0) in a year without leap day. *)
Definition daysBefore (month : Z) : Z :=
  nth (Z.to_nat month) [0; 31; 59; 90; 120; 151; 181; 212; 243; 273; 304; 334; 365] 0.

(** The rest of [absDate]: month and day of the month, both from 1. *)
Definition month_day (leap : bool) (yday : Z) : Z * Z :=
  if leap && (yday =? 31 + 29 - 1) then (2, 29)
  else
    let day := if leap && (yday >? 31 + 29 - 1) then yday - 1 else yday in
    let month := day / 31 in
    let end_ := daysBefore (month + 1) in
    if day >=? end_ then (month + 2, day - end_ + 1)
    else (month + 1, day - daysBefore month + 1).

(** [appendInt]: decimal digits, a sign for negative numbers, zeros up to
    [width] digits. *)
Definition digit (d : Z) : ascii := ascii_of_nat (48 + Z.to_nat d).

Fixpoint decimal (fuel : nat) (u : Z) (acc : string) : string :=
  match fuel with
  | O => acc
  | S fuel' =>
      let acc' := String (digit (u mod 10)) acc in
      if u <? 10 then acc' else decimal fuel' (u / 10) acc'
  end.

Fixpoint zeros (n : nat) : string :=
  match n with
  | O => ""
  | S n' => String "0" (zeros n')
  end.

Definition appendInt (x : Z) (width : nat) : string :=
  let u := Z.abs x in
  let ds := decimal (S (Z.to_nat (Z.log2 u))) u "" in
  (if x <? 0 then "-" else "") ++ zeros (width - String.length ds) ++ ds.

(** [appendNano] for the layout's ".999999999": the fraction without its
    trailing zeros, nothing for a whole second. *)
Fixpoint trim_zeros (fuel : nat) (n : Z) (width : nat) : string :=
  match fuel with
  | O => ""
  | S fuel' =>
      if n mod 10 =? 0 then trim_zeros fuel' (n / 10) (width - 1)
      else appendInt n width
  end.

Definition appendNano (nanosec : Z) : string :=
  if nanosec =? 0 then "" else "." ++ trim_zeros 9 nanosec 9.

(** The zone as "-07:00". *)
Definition appendZone (offset : Z) : string :=
  let zone := Z.quot offset 60 in
  (if zone <? 0 then "-" else "+")
  ++ appendInt (Z.abs zone / 60) 2 ++ ":" ++ appendInt (Z.abs zone mod 60) 2.

(** [t.Format("2006-01-02 15:04:05.999999999-07:00")] for [t] in location
    [loc]: the layout in which the driver writes a [time.Time]. *)
Definition Time_Format (loc : time_Location) (t : Time) : string :=
  let abs := time_abs loc t in
  let (year, yday) := absDate abs in
  let (month, day) := month_day (isLeap year) yday in
  let sec := abs mod 86400 in
  appendInt year 4 ++ "-" ++ appendInt month 2 ++ "-" ++ appendInt day 2
  ++ " " ++ appendInt (sec / 3600) 2 ++ ":" ++ appendInt (sec mod 3600 / 60) 2
  ++ ":" ++ appendInt (sec mod 60) 2
  ++ appendNano (t mod Second) ++ appendZone (loc (unixSec t)).

(** ** owmapi.go: the provider's types *)

Record Location : Type := {
  loc_Latitude : float;
  loc_Longitude : float
}.

Definition AirQualityIndex := Z.

(** The maps [aqiDesc] and [aqiDescription]; a missing key reads as "". *)
Definition aqiDesc (aqi : AirQualityIndex) : string :=
  match aqi with
  | 1 => "🟩 (Good)"
  | 2 => "🟨 (Fair)"
  | 3 => "🟧 (Moderate)"
  | 4 => "🟥 (Poor)"
  | 5 => "⬛ (Very Poor)"
  | _ => ""
  end.

Definition aqiDescription (aqi : AirQualityIndex) : string :=
  match aqi with
  | 1 => "No health implications."
  | 2 => "Some pollutants may slightly affect very few hypersensitive individuals."
  | 3 => "Healthy people may experience slight irritations and sensitive individuals will be slightly affected to a larger extent."
  | 4 => "Sensitive individuals will experience more serious conditions. The hearts and respiratory systems of healthy people may be affected."
  | 5 => "Healthy people will commonly show symptoms. People with respiratory or heart diseases will be significantly affected and will experience reduced endurance in activities."
  | _ => ""
  end.

Definition AQI_String (aqi : AirQualityIndex) : string := aqiDesc aqi.
Definition AQI_Description (aqi : AirQualityIndex) : string := aqiDescription aqi.

(** [DataPoint]; [Components] is the map in key order. *)
Record DataPoint : Type := {
  Dt : Z;
  Main_Aqi : AirQualityIndex;
  Components : list (string * float)
}.

(** [DataPoint{}], the zero value. *)
Definition DataPoint_zero : DataPoint :=
  {| Dt := 0; Main_Aqi := 0; Components := [] |}.

Definition GetAQI (dp : DataPoint) : AirQualityIndex := dp.(Main_Aqi).

Record ApiPollutionResponse : Type := {
  resp_Location : Location;
  resp_DP : list DataPoint
}.

(** ** encoding/json on DataPoint

    The bytes [json.Marshal] produces for a DataPoint are kept as the
    DataPoint they encode: integers, strings and finite floats survive the
    trip through JSON unchanged.  Marshal refuses NaN and infinities. *)
Inductive bytes : Type :=
| JSON (dp : DataPoint).

Definition float_finite (x : float) : bool :=
  negb (PrimFloat.is_nan x) && negb (PrimFloat.is_infinity x).

Definition json_Marshal (dp : DataPoint) : result bytes :=
  if forallb (fun kv => float_finite (snd kv)) dp.(Components)
  then Ok (JSON dp)
  else Err ErrMarshal.

Definition json_Unmarshal (data : bytes) : DataPoint :=
  match data with
  | JSON dp => dp
  end.

(** ** The SQL engine behind [database/sql]

    A model of the engine for the fragment of SQL the store issues: the
    statement text is split into tokens, parsed, and run on the three
    relations of [sqlSchema]. *)
Module SQLite.

(** *** Values *)

(** What a column holds and what a statement is given for a [?].  A
    [time.Time] is bound by the driver as the text [Time_Format] gives it in
    the process's zone and read back by parsing that text; a [VTime] keeps the
    instant, and the engine, which only sees the text, is given the text where
    it orders rows (see [value_ltb]). *)
Inductive value : Type :=
| VNull
| VInt (n : Z)
| VReal (x : float)
| VText (s : string)
| VBlob (b : bytes)
| VTime (t : Time).

Definition row := list value.

(** What a REAL column gives back for a number written to it.  The engine
    keeps a REAL without fraction as an integer and converts it back on
    reading, which loses the sign of a negative zero and nothing else. *)
Definition negative_zero (x : float) : bool :=
  match PrimFloat.classify x with
  | FloatClass.NZero => true
  | _ => false
  end.

Definition stored_float (x : float) : float :=
  if negative_zero x then 0%float else x.

(** Binding a [float64] for a REAL column: the engine stores NaN as NULL. *)
Definition bind_float (x : float) : value :=
  if PrimFloat.is_nan x then VNull else VReal (stored_float x).

(** *** Tokens *)

Inductive token : Type :=
| TWord (s : string)     (* keyword, name or number *)
| TIdent (s : string)    (* `quoted` name *)
| TStr (s : string)      (* 'string literal' *)
| TSym (s : string).     (* operator or punctuation *)

Definition token_text (t : token) : string :=
  match t with
  | TWord s | TIdent s | TStr s | TSym s => s
  end.

Definition between (lo hi : nat) (c : ascii) : bool :=
  let n := nat_of_ascii c in (lo <=? n)%nat && (n <=? hi)%nat.

Definition is_space (c : ascii) : bool :=
  let n := nat_of_ascii c in
  (n =? 32)%nat || (n =? 9)%nat || (n =? 10)%nat || (n =? 13)%nat.

Definition is_digit (c : ascii) : bool := between 48 57 c.

Definition is_word (c : ascii) : bool :=
  between 97 122 c || between 65 90 c || is_digit c || (nat_of_ascii c =? 95)%nat.

Definition is_op (c : ascii) : bool :=
  let n := nat_of_ascii c in
  (n =? 60)%nat || (n =? 61)%nat || (n =? 62)%nat || (n =? 33)%nat.

(** Backquote opens a quoted name, apostrophe a string literal. *)
Definition is_quote (c : ascii) : bool :=
  let n := nat_of_ascii c in (n =? 96)%nat || (n =? 39)%nat.

Definition snoc (s : string) (c : ascii) : string := s ++ String c "".

Inductive lex_state : Type :=
| LxIdle
| LxWord (acc : string)
| LxOp (acc : string)
| LxQuote (q : ascii) (acc : string).

Definition flush (st : lex_state) : list token :=
  match st with
  | LxWord acc => [TWord acc]
  | LxOp acc => [TSym acc]
  | LxIdle | LxQuote _ _ => []
  end.

Definition quoted (q : ascii) (acc : string) : token :=
  if (nat_of_ascii q =? 96)%nat then TIdent acc else TStr acc.

Fixpoint lex (st : lex_state) (s : string) : result (list token) :=
  match s with
  | EmptyString =>
      match st with
      | LxQuote _ acc => Err (ErrSyntax acc)
      | _ => Ok (flush st)
      end
  | String c rest =>
      match st with
      | LxQuote q acc =>
          if Ascii.eqb c q
          then ts <- lex LxIdle rest ;; Ok (quoted q acc :: ts)
          else lex (LxQuote q (snoc acc c)) rest
      | _ =>
          if is_word c then
            match st with
            | LxWord acc => lex (LxWord (snoc acc c)) rest
            | _ => ts <- lex (LxWord (String c "")) rest ;; Ok (flush st ++ ts)%list
            end
          else if is_op c then
            match st with
            | LxOp acc => lex (LxOp (snoc acc c)) rest
            | _ => ts <- lex (LxOp (String c "")) rest ;; Ok (flush st ++ ts)%list
            end
          else if is_quote c then
            ts <- lex (LxQuote c "") rest ;; Ok (flush st ++ ts)%list
          else if is_space c then
            ts <- lex LxIdle rest ;; Ok (flush st ++ ts)%list
          else
            ts <- lex LxIdle rest ;; Ok (flush st ++ TSym (String c "") :: ts)%list
      end
  end.

Definition tokenize (sql : string) : result (list token) := lex LxIdle sql.

(** *** Statements *)

Inductive expr : Type :=
| EParam (i : nat)   (* the i-th [?] of the statement, from 0 *)
| ENum (n : Z).

(** [column = expr], in a WHERE conjunction or a SET list. *)
Definition equation : Type := string * expr.

Inductive stmt : Type :=
| Select (cols : list string) (tbl : string) (whr : list equation)
         (order_by : option (string * bool)) (limit : option Z)
| Insert (or_replace : bool) (tbl : string) (cols : list string) (vals : list expr)
| Update (tbl : string) (sets : list equation) (whr : list equation)
| Delete (tbl : string) (whr : list equation).

(** *** Parser *)

Definition upper_char (c : ascii) : ascii :=
  if between 97 122 c then ascii_of_nat (nat_of_ascii c - 32) else c.

Fixpoint upper (s : string) : string :=
  match s with
  | EmptyString => EmptyString
  | String c r => String (upper_char c) (upper r)
  end.

(** Keywords are case-insensitive. *)
Definition kw (k : string) (t : token) : bool :=
  match t with
  | TWord w => String.eqb (upper w) k
  | _ => false
  end.

Definition sym (k : string) (t : token) : bool :=
  match t with
  | TSym w => String.eqb w k
  | _ => false
  end.

Definition reserved : list string :=
  ["SELECT"; "FROM"; "WHERE"; "INSERT"; "REPLACE"; "INTO"; "VALUES"; "UPDATE";
   "SET"; "DELETE"; "ORDER"; "BY"; "LIMIT"; "AND"; "DESC"; "ASC"].

Fixpoint all_digits (s : string) : bool :=
  match s with
  | EmptyString => true
  | String c r => is_digit c && all_digits r
  end.

Fixpoint digits_value (acc : Z) (s : string) : Z :=
  match s with
  | EmptyString => acc
  | String c r => digits_value (10 * acc + Z.of_nat (nat_of_ascii c - 48)) r
  end.

Definition syntax_error {A : Type} (ts : list token) : result A :=
  match ts with
  | t :: _ => Err (ErrSyntax (token_text t))
  | [] => Err (ErrSyntax "")
  end.

(** A table or column name. *)
Definition name_of (t : token) : result string :=
  match t with
  | TIdent s => Ok s
  | TWord w =>
      if existsb (String.eqb (upper w)) reserved || all_digits w
      then Err (ErrSyntax w) else Ok w
  | _ => Err (ErrSyntax (token_text t))
  end.

(** An expression is one token: a placeholder or an integer literal.
    [k] counts the placeholders seen so far. *)
Definition expr_of (k : nat) (t : token) : result (expr * nat) :=
  match t with
  | TSym "?" => Ok (EParam k, S k)
  | TWord w =>
      if negb (String.eqb w "") && all_digits w
      then Ok (ENum (digits_value 0 w), k) else Err (ErrSyntax w)
  | _ => Err (ErrSyntax (token_text t))
  end.

Definition expect (p : token -> bool) (ts : list token) : result (list token) :=
  match ts with
  | t :: rest => if p t then Ok rest else syntax_error ts
  | [] => syntax_error ts
  end.

Fixpoint parse_names (ts : list token) : result (list string * list token) :=
  match ts with
  | t :: rest =>
      n <- name_of t ;;
      match rest with
      | t2 :: rest2 =>
          if sym "," t2
          then '(ns, r) <- parse_names rest2 ;; Ok (n :: ns, r)
          else Ok ([n], rest)
      | [] => Ok ([n], [])
      end
  | [] => syntax_error ts
  end.

Fixpoint parse_exprs (k : nat) (ts : list token)
  : result (list expr * nat * list token) :=
  match ts with
  | t :: rest =>
      '(e, k1) <- expr_of k t ;;
      match rest with
      | t2 :: rest2 =>
          if sym "," t2
          then '(es, k2, r) <- parse_exprs k1 rest2 ;; Ok (e :: es, k2, r)
          else Ok ([e], k1, rest)
      | [] => Ok ([e], k1, [])
      end
  | [] => syntax_error ts
  end.

(** [name = expr] repeated, separated by tokens satisfying [sep]. *)
Fixpoint parse_equations (sep : token -> bool) (k : nat) (ts : list token)
  : result (list equation * nat * list token) :=
  match ts with
  | t1 :: ts1 =>
      c <- name_of t1 ;;
      match ts1 with
      | t2 :: ts2 =>
          if sym "=" t2 then
            match ts2 with
            | t3 :: ts3 =>
                '(e, k1) <- expr_of k t3 ;;
                match ts3 with
                | t4 :: ts4 =>
                    if sep t4
                    then '(cs, k2, r) <- parse_equations sep k1 ts4 ;;
                         Ok ((c, e) :: cs, k2, r)
                    else Ok ([(c, e)], k1, ts3)
                | [] => Ok ([(c, e)], k1, [])
                end
            | [] => syntax_error ts2
            end
          else syntax_error ts1
      | [] => syntax_error ts1
      end
  | [] => syntax_error ts
  end.

Definition parse_where (k : nat) (ts : list token)
  : result (list equation * nat * list token) :=
  match ts with
  | t :: rest => if kw "WHERE" t then parse_equations (kw "AND") k rest else Ok ([], k, ts)
  | [] => Ok ([], k, [])
  end.

Definition parse_order (ts : list token)
  : result (option (string * bool) * list token) :=
  match ts with
  | t :: rest =>
      if kw "ORDER" t then
        rest1 <- expect (kw "BY") rest ;;
        match rest1 with
        | t1 :: rest2 =>
            c <- name_of t1 ;;
            match rest2 with
            | t2 :: rest3 =>
                if kw "DESC" t2 then Ok (Some (c, true), rest3)
                else if kw "ASC" t2 then Ok (Some (c, false), rest3)
                else Ok (Some (c, false), rest2)
            | [] => Ok (Some (c, false), [])
            end
        | [] => syntax_error rest1
        end
      else Ok (None, ts)
  | [] => Ok (None, [])
  end.

Definition parse_limit (ts : list token) : result (option Z * list token) :=
  match ts with
  | t :: rest =>
      if kw "LIMIT" t then
        match rest with
        | t1 :: rest1 =>
            '(e, _) <- expr_of 0 t1 ;;
            match e with
            | ENum n => Ok (Some n, rest1)
            | EParam _ => syntax_error rest
            end
        | [] => syntax_error rest
        end
      else Ok (None, ts)
  | [] => Ok (None, [])
  end.

(** Nothing may follow a statement but one optional semicolon. *)
Definition parse_end {A : Type} (a : A) (ts : list token) : result A :=
  match ts with
  | [] => Ok a
  | [t] => if sym ";" t then Ok a else syntax_error ts
  | _ => syntax_error ts
  end.

Definition parse_select (ts : list token) : result stmt :=
  '(cols, ts1) <- parse_names ts ;;
  ts2 <- expect (kw "FROM") ts1 ;;
  match ts2 with
  | t :: ts3 =>
      tbl <- name_of t ;;
      '(whr, _, ts4) <- parse_where 0 ts3 ;;
      '(ord, ts5) <- parse_order ts4 ;;
      '(lim, ts6) <- parse_limit ts5 ;;
      parse_end (Select cols tbl whr ord lim) ts6
  | [] => syntax_error ts2
  end.

Definition parse_insert (or_replace : bool) (ts : list token) : result stmt :=
  ts1 <- expect (kw "INTO") ts ;;
  match ts1 with
  | t :: ts2 =>
      tbl <- name_of t ;;
      ts3 <- expect (sym "(") ts2 ;;
      '(cols, ts4) <- parse_names ts3 ;;
      ts5 <- expect (sym ")") ts4 ;;
      ts6 <- expect (kw "VALUES") ts5 ;;
      ts7 <- expect (sym "(") ts6 ;;
      '(vals, _, ts8) <- parse_exprs 0 ts7 ;;
      ts9 <- expect (sym ")") ts8 ;;
      parse_end (Insert or_replace tbl cols vals) ts9
  | [] => syntax_error ts1
  end.

Definition parse_update (ts : list token) : result stmt :=
  match ts with
  | t :: ts1 =>
      tbl <- name_of t ;;
      ts2 <- expect (kw "SET") ts1 ;;
      '(sets, k, ts3) <- parse_equations (sym ",") 0 ts2 ;;
      '(whr, _, ts4) <- parse_where k ts3 ;;
      parse_end (Update tbl sets whr) ts4
  | [] => syntax_error ts
  end.

(** The engine's grammar has DELETE FROM table; the FROM is not optional. *)
Definition parse_delete (ts : list token) : result stmt :=
  ts1 <- expect (kw "FROM") ts ;;
  match ts1 with
  | t :: ts2 =>
      tbl <- name_of t ;;
      '(whr, _, ts3) <- parse_where 0 ts2 ;;
      parse_end (Delete tbl whr) ts3
  | [] => syntax_error ts1
  end.

Definition parse (ts : list token) : result stmt :=
  match ts with
  | t :: rest =>
      if kw "SELECT" t then parse_select rest
      else if kw "INSERT" t then parse_insert false rest
      else if kw "REPLACE" t then parse_insert true rest
      else if kw "UPDATE" t then parse_update rest
      else if kw "DELETE" t then parse_delete rest
      else syntax_error ts
  | [] => syntax_error ts
  end.

(** [sqlite3_prepare]: text to statement, or a syntax error. *)
Definition prepare (sql : string) : result stmt :=
  ts <- tokenize sql ;; parse ts.

(** *** Tables

    The database file holds the three relations that [sqlSchema] creates:
    - user_session(chatid INTEGER PRIMARY KEY, userid, language, longitude,
      latitude, created_at)
    - data_point(id INTEGER PRIMARY KEY AUTOINCREMENT, chat_id, data,
      created_at)
    - subscription(id INTEGER PRIMARY KEY AUTOINCREMENT, chat_id, language,
      longitude, latitude, aqi, enabled, created_at)
    A row lists its values in the order of the columns.  Foreign keys are not
    enforced (the connection does not switch them on). *)

Record table_def : Type := {
  t_name : string;
  t_cols : list string;
  t_pk : nat;            (* position of the INTEGER PRIMARY KEY column *)
  t_autoinc : bool
}.

Definition user_session_def : table_def :=
  {| t_name := "user_session";
     t_cols := ["chatid"; "userid"; "language"; "longitude"; "latitude"; "created_at"];
     t_pk := 0; t_autoinc := false |}.

Definition data_point_def : table_def :=
  {| t_name := "data_point";
     t_cols := ["id"; "chat_id"; "data"; "created_at"];
     t_pk := 0; t_autoinc := true |}.

Definition subscription_def : table_def :=
  {| t_name := "subscription";
     t_cols := ["id"; "chat_id"; "language"; "longitude"; "latitude"; "aqi"; "enabled"; "created_at"];
     t_pk := 0; t_autoinc := true |}.

(** A table: its rows in rowid order, and the largest rowid ever handed out
    (what sqlite_sequence remembers for AUTOINCREMENT). *)
Record table : Type := {
  rows : list row;
  seq : Z
}.

(** The database as the program holds it: the three relations and [zone],
    the time zone of the process ([time.Local]), in which the driver writes
    the timestamps. *)
Record db : Type := {
  user_session : table;
  data_point : table;
  subscription : table;
  zone : time_Location
}.

Definition empty_table : table := {| rows := []; seq := 0 |}.

Definition empty_db (loc : time_Location) : db :=
  {| user_session := empty_table; data_point := empty_table; subscription := empty_table;
     zone := loc |}.

Definition find_table (n : string) (d : db) : result (table_def * table) :=
  if String.eqb n "user_session" then Ok (user_session_def, d.(user_session))
  else if String.eqb n "data_point" then Ok (data_point_def, d.(data_point))
  else if String.eqb n "subscription" then Ok (subscription_def, d.(subscription))
  else Err (ErrNoSuchTable n).

Definition set_table (n : string) (t : table) (d : db) : db :=
  if String.eqb n "user_session" then
    {| user_session := t; data_point := d.(data_point); subscription := d.(subscription);
       zone := d.(zone) |}
  else if String.eqb n "data_point" then
    {| user_session := d.(user_session); data_point := t; subscription := d.(subscription);
       zone := d.(zone) |}
  else if String.eqb n "subscription" then
    {| user_session := d.(user_session); data_point := d.(data_point); subscription := t;
       zone := d.(zone) |}
  else d.

(** *** Running a statement *)

Fixpoint index_of (c : string) (cols : list string) : option nat :=
  match cols with
  | [] => None
  | x :: cols' =>
      if String.eqb x c then Some O
      else match index_of c cols' with
           | Some i => Some (S i)
           | None => None
           end
  end.

Definition column (def : table_def) (c : string) : result nat :=
  match index_of c def.(t_cols) with
  | Some i => Ok i
  | None => Err (ErrNoSuchColumn c)
  end.

Definition eval (params : list value) (e : expr) : result value :=
  match e with
  | EParam i =>
      match nth_error params i with
      | Some v => Ok v
      | None => Err ErrArgs
      end
  | ENum n => Ok (VInt n)
  end.

(** Column positions and values of a list of [column = expr]. *)
Definition resolve (def : table_def) (params : list value) (eqs : list equation)
  : result (list (nat * value)) :=
  mapM (fun ce => i <- column def (fst ce) ;; v <- eval params (snd ce) ;; Ok (i, v)) eqs.

Definition field (i : nat) (r : row) : value := nth i r VNull.

(** SQL [=]: NULL equals nothing.  The store only compares INTEGER columns
    with integers; across storage classes and between BLOBs the model answers
    false. *)
Definition sql_eqb (a b : value) : bool :=
  match a, b with
  | VInt x, VInt y => x =? y
  | VReal x, VReal y => PrimFloat.eqb x y
  | VText x, VText y => String.eqb x y
  | VTime x, VTime y => x =? y
  | _, _ => false
  end.

Definition row_matches (conds : list (nat * value)) (r : row) : bool :=
  forallb (fun iv => sql_eqb (field (fst iv) r) (snd iv)) conds.

(** The sort order of values: NULL, then numbers, then texts, then BLOBs;
    inside a class by value (values the model cannot compare count as
    equal).  Texts compare byte by byte, a timestamp being the text the driver
    wrote for it in the zone [loc]. *)
Definition class_rank (v : value) : Z :=
  match v with
  | VNull => 0
  | VInt _ | VReal _ => 1
  | VText _ | VTime _ => 2
  | VBlob _ => 3
  end.

Definition as_text (loc : time_Location) (v : value) : option string :=
  match v with
  | VText s => Some s
  | VTime t => Some (Time_Format loc t)
  | _ => None
  end.

Definition value_ltb (loc : time_Location) (a b : value) : bool :=
  match a, b with
  | VInt x, VInt y => x <? y
  | VReal x, VReal y => PrimFloat.ltb x y
  | _, _ =>
      match as_text loc a, as_text loc b with
      | Some x, Some y =>
          match String.compare x y with
          | Lt => true
          | _ => false
          end
      | _, _ => class_rank a <? class_rank b
      end
  end.

(** [a] sorts strictly before [b]. *)
Definition precedes (loc : time_Location) (desc : bool) (a b : value) : bool :=
  if desc then value_ltb loc b a else value_ltb loc a b.

(** ORDER BY as a stable insertion sort: rows with equal keys keep their
    table order (the engine does not promise an order among them). *)
Fixpoint insert_sorted (loc : time_Location) (i : nat) (desc : bool) (r : row)
    (l : list row) : list row :=
  match l with
  | [] => [r]
  | x :: l' =>
      if precedes loc desc (field i x) (field i r)
      then x :: insert_sorted loc i desc r l'
      else r :: x :: l'
  end.

Definition sort_rows (loc : time_Location) (i : nat) (desc : bool) (l : list row)
  : list row :=
  fold_right (insert_sorted loc i desc) [] l.

Definition project (idxs : list nat) (r : row) : row :=
  map (fun i => field i r) idxs.

Definition run_select (cols : list string) (tbl : string) (whr : list equation)
    (ord : option (string * bool)) (lim : option Z) (params : list value) (d : db)
  : result (list row) :=
  '(def, t) <- find_table tbl d ;;
  idxs <- mapM (column def) cols ;;
  conds <- resolve def params whr ;;
  ord' <- match ord with
          | None => Ok None
          | Some (c, desc) => i <- column def c ;; Ok (Some (i, desc))
          end ;;
  let hits := filter (row_matches conds) t.(rows) in
  let sorted := match ord' with
                | None => hits
                | Some (i, desc) => sort_rows d.(zone) i desc hits
                end in
  let limited := match lim with
                 | None => sorted
                 | Some n => firstn (Z.to_nat n) sorted
                 end in
  Ok (map (project idxs) limited).

Fixpoint lookup (i : nat) (asg : list (nat * value)) : value :=
  match asg with
  | [] => VNull
  | (j, v) :: asg' => if Nat.eqb i j then v else lookup i asg'
  end.

Fixpoint set_nth (i : nat) (v : value) (r : row) : row :=
  match r, i with
  | [], _ => []
  | _ :: r', O => v :: r'
  | x :: r', S i' => x :: set_nth i' v r'
  end.

(** The new row of an INSERT: listed columns take their values, the others
    are NULL. *)
Definition build_row (width : nat) (asg : list (nat * value)) : row :=
  map (fun i => lookup i asg) (List.seq 0 width).

Definition rowid (pk : nat) (r : row) : Z :=
  match field pk r with
  | VInt n => n
  | _ => 0
  end.

Definition max_rowid (pk : nat) (l : list row) : Z :=
  fold_right (fun r m => Z.max (rowid pk r) m) 0 l.

(** The rowid given to a row inserted without one. *)
Definition next_rowid (def : table_def) (t : table) : Z :=
  if def.(t_autoinc)
  then Z.max t.(seq) (max_rowid def.(t_pk) t.(rows)) + 1
  else max_rowid def.(t_pk) t.(rows) + 1.

Fixpoint insert_row (pk : nat) (r : row) (l : list row) : list row :=
  match l with
  | [] => [r]
  | x :: l' =>
      if rowid pk r <? rowid pk x then r :: x :: l'
      else x :: insert_row pk r l'
  end.

(** INSERT and REPLACE.  A row whose primary key is already present makes
    INSERT fail and makes REPLACE delete the old row first. *)
Definition run_insert (or_replace : bool) (tbl : string) (cols : list string)
    (vals : list expr) (params : list value) (d : db) : result db :=
  '(def, t) <- find_table tbl d ;;
  idxs <- mapM (column def) cols ;;
  vs <- mapM (eval params) vals ;;
  if negb (Nat.eqb (List.length idxs) (List.length vs)) then Err ErrMismatch else
  let r0 := build_row (List.length def.(t_cols)) (combine idxs vs) in
  r <- match field def.(t_pk) r0 with
       | VNull => Ok (set_nth def.(t_pk) (VInt (next_rowid def t)) r0)
       | VInt _ => Ok r0
       | _ => Err ErrMismatch
       end ;;
  let same := fun x : row => rowid def.(t_pk) x =? rowid def.(t_pk) r in
  if existsb same t.(rows) && negb or_replace then Err (ErrConstraint tbl) else
  let kept := filter (fun x => negb (same x)) t.(rows) in
  Ok (set_table tbl
        {| rows := insert_row def.(t_pk) r kept;
           seq := if def.(t_autoinc) then Z.max t.(seq) (rowid def.(t_pk) r) else t.(seq) |}
        d).

Definition assign (asg : list (nat * value)) (r : row) : row :=
  fold_left (fun r' iv => set_nth (fst iv) (snd iv) r') asg r.

Definition run_update (tbl : string) (sets whr : list equation)
    (params : list value) (d : db) : result db :=
  '(def, t) <- find_table tbl d ;;
  asg <- resolve def params sets ;;
  conds <- resolve def params whr ;;
  Ok (set_table tbl
        {| rows := map (fun r => if row_matches conds r then assign asg r else r) t.(rows);
           seq := t.(seq) |}
        d).

Definition run_delete (tbl : string) (whr : list equation)
    (params : list value) (d : db) : result db :=
  '(def, t) <- find_table tbl d ;;
  conds <- resolve def params whr ;;
  Ok (set_table tbl
        {| rows := filter (fun r => negb (row_matches conds r)) t.(rows);
           seq := t.(seq) |}
        d).

Definition params_of (es : list expr) : nat :=
  List.length (filter (fun e => match e with EParam _ => true | ENum _ => false end) es).

(** The number of [?] in a statement. *)
Definition placeholders (s : stmt) : nat :=
  match s with
  | Select _ _ whr _ _ => params_of (map snd whr)
  | Insert _ _ _ vals => params_of vals
  | Update _ sets whr => (params_of (map snd sets) + params_of (map snd whr))%nat
  | Delete _ whr => params_of (map snd whr)
  end.

Definition prepare_bound (sql : string) (params : list value) : result stmt :=
  s <- prepare sql ;;
  if Nat.eqb (placeholders s) (List.length params) then Ok s else Err ErrArgs.

(** [DB.Exec(sql, params...)]: the database after the statement, or the
    error and the database as it was. *)
Definition Exec (d : db) (sql : string) (params : list value) : result db :=
  s <- prepare_bound sql params ;;
  match s with
  | Select _ _ _ _ _ => Ok d
  | Insert or_replace tbl cols vals => run_insert or_replace tbl cols vals params d
  | Update tbl sets whr => run_update tbl sets whr params d
  | Delete tbl whr => run_delete tbl whr params d
  end.

(** [DB.Query(sql, params...)], read to the end; the store queries with
    SELECT only. *)
Definition Query (d : db) (sql : string) (params : list value) : result (list row) :=
  s <- prepare_bound sql params ;;
  match s with
  | Select cols tbl whr ord lim => run_select cols tbl whr ord lim params d
  | _ => Err ErrMismatch
  end.

(** [DB.QueryRow(sql, params...)] up to [Scan]: the first row, or
    [sql.ErrNoRows]. *)
Definition QueryRow (d : db) (sql : string) (params : list value) : result row :=
  rs <- Query d sql params ;;
  match rs with
  | r :: _ => Ok r
  | [] => Err ErrNoRows
  end.

(** *** [Scan] destinations

    Conversions from a column value to the Go destination.  The rows this
    program writes are read back into the types they were written from;
    other conversions are reported as scan errors. *)
Definition scan_int64 (v : value) : result Z :=
  match v with
  | VInt n => Ok n
  | _ => Err ErrScan
  end.

Definition scan_string (v : value) : result string :=
  match v with
  | VText s => Ok s
  | _ => Err ErrScan
  end.

Definition scan_float64 (v : value) : result float :=
  match v with
  | VReal x => Ok x
  | _ => Err ErrScan
  end.

(** A timestamp text is parsed back into the instant it was written for.
    Only times of the clock are read back; they are taken to lie in years of
    four digits and at offsets of whole minutes, where the layout loses
    nothing. *)
Definition scan_Time (v : value) : result Time :=
  match v with
  | VTime t => Ok t
  | _ => Err ErrScan
  end.

Definition scan_bytes (v : value) : result bytes :=
  match v with
  | VBlob b => Ok b
  | _ => Err ErrScan
  end.

End SQLite.

Import SQLite.

(** ** store.go *)

Record UserSession : Type := {
  UserID : Z;
  ChatID : Z;
  LanguageCode : string;
  Longitude : float;
  Latitude : float;
  CreatedAt : Time
}.

(** [UserSession{}]. *)
Definition UserSession_zero : UserSession :=
  {| UserID := 0; ChatID := 0; LanguageCode := "";
     Longitude := 0%float; Latitude := 0%float; CreatedAt := 0 |}.

(** SetLocation adds a location to the UserSession. *)
Definition SetLocation (us : UserSession) (l : Location) : UserSession :=
  {| UserID := us.(UserID); ChatID := us.(ChatID); LanguageCode := us.(LanguageCode);
     Longitude := l.(loc_Longitude); Latitude := l.(loc_Latitude);
     CreatedAt := us.(CreatedAt) |}.

(** Store keeps UserSessions, DataPoints and Subscriptions. *)
Record Store : Type := {
  DB : db;
  CacheTime : Duration
}.

Definition with_DB (s : Store) (d : db) : Store :=
  {| DB := d; CacheTime := s.(CacheTime) |}.

(** The result of a method that returns [error] and may have written to the
    database: the store afterwards and the error, if any. *)
Definition exec_result (s : Store) (prefix : option string) (r : result db)
  : Store * option error :=
  match r with
  | Ok d => (with_DB s d, None)
  | Err e => (s, Some match prefix with
                      | Some p => Errorf p e
                      | None => e
                      end)
  end.

(** UpdateUserSession replaces the UserSession in a DB. *)
Definition UpdateUserSession (s : Store) (n : UserSession) (now : Time)
  : Store * option error :=
  exec_result s (Some "UpdateUserSession: ")
    (Exec s.(DB)
       "REPLACE INTO user_session (userid, chatid, language, longitude, latitude, created_at) VALUES (?, ?, ?, ?, ?, ?)"
       [VInt n.(UserID); VInt n.(ChatID); VText n.(LanguageCode);
        bind_float n.(Longitude); bind_float n.(Latitude); VTime now]).

(** AddDataPoint adds the DataPoints for the ChatID, one INSERT each; it stops
    at the first failure, leaving the earlier rows in place. *)
Fixpoint AddDataPoint (s : Store) (chatID : Z) (dps : list DataPoint)
  : Store * option error :=
  match dps with
  | [] => (s, None)
  | dp :: dps' =>
      match json_Marshal dp with
      | Err e => (s, Some (Errorf "marshaling DP: " e))
      | Ok dataPoint =>
          match Exec s.(DB)
                  "INSERT into `data_point` (`chat_id`, `data`, `created_at`) VALUES(?, ?, ?)"
                  [VInt chatID; VBlob dataPoint; VTime (time_Unix dp.(Dt))] with
          | Err e => (s, Some (Errorf "updating DB: " e))
          | Ok d => AddDataPoint (with_DB s d) chatID dps'
          end
      end
  end.

(** GetSessionByChatID returns an UserSession by ChatID. Or error. *)
Definition GetSessionByChatID (s : Store) (chatID : Z) : result UserSession :=
  r <- QueryRow s.(DB)
         "SELECT chatid, userid, language, longitude, latitude, created_at FROM user_session WHERE chatid=?"
         [VInt chatID] ;;
  match r with
  | [c1; c2; c3; c4; c5; c6] =>
      us_ChatID <- scan_int64 c1 ;;
      us_UserID <- scan_int64 c2 ;;
      us_LanguageCode <- scan_string c3 ;;
      us_Longitude <- scan_float64 c4 ;;
      us_Latitude <- scan_float64 c5 ;;
      us_CreatedAt <- scan_Time c6 ;;
      Ok {| UserID := us_UserID; ChatID := us_ChatID; LanguageCode := us_LanguageCode;
            Longitude := us_Longitude; Latitude := us_Latitude; CreatedAt := us_CreatedAt |}
  | _ => Err ErrScan
  end.

(** GetLastPD returns latest DataPoint for the ChatID; when the chat has no
    row it returns [&DataPoint{}] and a nil error. *)
Definition GetLastPD (s : Store) (chatID : Z) : result DataPoint :=
  match
    (r <- QueryRow s.(DB)
            "SELECT data FROM data_point WHERE chat_id=? ORDER BY created_at DESC LIMIT 1"
            [VInt chatID] ;;
     match r with
     | [c1] => scan_bytes c1
     | _ => Err ErrScan
     end)
  with
  | Err ErrNoRows => Ok DataPoint_zero
  | Err e => Err e
  | Ok data => Ok (json_Unmarshal data)
  end.

(** AQISubscription represents a Users subscription to AQI updates: an ID and
    the embedded UserSession and AirQualityIndex. *)
Record AQISubscription : Type := {
  ID : Z;
  sub_UserSession : UserSession;
  sub_AirQualityIndex : AirQualityIndex
}.

(** ListAQISubscriptions returns AQISubscriptions for the chatID. *)
Definition ListAQISubscriptions (s : Store) (chatID : Z) : result (list AQISubscription) :=
  rs <- Query s.(DB)
          "SELECT chat_id, language, longitude, latitude, aqi, created_at FROM subscription WHERE chat_id=? AND enabled=1"
          [VInt chatID] ;;
  mapM (fun r : row =>
          match r with
          | [c1; c2; c3; c4; c5; c6] =>
              subs_ChatID <- scan_int64 c1 ;;
              subs_LanguageCode <- scan_string c2 ;;
              subs_Longitude <- scan_float64 c3 ;;
              subs_Latitude <- scan_float64 c4 ;;
              subs_AirQualityIndex <- scan_int64 c5 ;;
              subs_CreatedAt <- scan_Time c6 ;;
              Ok {| ID := 0;
                    sub_UserSession :=
                      {| UserID := 0; ChatID := subs_ChatID;
                         LanguageCode := subs_LanguageCode;
                         Longitude := subs_Longitude; Latitude := subs_Latitude;
                         CreatedAt := subs_CreatedAt |};
                    sub_AirQualityIndex := subs_AirQualityIndex |}
          | _ => Err ErrScan
          end) rs.

(** [math.Abs]. *)
Definition math_Abs (x : float) : float := PrimFloat.abs x.

(** AddAQISubscription gathers the latest data for the chatID and creates a
    new AQISubscription record. *)
Definition AddAQISubscription (s : Store) (chatID : Z) (now : Time)
  : Store * option error :=
  match GetSessionByChatID s chatID with
  | Err e => (s, Some e)
  | Ok us =>
      (* duplicate check *)
      match ListAQISubscriptions s chatID with
      | Err e => (s, Some e)
      | Ok subs =>
          if existsb
               (fun s0 =>
                  PrimFloat.ltb
                    (math_Abs (s0.(sub_UserSession).(Latitude) - us.(Latitude))%float)
                    0.0009%float
                  || PrimFloat.ltb
                       (math_Abs (s0.(sub_UserSession).(Longitude) - us.(Longitude))%float)
                       0.0009%float)
               subs
          then (s, Some ErrNotificationExists)
          else
            match GetLastPD s chatID with
            | Err e => (s, Some e)
            | Ok dp =>
                exec_result s (Some "addAQISubscription: ")
                  (Exec s.(DB)
                     "INSERT INTO subscription (chat_id, language, longitude, latitude, aqi, enabled, created_at) VALUES (?, ?, ?, ?, ?, ?, ?)"
                     [VInt us.(ChatID); VText us.(LanguageCode);
                      bind_float us.(Longitude); bind_float us.(Latitude);
                      VInt (GetAQI dp); VInt 1; VTime now])
            end
      end
  end.

(** DeleteAQISubscriptions disables all AQISubscriptions for the chatID. *)
Definition DeleteAQISubscriptions (s : Store) (chatID : Z) : Store * option error :=
  exec_result s None
    (Exec s.(DB) "UPDATE subscription SET enabled=0 WHERE chat_id=?" [VInt chatID]).

(** ListEnabledSubscriptions returns all active AQISubscriptions. *)
Definition ListEnabledSubscriptions (s : Store) : result (list AQISubscription) :=
  rs <- Query s.(DB)
          "SELECT id, chat_id, language, longitude, latitude, aqi, created_at FROM subscription WHERE enabled=1"
          [] ;;
  mapM (fun r : row =>
          match r with
          | [c1; c2; c3; c4; c5; c6; c7] =>
              sub_ID <- scan_int64 c1 ;;
              sub_ChatID <- scan_int64 c2 ;;
              sub_LanguageCode <- scan_string c3 ;;
              sub_Longitude <- scan_float64 c4 ;;
              sub_Latitude <- scan_float64 c5 ;;
              sub_AQI <- scan_int64 c6 ;;
              sub_CreatedAt <- scan_Time c7 ;;
              Ok {| ID := sub_ID;
                    sub_UserSession :=
                      {| UserID := 0; ChatID := sub_ChatID;
                         LanguageCode := sub_LanguageCode;
                         Longitude := sub_Longitude; Latitude := sub_Latitude;
                         CreatedAt := sub_CreatedAt |};
                    sub_AirQualityIndex := sub_AQI |}
          | _ => Err ErrScan
          end) rs.

(** UpdateSubscriptionAQI sets the AirQualityIndex for a subscription. *)
Definition UpdateSubscriptionAQI (s : Store) (subID : Z) (aqi : AirQualityIndex)
  : Store * option error :=
  exec_result s None
    (Exec s.(DB) "UPDATE subscription SET aqi=? WHERE id=?" [VInt aqi; VInt subID]).

(** ClenupAQISubscriptions cleans up disabled AQISubscriptions. *)
Definition ClenupAQISubscriptions (s : Store) : Store * option error :=
  exec_result s None (Exec s.(DB) "DELETE subscription WHERE enabled=0" []).

(** ClenupDataPoint deletes DataPoints older than 12 hours. *)
Definition ClenupDataPoint (s : Store) : Store * option error :=
  exec_result s None
    (Exec s.(DB) "DELETE data_point WHERE created_at <= datetime('now', '-12 hour')" []).

(** [NewBot]'s store once [Init] has created the tables. *)
Definition OpenStore (loc : time_Location) : Store :=
  {| DB := empty_db loc; CacheTime := 10 * Minute |}.

(** The store of a bot whose process runs in UTC. *)
Definition NewStore : Store := OpenStore time_UTC.

(** ** bot.go *)

Definition safeToRetryErrMsg : string := "Error! Please, retry!".
Definition aqiGetsWorseMsg : string := "😷 AQI gets worse".
Definition aqiGetsBetterMsg : string := "😌 AQI gets better".
Definition aqiText : string := "Air Quality Index".

(** The part of [tgbotapi.Message] the location handler reads. *)
Record Message : Type := {
  msg_Chat_ID : Z;
  msg_From_ID : Z;
  msg_From_LanguageCode : string;
  msg_Location : option Location
}.

Inductive ReplyMarkup : Type :=
| NoMarkup
| cleanupSubscriptionInline
| InlineKeyboard (buttons : list (string * string)).   (* label, callback data *)

Record MessageConfig : Type := {
  mc_ChatID : Z;
  mc_Text : string;
  mc_ReplyMarkup : ReplyMarkup
}.

Definition NewMessage (chatID : Z) (text : string) : MessageConfig :=
  {| mc_ChatID := chatID; mc_Text := text; mc_ReplyMarkup := NoMarkup |}.

Definition with_ReplyMarkup (m : MessageConfig) (k : ReplyMarkup) : MessageConfig :=
  {| mc_ChatID := m.(mc_ChatID); mc_Text := m.(mc_Text); mc_ReplyMarkup := k |}.

Definition newline : string := String (ascii_of_nat 10) "".

Fixpoint strings_Join (elems : list string) (sep : string) : string :=
  match elems with
  | [] => ""
  | [x] => x
  | x :: rest => x ++ sep ++ strings_Join rest sep
  end.

(** A [message.Printer] of golang.org/x/text for one language.  The message
    catalog is not part of the sources, so a printer is a parameter of the
    model; [SprintfRef] renders a key that is not a string, which the text
    package may refuse. *)
Record Printer : Type := {
  Sprint : string -> string;
  Sprintf : string -> string;
  SprintfRef : AirQualityIndex -> option string
}.

(** What the bot does to the outside, in order. *)
Inductive event : Type :=
| Fetch (l : Location)                          (* bot.wAPI.GetAirPollution(l) *)
| Send (m : MessageConfig)                      (* bot.Send(m) *)
| LogPrint (prefix : string) (e : error)        (* log.Print / log.Println with an error *)
| LogPrintf (format : string) (n : Z)           (* log.Printf(format, n) *)
| LogPrintln (s : string)
| Panic (prefix : string) (e : option error).   (* log.Panic: the handler stops here *)

Section Bot.

(** The provider: a fallible remote call that may answer differently each
    time; [World] is whatever state lies behind it. *)
Variable World : Type.
Variable GetAirPollution : World -> Location -> World * result ApiPollutionResponse.
Variable newLangPrinter : string -> Printer.

(** The bot with its environment: the store, the provider's state and the
    events so far. *)
Record Bot : Type := {
  store : Store;
  wAPI : World;
  events : list event
}.

Definition with_store (bot : Bot) (s : Store) : Bot :=
  {| store := s; wAPI := bot.(wAPI); events := bot.(events) |}.

Definition with_wAPI (bot : Bot) (w : World) : Bot :=
  {| store := bot.(store); wAPI := w; events := bot.(events) |}.

Definition emit (bot : Bot) (e : event) : Bot :=
  {| store := bot.(store); wAPI := bot.(wAPI); events := bot.(events) ++ [e] |}.

(** The reply of the location handler: index, description and the two inline
    buttons. *)
Definition reply (bot : Bot) (p : Printer) (chatID : Z) (dp : DataPoint) : Bot :=
  match p.(SprintfRef) dp.(Main_Aqi) with
  | None => emit bot (Panic "Sprintf: " None)
  | Some aqi =>
      let msgText :=
        [p.(Sprintf) aqiText ++ ": " ++ aqi;
         "";
         p.(Sprintf) (AQI_Description dp.(Main_Aqi))] in
      let tgMsg := NewMessage chatID (strings_Join msgText newline) in
      emit bot
        (Send (with_ReplyMarkup tgMsg
                 (InlineKeyboard
                    [(p.(Sprintf) "Notify Me on AQI changes", "notifyMe");
                     (p.(Sprintf) "Details", "details")])))
  end.

(** handleLocationMessage; [now_update] and [now_check] are the clock at
    [UpdateUserSession] and at [time.Since]. *)
Definition handleLocationMessage (bot : Bot) (msg : Message)
    (now_update now_check : Time) : Bot :=
  match msg.(msg_Location) with
  | None => bot
  | Some l =>
      let chatID := msg.(msg_Chat_ID) in
      let userID := msg.(msg_From_ID) in
      let languageCode := msg.(msg_From_LanguageCode) in
      let location :=
        {| loc_Latitude := l.(loc_Latitude); loc_Longitude := l.(loc_Longitude) |} in
      let p := newLangPrinter languageCode in
      let us :=
        SetLocation
          {| UserID := userID; ChatID := chatID; LanguageCode := languageCode;
             Longitude := 0%float; Latitude := 0%float; CreatedAt := 0 |}
          location in
      match UpdateUserSession bot.(store) us now_update with
      | (s1, Some err) => emit (with_store bot s1) (Panic "UpdateUserSession: " (Some err))
      | (s1, None) =>
          let bot := with_store bot s1 in
          match GetLastPD s1 chatID with
          | Err err => emit bot (Panic "GetLastPD: " (Some err))
          | Ok dp =>
              (* Caching pollution results for bot.store.CacheTime (10 min) *)
              if time_Since now_check (time_Unix dp.(Dt)) >? s1.(CacheTime) then
                let (w, r) := GetAirPollution bot.(wAPI) location in
                let bot := emit (with_wAPI bot w) (Fetch location) in
                match r with
                | Err err =>
                    emit (emit bot (LogPrint "GetAirPollution: " err))
                      (Send (NewMessage chatID (p.(Sprintf) safeToRetryErrMsg)))
                | Ok resp =>
                    match AddDataPoint s1 chatID resp.(resp_DP) with
                    | (s2, Some err) =>
                        emit (with_store bot s2) (Panic "AddDataPoint: " (Some err))
                    | (s2, None) =>
                        let bot := with_store bot s2 in
                        match GetLastPD s2 chatID with
                        | Err err => emit bot (Panic "GetLastPD: " (Some err))
                        | Ok dp' => reply bot p chatID dp'
                        end
                    end
                end
              else reply bot p chatID dp
          end
      end
  end.

(** The body of [Cron]'s loop for one subscription of the snapshot; [i]
    counts the messages sent.  Every [continue] of the source leaves [i] as
    it is. *)
Definition Cron_body (acc : Bot * Z) (s : AQISubscription) : Bot * Z :=
  let (bot, i) := acc in
  let location :=
    {| loc_Latitude := s.(sub_UserSession).(Latitude);
       loc_Longitude := s.(sub_UserSession).(Longitude) |} in
  let (w, r) := GetAirPollution bot.(wAPI) location in
  let bot := emit (with_wAPI bot w) (Fetch location) in
  match r with
  | Err err => (emit bot (LogPrint "GetAirPollution: " err), i)
  | Ok resp =>
      match AddDataPoint bot.(store) s.(sub_UserSession).(ChatID) resp.(resp_DP) with
      | (s1, Some err) => (emit (with_store bot s1) (LogPrint "AddDataPoint: " err), i)
      | (s1, None) =>
          let bot := with_store bot s1 in
          match GetLastPD s1 s.(sub_UserSession).(ChatID) with
          | Err err => (emit bot (LogPrint "GetLastPD: " err), i)
          | Ok dp =>
              if negb (GetAQI dp =? s.(sub_AirQualityIndex)) then
                match UpdateSubscriptionAQI s1 s.(ID) (GetAQI dp) with
                | (s2, Some err) =>
                    (emit (with_store bot s2) (LogPrint "UpdateSubscriptionAQI: " err), i)
                | (s2, None) =>
                    let headMsg :=
                      if GetAQI dp <? s.(sub_AirQualityIndex)
                      then aqiGetsBetterMsg else aqiGetsWorseMsg in
                    let p := newLangPrinter s.(sub_UserSession).(LanguageCode) in
                    let msgText :=
                      [p.(Sprint) headMsg;
                       "";
                       p.(Sprint) aqiText ++ ": " ++ p.(Sprint) (AQI_String dp.(Main_Aqi));
                       "";
                       p.(Sprint) (AQI_Description dp.(Main_Aqi))] in
                    let tgMsg :=
                      NewMessage s.(sub_UserSession).(ChatID) (strings_Join msgText newline) in
                    (emit (with_store bot s2)
                       (Send (with_ReplyMarkup tgMsg cleanupSubscriptionInline)),
                     i + 1)
                end
              else (bot, i)
          end
      end
  end.

(** [for _, s := range *subs], from the bot and count so far. *)
Definition Cron_loop (subs : list AQISubscription) (acc : Bot * Z) : Bot * Z :=
  fold_left Cron_body subs acc.

(** Cron: one snapshot of the enabled subscriptions, then the loop over it;
    the count [i] is what the last log line reports. *)
Definition Cron (bot : Bot) : Bot :=
  match ListEnabledSubscriptions bot.(store) with
  | Err err => emit bot (LogPrint "ListEnabledSubscriptions: " err)
  | Ok subs =>
      let bot :=
        emit bot (LogPrintf "%d subsription(s) to process" (Z.of_nat (List.length subs))) in
      let (bot, i) := Cron_loop subs (bot, 0) in
      emit bot (LogPrintf "Sent %d messages" i)
  end.

(** CronCleanup, the 12-hourly job. *)
Definition CronCleanup (bot : Bot) : Bot :=
  match ClenupAQISubscriptions bot.(store) with
  | (s1, Some err) => emit (with_store bot s1) (LogPrint "CronCleanup:" err)
  | (s1, None) => emit (with_store bot s1) (LogPrintln "CronCleanup complete")
  end.

End Bot.

Arguments store {World} _.
Arguments wAPI {World} _.
Arguments events {World} _.
Arguments with_store {World} bot s.
Arguments with_wAPI {World} bot w.
Arguments emit {World} bot e.
Arguments reply {World} bot p chatID dp.
Arguments CronCleanup {World} bot.
Arguments handleLocationMessage {World} GetAirPollution newLangPrinter bot msg now_update now_check.
Arguments Cron_body {World} GetAirPollution newLangPrinter acc s.
Arguments Cron_loop {World} GetAirPollution newLangPrinter subs acc.
Arguments Cron {World} GetAirPollution newLangPrinter bot.

(** ** bot.go: commands and callback queries *)

Definition authorContact : string := "andrei+aqibot@tsevan.com".
Definition aboutTextTmpl : string :=
  "Get the Air Quality Index (AQI) for the current location." ++ newline ++ "Contact: %s".
Definition startMsg : string :=
  "/airQualityIndex - get the Air Quality Index for the location," ++ newline
  ++ "/about      - into about the bot.".
Definition notifyMeCnfrmText : string :=
  "OK. I will notify you if AQI changes in your location. /mySubsription".
Definition notifyMeDelText : string := "OK. I won't notify you anymore".
Definition numberSubsTmpl : string := "You have %d subscription(s)".
Definition detailsText : string := "Details".
Definition unknownCmdMsg : string := "Just share your location or try /start".

(** A command message: the fields of [tgbotapi.Message] that [handleCommand]
    reads, and what [msg.Command()] extracts from its text. *)
Record CommandMessage : Type := {
  cmd_MessageID : Z;
  cmd_Chat_ID : Z;
  cmd_From_LanguageCode : string;
  cmd_Command : string
}.

(** The fields of [tgbotapi.CallbackQuery] that [handleCallbackQuery] reads. *)
Record CallbackQuery : Type := {
  cq_ID : string;
  cq_Data : string;
  cq_Chat_ID : Z;
  cq_MessageID : Z;
  cq_From_LanguageCode : string
}.

(** The reply markups of these handlers. *)
Inductive Markup : Type :=
| Inline (k : ReplyMarkup)
| keyboardCmds
| OneTimeReplyKeyboard (buttons : list (string * bool))   (* text, RequestLocation *)
| RemoveKeyboard (selective : bool).

(** A [tgbotapi.MessageConfig] with its reply-to id; a nil markup is [None]. *)
Record ReplyConfig : Type := {
  rc_ChatID : Z;
  rc_Text : string;
  rc_ReplyToMessageID : Z;
  rc_ReplyMarkup : option Markup
}.

Definition with_Text (m : ReplyConfig) (text : string) : ReplyConfig :=
  {| rc_ChatID := m.(rc_ChatID); rc_Text := text;
     rc_ReplyToMessageID := m.(rc_ReplyToMessageID);
     rc_ReplyMarkup := m.(rc_ReplyMarkup) |}.

Definition with_Markup (m : ReplyConfig) (k : Markup) : ReplyConfig :=
  {| rc_ChatID := m.(rc_ChatID); rc_Text := m.(rc_Text);
     rc_ReplyToMessageID := m.(rc_ReplyToMessageID);
     rc_ReplyMarkup := Some k |}.

(** What these handlers do to the outside, in order. *)
Inductive action : Type :=
| Answered (m : ReplyConfig)                 (* bot.Send(tgMsg) *)
| Logged (prefix : string) (e : error)       (* log.Print / log.Println with an error *)
| Panicked (e : error).                      (* log.Panic(err): the handler stops here *)

(** [p.Sprintf] with arguments, for one language; the first argument is the
    template of the source. *)
Record Formatter : Type := {
  Sprintf_d : string -> Z -> string;
  Sprintf_s : string -> string -> string;
  Sprintf_v : string -> error -> string;
  Sprintf_ffs : string -> float -> float -> string -> string;
  Sprintf_sf : string -> string -> float -> string
}.

Section Handlers.

Variable newLangPrinter : string -> Printer.
Variable newLangFormatter : string -> Formatter.

(** [time.Time.String]. *)
Variable Time_String : Time -> string.

(** The order in which [range] visits the entries of a map: each entry once,
    in an order the language leaves open. *)
Variable range_Components : list (string * float) -> list (string * float).

(** handleCommand.  It reads the store and sends one message. *)
Definition handleCommand (s : Store) (msg : CommandMessage) : list action :=
  let chatID := msg.(cmd_Chat_ID) in
  let languageCode := msg.(cmd_From_LanguageCode) in
  let p := newLangPrinter languageCode in
  let pf := newLangFormatter languageCode in
  let tgMsg :=
    {| rc_ChatID := chatID; rc_Text := "";
       rc_ReplyToMessageID := msg.(cmd_MessageID); rc_ReplyMarkup := None |} in
  let command := msg.(cmd_Command) in
  if String.eqb command "airQualityIndex" || String.eqb command "air" then
    [Answered
       (with_Markup (with_Text tgMsg (p.(Sprintf) "Share location!"))
          (OneTimeReplyKeyboard [(p.(Sprintf) "Share location!", true)]))]
  else if String.eqb command "start" then
    [Answered (with_Markup (with_Text tgMsg (p.(Sprintf) startMsg)) keyboardCmds)]
  else if String.eqb command "mySubsription" then
    let (subs, logged) :=
      match ListAQISubscriptions s chatID with
      | Ok subs => (subs, [])
      | Err err => ([], [Logged "ListAQISubscriptions" err])
      end in
    let msgText := [pf.(Sprintf_d) numberSubsTmpl (Z.of_nat (List.length subs)); ""] in
    if (0 <? List.length subs)%nat then
      let msgText :=
        (msgText
         ++ map (fun s0 : AQISubscription =>
                   pf.(Sprintf_ffs) "Location: %f;%f. Last AQI: %s"
                     s0.(sub_UserSession).(Longitude) s0.(sub_UserSession).(Latitude)
                     (AQI_String s0.(sub_AirQualityIndex)))
              subs)%list in
      (logged
       ++ [Answered
             (with_Text (with_Markup tgMsg (Inline cleanupSubscriptionInline))
                (strings_Join msgText newline))])%list
    else
      (logged ++ [Answered (with_Text tgMsg (strings_Join msgText newline))])%list
  else if String.eqb command "about" then
    [Answered (with_Text tgMsg (pf.(Sprintf_s) aboutTextTmpl authorContact))]
  else
    [Answered
       (with_Markup (with_Text tgMsg (p.(Sprintf) unknownCmdMsg)) (RemoveKeyboard true))].

(** handleCallbackQuery; [request_err] is what [bot.tApi.Request(callback)]
    returned and [now] the clock at [AddAQISubscription]. *)
Definition handleCallbackQuery (s : Store) (query : CallbackQuery)
    (request_err : option error) (now : Time) : Store * list action :=
  let chatID := query.(cq_Chat_ID) in
  let messageID := query.(cq_MessageID) in
  let languageCode := query.(cq_From_LanguageCode) in
  match request_err with
  | Some err => (s, [Panicked err])
  | None =>
      let p := newLangPrinter languageCode in
      let pf := newLangFormatter languageCode in
      let tgMsg :=
        {| rc_ChatID := chatID; rc_Text := "";
           rc_ReplyToMessageID := messageID; rc_ReplyMarkup := None |} in
      if String.eqb query.(cq_Data) "notifyMe" then
        let tgMsg := with_Text tgMsg notifyMeCnfrmText in
        match AddAQISubscription s chatID now with
        | (s1, Some err) =>
            (s1, [Logged "AddAQISubscription: " err;
                  Answered (with_Text tgMsg (pf.(Sprintf_v) "Error: %v" err))])
        | (s1, None) => (s1, [Answered tgMsg])
        end
      else if String.eqb query.(cq_Data) "details" then
        match GetLastPD s chatID with
        | Err err => (s, [Panicked err])
        | Ok dp =>
            let msgText :=
              ([detailsText; Time_String (time_Unix dp.(Dt)); ""]
               ++ map (fun kv => pf.(Sprintf_sf) "%s=%.2f" (fst kv) (snd kv))
                    (range_Components dp.(Components)))%list in
            (s, [Answered (with_Text tgMsg (strings_Join msgText newline))])
        end
      else if String.eqb query.(cq_Data) "cleanup" then
        match DeleteAQISubscriptions s chatID with
        | (s1, Some err) =>
            (* the retry notice is set and then overwritten *)
            (s1, [Logged "DeleteAQISubscriptions: " err;
                  Answered (with_Text (with_Text tgMsg (p.(Sprint) safeToRetryErrMsg))
                              (p.(Sprint) notifyMeDelText))])
        | (s1, None) => (s1, [Answered (with_Text tgMsg (p.(Sprint) notifyMeDelText))])
        end
      else (s, [Answered tgMsg])
  end.

End Handlers.

(** ** Rows as the store writes them *)

Inductive storage : Type := SInteger | SReal | SText | SBlob | STimestamp.

Definition stored_as (k : storage) (v : value) : bool :=
  match k, v with
  | SInteger, VInt _ | SText, VText _ | SBlob, VBlob _ | STimestamp, VTime _ => true
  | SReal, VReal x =>
      (* neither a NaN nor a negative zero is ever stored *)
      negb (PrimFloat.is_nan x) && negb (negative_zero x)
  | _, _ => false
  end.

Fixpoint row_typed (ks : list storage) (r : row) : bool :=
  match ks, r with
  | [], [] => true
  | k :: ks', v :: r' => stored_as k v && row_typed ks' r'
  | _, _ => false
  end.

Definition user_session_types : list storage :=
  [SInteger; SInteger; SText; SReal; SReal; STimestamp].
Definition data_point_types : list storage :=
  [SInteger; SInteger; SBlob; STimestamp].
Definition subscription_types : list storage :=
  [SInteger; SInteger; SText; SReal; SReal; SInteger; SInteger; STimestamp].

(** Every row has the shape the store's INSERT and REPLACE statements give
    it (see [reachable_well_typed]). *)
Definition well_typed (d : db) : bool :=
  forallb (row_typed user_session_types) d.(user_session).(rows)
  && forallb (row_typed data_point_types) d.(data_point).(rows)
  && forallb (row_typed subscription_types) d.(subscription).(rows).

(** ** Notions the statements below use *)

(** The chat has a stored reading: a data_point row with its chat_id. *)
Definition has_reading (s : Store) (chatID : Z) : Prop :=
  exists r, In r s.(DB).(data_point).(rows) /\ field 1 r = VInt chatID.

Definition no_reading (s : Store) (chatID : Z) : Prop :=
  forall r, In r s.(DB).(data_point).(rows) -> field 1 r <> VInt chatID.

(** A row of the subscription relation. *)
Definition subscription_row (id chatID : Z) (language : string) (lon lat : value)
    (aqi enabled : Z) (created_at : Time) : row :=
  [VInt id; VInt chatID; VText language; lon; lat; VInt aqi; VInt enabled; VTime created_at].

(** The id an AUTOINCREMENT table gives its next row. *)
Definition next_id (t : table) : Z := Z.max t.(seq) (max_rowid 0 t.(rows)) + 1.

(** The database with one more subscription row, at the end. *)
Definition add_subscription (d : db) (r : row) : db :=
  {| user_session := d.(user_session);
     data_point := d.(data_point);
     subscription := {| rows := (d.(subscription).(rows) ++ [r])%list;
                        seq := next_id d.(subscription) |};
     zone := d.(zone) |}.

(** What [ListAQISubscriptions] and [ListEnabledSubscriptions] make of a
    subscription row. *)
Definition listed (with_id : bool) (r : row) : AQISubscription :=
  match r with
  | [VInt id; VInt chatID; VText language; VReal lon; VReal lat; VInt aqi; VInt _; VTime t] =>
      {| ID := if with_id then id else 0;
         sub_UserSession :=
           {| UserID := 0; ChatID := chatID; LanguageCode := language;
              Longitude := lon; Latitude := lat; CreatedAt := t |};
         sub_AirQualityIndex := aqi |}
  | _ => {| ID := 0; sub_UserSession := UserSession_zero; sub_AirQualityIndex := 0 |}
  end.

(** The duplicate test of [AddAQISubscription] between a stored position and
    the session's. *)
Definition too_close (lat lon : float) (us : UserSession) : Prop :=
  PrimFloat.ltb (math_Abs (lat - us.(Latitude))%float) 0.0009%float = true
  \/ PrimFloat.ltb (math_Abs (lon - us.(Longitude))%float) 0.0009%float = true.

(** The database with one more data_point row, at the end. *)
Definition add_data_point (d : db) (r : row) : db :=
  {| user_session := d.(user_session);
     data_point := {| rows := (d.(data_point).(rows) ++ [r])%list;
                      seq := next_id d.(data_point) |};
     subscription := d.(subscription);
     zone := d.(zone) |}.

(** At most one session per chat: the chatid keys of user_session are
    pairwise different. *)
Definition unique_sessions (s : Store) : Prop :=
  NoDup (map (rowid 0) s.(DB).(user_session).(rows)).

(** A sequence of session updates, each at its own time. *)
Definition update_sessions (s : Store) (updates : list (UserSession * Time)) : Store :=
  fold_left (fun st u => fst (UpdateUserSession st (fst u) (snd u))) updates s.

(** The session as it is read back after [UpdateUserSession n] at [now]:
    every attribute is n's, the coordinates as a REAL column gives them back
    (a negative zero as zero), and the time is that of the call. *)
Definition stamped (n : UserSession) (now : Time) : UserSession :=
  {| UserID := n.(UserID); ChatID := n.(ChatID); LanguageCode := n.(LanguageCode);
     Longitude := stored_float n.(Longitude); Latitude := stored_float n.(Latitude);
     CreatedAt := now |}.

(** The user_session row that [UpdateUserSession n] writes at [now]. *)
Definition session_row (n : UserSession) (now : Time) : row :=
  [VInt n.(ChatID); VInt n.(UserID); VText n.(LanguageCode);
   bind_float n.(Longitude); bind_float n.(Latitude); VTime now].

(** The database after REPLACE INTO user_session of [r]: the rows with r's
    chatid are gone and [r] is in. *)
Definition replace_session (d : db) (r : row) : db :=
  {| user_session :=
       {| rows := insert_row 0 r
                    (filter (fun x => negb (rowid 0 x =? rowid 0 r)) d.(user_session).(rows));
          seq := d.(user_session).(seq) |};
     data_point := d.(data_point);
     subscription := d.(subscription);
     zone := d.(zone) |}.

(** *** Timestamps as the engine orders them *)

(** A Unix second whose local time lies between 0000-01-01 00:00:00 and
    9999-12-31 23:59:59, the years the timestamp layout writes with four
    digits, in a zone whose offset is less than a day. *)
Definition four_digit_year (loc : time_Location) (sec : Z) : Prop :=
  -62167219200 <= sec + loc sec <= 253402300799 /\ -86400 < loc sec < 86400.

(** In the database [d] the column value [a] sorts before [b]: for
    timestamps, the text written for [a] is the smaller one. *)
Definition sorts_before (d : db) (a b : value) : Prop :=
  value_ltb d.(zone) a b = true.

(** The reading [dp] would sort after every reading stored for the chat. *)
Definition newer_than_stored (s : Store) (chatID : Z) (dp : DataPoint) : Prop :=
  forall r, In r s.(DB).(data_point).(rows) -> field 1 r = VInt chatID ->
            sorts_before s.(DB) (field 3 r) (VTime (time_Unix dp.(Dt))).

(** [dp] is the chat's most recent reading: the store holds it for the chat,
    no reading of the chat sorts after it, and it is the one [GetLastPD]
    answers with. *)
Definition most_recent (s : Store) (chatID : Z) (dp : DataPoint) : Prop :=
  GetLastPD s chatID = Ok dp
  /\ exists r,
       In r s.(DB).(data_point).(rows)
       /\ field 1 r = VInt chatID
       /\ field 2 r = VBlob (JSON dp)
       /\ forall x, In x s.(DB).(data_point).(rows) -> field 1 x = VInt chatID ->
                    ~ sorts_before s.(DB) (field 3 r) (field 3 x).

(** Days from the first day of the absolute epoch's year to the first day of
    the year [n] years later. *)
Definition days_before (n : Z) : Z := 365 * n + n / 4 - n / 100 + n / 400.

(** The numbers from 0 up to [n], without [n]. *)
Definition upto (n : Z) : list Z := map Z.of_nat (List.seq 0 (Z.to_nat n)).

(** Month and day, and hour, minute and second, as one number each. *)
Definition date_key (p : Z * Z) : Z := 100 * fst p + snd p.

Definition date_ok (p : Z * Z) : bool :=
  (1 <=? fst p) && (fst p <=? 12) && (1 <=? snd p) && (snd p <=? 31).

Definition clock_key (abs : Z) : Z :=
  let sec := abs mod 86400 in
  10000 * (sec / 3600) + 100 * (sec mod 3600 / 60) + sec mod 60.

Definition same_order (c : comparison) (a b : Z) : bool :=
  match c, a ?= b with
  | Eq, Eq | Lt, Lt | Gt, Gt => true
  | _, _ => false
  end.

(** *** The rules as the spec words them *)

(** The provider was called. *)
Definition fetches (evs : list event) : Prop := exists l, In (Fetch l) evs.

(** The staleness rule read off the location handler: what the handler adds
    to the events contains a provider call exactly when the chat has no stored
    reading or its most recent reading is older than the store's CacheTime. *)
Definition refresh_iff_stale_or_absent {World : Type}
    (GetAirPollution : World -> Location -> World * result ApiPollutionResponse)
    (newLangPrinter : string -> Printer)
    (bot : Bot World) (msg : Message) (now_update now_check : Time) : Prop :=
  exists evs,
    events (handleLocationMessage GetAirPollution newLangPrinter bot msg now_update now_check)
    = (events bot ++ evs)%list
    /\ (fetches evs <->
        no_reading (store bot) msg.(msg_Chat_ID)
        \/ exists dp,
             has_reading (store bot) msg.(msg_Chat_ID)
             /\ GetLastPD (store bot) msg.(msg_Chat_ID) = Ok dp
             /\ time_Since now_check (time_Unix dp.(Dt)) > (store bot).(CacheTime)).

(** The staleness rule as the handler has it: the provider is called exactly
    when the chat's most recent reading is older than CacheTime, or when the
    chat has no reading and CacheTime is shorter than the time since the Unix
    epoch. *)
Definition refresh_iff_stale {World : Type}
    (GetAirPollution : World -> Location -> World * result ApiPollutionResponse)
    (newLangPrinter : string -> Printer)
    (bot : Bot World) (msg : Message) (now_update now_check : Time) : Prop :=
  exists evs,
    events (handleLocationMessage GetAirPollution newLangPrinter bot msg now_update now_check)
    = (events bot ++ evs)%list
    /\ (fetches evs <->
        (no_reading (store bot) msg.(msg_Chat_ID)
         /\ (store bot).(CacheTime) < time_Since now_check (time_Unix 0))
        \/ exists dp,
             most_recent (store bot) msg.(msg_Chat_ID) dp
             /\ (store bot).(CacheTime) < time_Since now_check (time_Unix dp.(Dt))).



(** The bot after the loop body met a failing fetch for [s]: the provider has
    moved to [w], the call and the log line are recorded, the store is
    untouched. *)
Definition skipped {World : Type} (bot : Bot World) (w : World) (s : AQISubscription)
    (err : error) : Bot World :=
  emit (emit (with_wAPI bot w)
          (Fetch {| loc_Latitude := s.(sub_UserSession).(Latitude);
                    loc_Longitude := s.(sub_UserSession).(Longitude) |}))
       (LogPrint "GetAirPollution: " err).

(** What the program does to a store: the location handler's session update
    (Telegram's coordinates are numbers) and the other writing methods. *)
Inductive step : Store -> Store -> Prop :=
| step_UpdateUserSession (s : Store) (n : UserSession) (now : Time) :
    PrimFloat.is_nan n.(Longitude) = false ->
    PrimFloat.is_nan n.(Latitude) = false ->
    step s (fst (UpdateUserSession s n now))
| step_AddDataPoint (s : Store) (chatID : Z) (dps : list DataPoint) :
    step s (fst (AddDataPoint s chatID dps))
| step_AddAQISubscription (s : Store) (chatID : Z) (now : Time) :
    step s (fst (AddAQISubscription s chatID now))
| step_DeleteAQISubscriptions (s : Store) (chatID : Z) :
    step s (fst (DeleteAQISubscriptions s chatID))
| step_UpdateSubscriptionAQI (s : Store) (subID : Z) (aqi : AirQualityIndex) :
    step s (fst (UpdateSubscriptionAQI s subID aqi))
| step_ClenupAQISubscriptions (s : Store) :
    step s (fst (ClenupAQISubscriptions s))
| step_ClenupDataPoint (s : Store) :
    step s (fst (ClenupDataPoint s)).

(** The stores the program can be in, from [NewBot] on. *)
Inductive reachable : Store -> Prop :=
| reachable_OpenStore (loc : time_Location) : reachable (OpenStore loc)
| reachable_step (s s' : Store) : reachable s -> step s s' -> reachable s'.

(** The number of messages sent among the events. *)
Definition sends (evs : list event) : Z :=
  Z.of_nat (List.length (filter (fun e => match e with Send _ => true | _ => false end) evs)).

(** The chat has no row in user_session. *)
Definition no_session (s : Store) (chatID : Z) : Prop :=
  forall r, In r s.(DB).(user_session).(rows) -> field 0 r <> VInt chatID.

(** [json.Marshal] accepts the reading: no component is NaN or infinite. *)
Definition marshalable (dp : DataPoint) : bool :=
  forallb (fun kv => float_finite (snd kv)) dp.(Components).

(** What [AddDataPoint] writes of a reading, besides the id. *)
Definition reading_payload (chatID : Z) (dp : DataPoint) : value * value * value :=
  (VInt chatID, VBlob (JSON dp), VTime (time_Unix dp.(Dt))).

Definition row_payload (r : row) : value * value * value :=
  (field 1 r, field 2 r, field 3 r).

(** A subscription row with its aqi column blanked: everything but the
    index. *)
Definition without_aqi (r : row) : row := set_nth 5 VNull r.

(** The locations the provider was asked for, in order. *)
Definition fetched (evs : list event) : list Location :=
  flat_map (fun e => match e with Fetch l => [l] | _ => [] end) evs.

(** The location of a subscription, as the loop passes it to the provider. *)
Definition location_of (s : AQISubscription) : Location :=
  {| loc_Latitude := s.(sub_UserSession).(Latitude);
     loc_Longitude := s.(sub_UserSession).(Longitude) |}.

(** The entry [ListAQISubscriptions] shows for a subscription made from
    session [us] with index [aqi] at [now]. *)
Definition listed_entry (us : UserSession) (aqi : AirQualityIndex) (now : Time)
  : AQISubscription :=
  {| ID := 0;
     sub_UserSession :=
       {| UserID := 0; ChatID := us.(ChatID); LanguageCode := us.(LanguageCode);
          Longitude := us.(Longitude); Latitude := us.(Latitude); CreatedAt := now |};
     sub_AirQualityIndex := aqi |}.


(** Two stores that differ at most in their readings and in the aqi column
    of their subscriptions. *)
Definition same_but_readings_and_aqi (s s' : Store) : Prop :=
  s'.(DB).(user_session) = s.(DB).(user_session)
  /\ s'.(CacheTime) = s.(CacheTime)
  /\ s'.(DB).(subscription).(seq) = s.(DB).(subscription).(seq)
  /\ map without_aqi s'.(DB).(subscription).(rows)
     = map without_aqi s.(DB).(subscription).(rows).

(** ** Stores used as examples *)

Definition example_printer : Printer :=
  {| Sprint := fun s => s; Sprintf := fun s => s;
     SprintfRef := fun aqi => Some (AQI_String aqi) |}.

(** A user 7 in chat 42 at latitude 1, longitude 2. *)
Definition session_A : UserSession :=
  SetLocation
    {| UserID := 7; ChatID := 42; LanguageCode := "en";
       Longitude := 0%float; Latitude := 0%float; CreatedAt := 0 |}
    {| loc_Latitude := 1%float; loc_Longitude := 2%float |}.

(** The same chat at latitude 1.0005, longitude 5. *)
Definition session_B : UserSession :=
  SetLocation session_A {| loc_Latitude := 1.0005%float; loc_Longitude := 5%float |}.

(** 2026-11-02T00:00:00Z, in seconds and as a clock reading. *)
Definition example_day : Z := 1793577600.
Definition example_now : Time := time_Unix example_day.

Definition reading (dt : Z) (aqi : AirQualityIndex) : DataPoint :=
  {| Dt := dt; Main_Aqi := aqi; Components := [("co", 201.94%float)] |}.

(** Chat 42 has shared its location; nothing was fetched. *)
Definition store_session_only : Store :=
  fst (UpdateUserSession NewStore session_A example_now).

(** Chat 42 has a session and one reading, of index 3. *)
Definition store_with_reading : Store :=
  fst (AddDataPoint store_session_only 42 [reading example_day 3]).

(** ... and has subscribed at A. *)
Definition store_subscribed : Store :=
  fst (AddAQISubscription store_with_reading 42 example_now).

(** ... and has then moved to B. *)
Definition store_moved : Store :=
  fst (UpdateUserSession store_subscribed session_B example_now).

(** The session of chat 42 as [store_moved] holds it. *)
Definition session_B_stored : UserSession :=
  {| UserID := 7; ChatID := 42; LanguageCode := "en";
     Longitude := 5%float; Latitude := 1.0005%float; CreatedAt := example_now |}.

Definition session_A_stored : UserSession :=
  {| UserID := 7; ChatID := 42; LanguageCode := "en";
     Longitude := 2%float; Latitude := 1%float; CreatedAt := example_now |}.

(** Chat 42 subscribed, unsubscribed, subscribed, unsubscribed, subscribed:
    two disabled rows and an enabled one. *)
Definition store_with_disabled : Store :=
  let s1 := fst (DeleteAQISubscriptions store_subscribed 42) in
  let s2 := fst (AddAQISubscription s1 42 example_now) in
  let s3 := fst (DeleteAQISubscriptions s2 42) in
  fst (AddAQISubscription s3 42 example_now).

(** Readings taken 13, 11 and 1 hours before [example_now]. *)
Definition store_with_old_readings : Store :=
  fst (AddDataPoint store_session_only 42
         [reading (example_day - 13 * 3600) 2;
          reading (example_day - 11 * 3600) 3;
          reading (example_day - 3600) 3]).

(** A store whose only reading is the zero DataPoint, as the provider's
    answer [{"list":[{}]}] would leave it. *)
Definition store_epoch_reading : Store :=
  fst (AddDataPoint NewStore 42 [DataPoint_zero]).

(** A store whose cache time is a hundred years. *)
Definition patient_store : Store :=
  {| DB := empty_db time_UTC; CacheTime := 100 * 365 * 24 * Hour |}.

(** User 7 shares the location (1, 2) in chat 42. *)
Definition location_message : Message :=
  {| msg_Chat_ID := 42; msg_From_ID := 7; msg_From_LanguageCode := "en";
     msg_Location := Some {| loc_Latitude := 1%float; loc_Longitude := 2%float |} |}.

Definition offline : unit -> Location -> unit * result ApiPollutionResponse :=
  fun _ _ => (tt, Err (ErrProvider "offline")).

(** A provider that reports index [aqi], measured half an hour after
    [example_now], wherever it is asked. *)
Definition steady (aqi : AirQualityIndex) : unit -> Location -> unit * result ApiPollutionResponse :=
  fun _ l => (tt, Ok {| resp_Location := l; resp_DP := [reading (example_day + 1800) aqi] |}).

(** The subscription of chat 42 as [ListEnabledSubscriptions] reports it on
    [store_subscribed]. *)
Definition subscription_A : AQISubscription :=
  {| ID := 1;
     sub_UserSession :=
       {| UserID := 0; ChatID := 42; LanguageCode := "en";
          Longitude := 2%float; Latitude := 1%float; CreatedAt := example_now |};
     sub_AirQualityIndex := 3 |}.

(** [store_subscribed] after the provider's reading of index 2 was added. *)
Definition store_after_fetch : Store :=
  fst (AddDataPoint store_subscribed 42 [reading (example_day + 1800) 2]).

(** A second chat, 43, at latitude 10 and longitude 20, subscribed as well. *)
Definition session_C : UserSession :=
  SetLocation
    {| UserID := 8; ChatID := 43; LanguageCode := "ru";
       Longitude := 0%float; Latitude := 0%float; CreatedAt := 0 |}
    {| loc_Latitude := 10%float; loc_Longitude := 20%float |}.

Definition store_two_chats : Store :=
  let s1 := fst (UpdateUserSession store_subscribed session_C example_now) in
  let s2 := fst (AddDataPoint s1 43 [reading example_day 3]) in
  fst (AddAQISubscription s2 43 example_now).

Definition subscription_C : AQISubscription :=
  {| ID := 2;
     sub_UserSession :=
       {| UserID := 0; ChatID := 43; LanguageCode := "ru";
          Longitude := 20%float; Latitude := 10%float; CreatedAt := example_now |};
     sub_AirQualityIndex := 3 |}.

(** A provider whose first call fails and whose later calls report index 2;
    its state counts the calls. *)
Definition flaky : nat -> Location -> nat * result ApiPollutionResponse :=
  fun n l =>
    (S n,
     match n with
     | O => Err (ErrProvider "timeout")
     | S _ => Ok {| resp_Location := l; resp_DP := [reading (example_day + 1800) 2] |}
     end).

(** A bot whose provider always fails. *)
Definition offline_bot (s : Store) : Bot unit :=
  {| store := s; wAPI := tt; events := [] |}.

(** Chats 42 and 43 have both shared a location. *)
Definition store_two_sessions : Store :=
  fst (UpdateUserSession store_session_only session_C example_now).

(** A reading with a component that is not a number. *)
Definition broken_reading : DataPoint :=
  {| Dt := example_day; Main_Aqi := 4; Components := [("co", PrimFloat.nan)] |}.

Definition example_formatter : Formatter :=
  {| Sprintf_d := fun tmpl _ => tmpl;
     Sprintf_s := fun tmpl _ => tmpl;
     Sprintf_v := fun tmpl _ => tmpl;
     Sprintf_ffs := fun tmpl _ _ _ => tmpl;
     Sprintf_sf := fun tmpl _ _ => tmpl |}.

(** Chat 42 sends /mySubsription, and presses the buttons of the bot's
    messages. *)
Definition my_subscriptions : CommandMessage :=
  {| cmd_MessageID := 100; cmd_Chat_ID := 42; cmd_From_LanguageCode := "en";
     cmd_Command := "mySubsription" |}.

Definition pressed (data : string) : CallbackQuery :=
  {| cq_ID := "q1"; cq_Data := data; cq_Chat_ID := 42; cq_MessageID := 101;
     cq_From_LanguageCode := "en" |}.


(** Chat 42 has subscribed at A and, after moving to latitude 50, longitude
    60, there as well. *)
Definition store_two_places : Store :=
  let s1 := fst (UpdateUserSession store_subscribed
                   (SetLocation session_A
                      {| loc_Latitude := 50%float; loc_Longitude := 60%float |})
                   example_now) in
  fst (AddAQISubscription s1 42 example_now).

(** A provider that reports index 3 near A, measured half an hour after
    [example_now], and index 5 elsewhere, measured a hundred seconds
    earlier. *)
Definition by_place : unit -> Location -> unit * result ApiPollutionResponse :=
  fun _ l =>
    (tt, Ok {| resp_Location := l;
               resp_DP := [if PrimFloat.ltb l.(loc_Latitude) 10%float
                           then reading (example_day + 1800) 3
                           else reading (example_day + 1700) 5] |}).

(** Central European time around the end of summer time on 2026-10-25, at
    01:00:00 UTC. *)
Definition berlin : time_Location :=
  fun sec => if sec <? 1792890000 then 7200 else 3600.

(** A bot in Berlin stores a reading taken at 02:30 summer time and one taken
    forty minutes later, at 02:10 winter time. *)
Definition store_berlin : Store :=
  fst (AddDataPoint (OpenStore berlin) 42 [reading 1792888200 2; reading 1792890600 4]).

(** The provider's reading carries the largest int64 as its time. *)
Definition store_end_of_time : Store :=
  fst (AddDataPoint store_session_only 42 [reading (2 ^ 63 - 1) 3]).

(** * Properties *)

#[local] Open Scope list_scope.

(** ** The engine on the store's statements *)

Ltac run_prepare :=
  repeat match goal with
  | |- context [prepare ?s] =>
      let r := eval vm_compute in (prepare s) in
      change (prepare s) with r
  end.

Lemma sql_eqb_VInt (v : value) (n : Z) : sql_eqb v (VInt n) = true <-> v = VInt n.
Proof.
  destruct v; simpl; split; intro H; try discriminate.
  - apply Z.eqb_eq in H. now subst.
  - injection H as ->. apply Z.eqb_refl.
Qed.

Lemma row_matches_one (i : nat) (n : Z) (r : row) :
  row_matches [(i, VInt n)] r = true <-> field i r = VInt n.
Proof.
  unfold row_matches. simpl. rewrite andb_true_r. apply sql_eqb_VInt.
Qed.

Lemma filter_nil_iff {A : Type} (f : A -> bool) (l : list A) :
  filter f l = [] <-> forall x, In x l -> f x = false.
Proof.
  induction l as [|a l IH]; simpl.
  - split; [intros _ x [] | reflexivity].
  - destruct (f a) eqn:Ha; split.
    + discriminate.
    + intros H. specialize (H a (or_introl eq_refl)). congruence.
    + intros H x [<-|Hx]; [assumption | now apply IH].
    + intros H. apply IH. intros x Hx. apply H. now right.
Qed.

(** The two DELETE statements of the store do not parse: the grammar wants
    DELETE FROM. *)
Lemma prepare_cleanup_subscriptions :
  prepare "DELETE subscription WHERE enabled=0" = Err (ErrSyntax "subscription").
Proof. vm_compute. reflexivity. Qed.

Lemma prepare_cleanup_data_points :
  prepare "DELETE data_point WHERE created_at <= datetime('now', '-12 hour')"
  = Err (ErrSyntax "data_point").
Proof. vm_compute. reflexivity. Qed.

(** With the FROM the first of them would parse, to the deletion of the
    disabled rows. *)
Lemma prepare_delete_from :
  prepare "DELETE FROM subscription WHERE enabled=0"
  = Ok (Delete "subscription" [("enabled", ENum 0)]).
Proof. vm_compute. reflexivity. Qed.

Lemma ClenupAQISubscriptions_fails (s : Store) :
  ClenupAQISubscriptions s = (s, Some (ErrSyntax "subscription")).
Proof.
  unfold ClenupAQISubscriptions, Exec, prepare_bound.
  rewrite prepare_cleanup_subscriptions. reflexivity.
Qed.

Lemma ClenupDataPoint_fails (s : Store) :
  ClenupDataPoint s = (s, Some (ErrSyntax "data_point")).
Proof.
  unfold ClenupDataPoint, Exec, prepare_bound.
  rewrite prepare_cleanup_data_points. reflexivity.
Qed.

Lemma CronCleanup_store {World : Type} (bot : Bot World) :
  store (CronCleanup bot) = store bot.
Proof.
  unfold CronCleanup. rewrite ClenupAQISubscriptions_fails. reflexivity.
Qed.

(** ** The most recent reading *)

Lemma Query_last_reading (d : db) (chatID : Z) :
  Query d "SELECT data FROM data_point WHERE chat_id=? ORDER BY created_at DESC LIMIT 1"
    [VInt chatID]
  = Ok (map (project [2%nat])
          (firstn 1 (sort_rows d.(zone) 3 true
                       (filter (row_matches [(1%nat, VInt chatID)]) d.(data_point).(rows))))).
Proof.
  unfold Query, prepare_bound. run_prepare. reflexivity.
Qed.

Lemma no_reading_filter (s : Store) (chatID : Z) :
  no_reading s chatID ->
  filter (row_matches [(1%nat, VInt chatID)]) s.(DB).(data_point).(rows) = [].
Proof.
  intros H. apply filter_nil_iff. intros r Hr.
  destruct (row_matches [(1%nat, VInt chatID)] r) eqn:E; [|reflexivity].
  apply row_matches_one in E. now apply H in Hr.
Qed.

Lemma GetLastPD_no_reading (s : Store) (chatID : Z) :
  no_reading s chatID -> GetLastPD s chatID = Ok DataPoint_zero.
Proof.
  intros H. unfold GetLastPD, QueryRow.
  rewrite Query_last_reading, (no_reading_filter _ _ H). reflexivity.
Qed.

(** ** Fresh rowids *)

Lemma rowid_le_max (pk : nat) (l : list row) (x : row) :
  In x l -> rowid pk x <= max_rowid pk l.
Proof.
  induction l as [|a l IH]; simpl; [intros [] |].
  intros [<-|H]; [lia | specialize (IH H); lia].
Qed.

Lemma fresh_existsb (pk : nat) (l : list row) (n : Z) :
  max_rowid pk l < n -> existsb (fun x => rowid pk x =? n) l = false.
Proof.
  intros H. destruct (existsb _ l) eqn:E; [|reflexivity].
  apply existsb_exists in E as (x & Hx & Hn).
  apply Z.eqb_eq in Hn. apply (rowid_le_max pk) in Hx. lia.
Qed.

Lemma fresh_filter (pk : nat) (l : list row) (n : Z) :
  max_rowid pk l < n -> filter (fun x => negb (rowid pk x =? n)) l = l.
Proof.
  induction l as [|a l IH]; simpl; [reflexivity|].
  intros H. destruct (rowid pk a =? n) eqn:E.
  - apply Z.eqb_eq in E. lia.
  - simpl. f_equal. apply IH. lia.
Qed.

Lemma fresh_insert_row (pk : nat) (r : row) (l : list row) :
  max_rowid pk l < rowid pk r -> insert_row pk r l = l ++ [r].
Proof.
  induction l as [|a l IH]; simpl; [reflexivity|].
  intros H. destruct (rowid pk r <? rowid pk a) eqn:E.
  - apply Z.ltb_lt in E. lia.
  - f_equal. apply IH. lia.
Qed.

Lemma next_id_fresh (t : table) : max_rowid 0 t.(rows) < next_id t.
Proof. unfold next_id. lia. Qed.

(** ** INSERT INTO subscription *)

Lemma Exec_insert_subscription (d : db) (chatID : Z) (language : string)
    (lon lat : value) (aqi : Z) (now : Time) :
  Exec d
    "INSERT INTO subscription (chat_id, language, longitude, latitude, aqi, enabled, created_at) VALUES (?, ?, ?, ?, ?, ?, ?)"
    [VInt chatID; VText language; lon; lat; VInt aqi; VInt 1; VTime now]
  = Ok (add_subscription d
          (subscription_row (next_id d.(subscription)) chatID language lon lat aqi 1 now)).
Proof.
  unfold Exec, prepare_bound. run_prepare.
  pose proof (next_id_fresh d.(subscription)) as Hfresh.
  set (nid := next_id d.(subscription)) in *.
  transitivity
    (if existsb (fun x => rowid 0 x =? nid) d.(subscription).(rows) && true
     then Err (ErrConstraint "subscription")
     else Ok {| user_session := d.(user_session);
                data_point := d.(data_point);
                subscription :=
                  {| rows := insert_row 0
                               (subscription_row nid chatID language lon lat aqi 1 now)
                               (filter (fun x => negb (rowid 0 x =? nid))
                                  d.(subscription).(rows));
                     seq := Z.max d.(subscription).(seq) nid |};
                zone := d.(zone) |}).
  { reflexivity. }
  rewrite fresh_existsb, fresh_filter, fresh_insert_row by assumption.
  simpl. unfold add_subscription. do 3 f_equal.
  subst nid. unfold next_id. lia.
Qed.

(** ** Typed rows *)

Lemma row_typed_cons (k : storage) (ks : list storage) (r : row) :
  row_typed (k :: ks) r = true ->
  exists v r', r = v :: r' /\ stored_as k v = true /\ row_typed ks r' = true.
Proof.
  destruct r as [|v r']; simpl; [discriminate|].
  intros H. apply andb_true_iff in H. eauto.
Qed.

Lemma row_typed_nil (r : row) : row_typed [] r = true -> r = [].
Proof. destruct r; [reflexivity | discriminate]. Qed.

Ltac invert_typed H :=
  repeat match type of H with
  | row_typed (_ :: _) _ = true =>
      let v := fresh "v" in
      let r := fresh "r" in
      let Hv := fresh "Hv" in
      let Hr := fresh "Hr" in
      apply row_typed_cons in H as (v & r & -> & Hv & Hr);
      destruct v; simpl in Hv; try discriminate Hv;
      try match type of Hv with true = true => clear Hv end;
      rename Hr into H
  | row_typed [] _ = true => apply row_typed_nil in H as ->
  end.

Lemma subscription_row_typed (r : row) :
  row_typed subscription_types r = true ->
  exists id chatID language lon lat aqi enabled t,
    r = subscription_row id chatID language (VReal lon) (VReal lat) aqi enabled t.
Proof.
  intros H. unfold subscription_types in H. invert_typed H.
  unfold subscription_row. now repeat eexists.
Qed.

Lemma data_point_row_typed (r : row) :
  row_typed data_point_types r = true ->
  exists id chatID b t, r = [VInt id; VInt chatID; VBlob b; VTime t].
Proof.
  intros H. unfold data_point_types in H. invert_typed H. now repeat eexists.
Qed.

Lemma well_typed_tables (d : db) :
  well_typed d = true ->
  forallb (row_typed user_session_types) d.(user_session).(rows) = true
  /\ forallb (row_typed data_point_types) d.(data_point).(rows) = true
  /\ forallb (row_typed subscription_types) d.(subscription).(rows) = true.
Proof.
  unfold well_typed. intros H.
  apply andb_true_iff in H as [H H3]. apply andb_true_iff in H as [H1 H2]. auto.
Qed.

Lemma mapM_map {A B C : Type} (f : B -> result C) (g : A -> B) (h : A -> C) (l : list A) :
  (forall x, In x l -> f (g x) = Ok (h x)) -> mapM f (map g l) = Ok (map h l).
Proof.
  induction l as [|a l IH]; simpl; intros H; [reflexivity|].
  rewrite (H a (or_introl eq_refl)). simpl. rewrite IH; [reflexivity|].
  intros x Hx. apply H. now right.
Qed.

(** ** Listing subscriptions *)

Lemma Query_chat_subscriptions (d : db) (chatID : Z) :
  Query d
    "SELECT chat_id, language, longitude, latitude, aqi, created_at FROM subscription WHERE chat_id=? AND enabled=1"
    [VInt chatID]
  = Ok (map (project [1; 2; 3; 4; 5; 7]%nat)
          (filter (row_matches [(1%nat, VInt chatID); (6%nat, VInt 1)])
             d.(subscription).(rows))).
Proof.
  unfold Query, prepare_bound. run_prepare. reflexivity.
Qed.


Lemma ListAQISubscriptions_eq (s : Store) (chatID : Z) :
  forallb (row_typed subscription_types) s.(DB).(subscription).(rows) = true ->
  ListAQISubscriptions s chatID
  = Ok (map (listed false)
          (filter (row_matches [(1%nat, VInt chatID); (6%nat, VInt 1)])
             s.(DB).(subscription).(rows))).
Proof.
  intros Ht. unfold ListAQISubscriptions. rewrite Query_chat_subscriptions.
  simpl bind. apply mapM_map. intros r Hr.
  apply filter_In in Hr as [Hr _].
  rewrite forallb_forall in Ht. apply Ht, subscription_row_typed in Hr.
  destruct Hr as (id & c & l & lon & lat & aqi & en & t & ->). reflexivity.
Qed.


Lemma row_matches_chat_enabled (chatID : Z) (r : row) :
  row_matches [(1%nat, VInt chatID); (6%nat, VInt 1)] r = true
  <-> field 1 r = VInt chatID /\ field 6 r = VInt 1.
Proof.
  unfold row_matches. simpl. rewrite andb_true_r, andb_true_iff.
  now rewrite !sql_eqb_VInt.
Qed.

(** ** The most recent reading, continued *)

Lemma GetLastPD_cases (s : Store) (chatID : Z) :
  (exists dp, GetLastPD s chatID = Ok dp) \/ GetLastPD s chatID = Err ErrScan.
Proof.
  unfold GetLastPD, QueryRow. rewrite Query_last_reading.
  destruct (firstn 1 _) as [|r l]; simpl; [left; eauto|].
  destruct (field 2 r); simpl; eauto.
Qed.

Lemma insert_sorted_Forall (P : row -> Prop) (loc : time_Location) (i : nat) (desc : bool)
    (r : row) (l : list row) :
  P r -> Forall P l -> Forall P (insert_sorted loc i desc r l).
Proof.
  intros Hr Hl. induction Hl as [|x l Hx Hl IH]; cbn [insert_sorted].
  - auto.
  - destruct (precedes loc desc (field i x) (field i r)); auto.
Qed.

Lemma sort_rows_Forall (P : row -> Prop) (loc : time_Location) (i : nat) (desc : bool)
    (l : list row) :
  Forall P l -> Forall P (sort_rows loc i desc l).
Proof.
  unfold sort_rows. induction 1; simpl; [constructor|].
  now apply insert_sorted_Forall.
Qed.

Lemma GetLastPD_typed (s : Store) (chatID : Z) :
  forallb (row_typed data_point_types) s.(DB).(data_point).(rows) = true ->
  exists dp, GetLastPD s chatID = Ok dp.
Proof.
  intros Ht. unfold GetLastPD, QueryRow. rewrite Query_last_reading.
  set (hits := filter _ _).
  assert (Hs : Forall (fun r => row_typed data_point_types r = true)
                 (sort_rows s.(DB).(zone) 3 true hits)).
  { apply sort_rows_Forall, Forall_forall. intros r Hr.
    apply filter_In in Hr as [Hr _]. rewrite forallb_forall in Ht. auto. }
  destruct (sort_rows _ 3 true hits) as [|r l]; simpl; [eauto|].
  apply Forall_inv, data_point_row_typed in Hs.
  destruct Hs as (id & c & b & t & ->). simpl. eauto.
Qed.

Lemma GetLastPD_same_readings (s s' : Store) (chatID : Z) :
  s'.(DB).(data_point) = s.(DB).(data_point) ->
  s'.(DB).(zone) = s.(DB).(zone) ->
  GetLastPD s' chatID = GetLastPD s chatID.
Proof.
  intros H Hz. unfold GetLastPD, QueryRow. rewrite !Query_last_reading, H, Hz. reflexivity.
Qed.

(** ** INSERT into data_point *)

Lemma Exec_insert_data_point (d : db) (chatID : Z) (data : bytes) (t : Time) :
  Exec d "INSERT into `data_point` (`chat_id`, `data`, `created_at`) VALUES(?, ?, ?)"
    [VInt chatID; VBlob data; VTime t]
  = Ok (add_data_point d [VInt (next_id d.(data_point)); VInt chatID; VBlob data; VTime t]).
Proof.
  unfold Exec, prepare_bound. run_prepare.
  pose proof (next_id_fresh d.(data_point)) as Hfresh.
  set (nid := next_id d.(data_point)) in *.
  transitivity
    (if existsb (fun x => rowid 0 x =? nid) d.(data_point).(rows) && true
     then Err (ErrConstraint "data_point")
     else Ok {| user_session := d.(user_session);
                data_point :=
                  {| rows := insert_row 0 [VInt nid; VInt chatID; VBlob data; VTime t]
                               (filter (fun x => negb (rowid 0 x =? nid))
                                  d.(data_point).(rows));
                     seq := Z.max d.(data_point).(seq) nid |};
                subscription := d.(subscription);
                zone := d.(zone) |}).
  { reflexivity. }
  rewrite fresh_existsb, fresh_filter, fresh_insert_row by assumption.
  simpl. unfold add_data_point. do 3 f_equal.
  subst nid. unfold next_id. lia.
Qed.

Lemma json_Marshal_cases (dp : DataPoint) :
  json_Marshal dp = Ok (JSON dp) \/ json_Marshal dp = Err ErrMarshal.
Proof. unfold json_Marshal. destruct (forallb _ _); auto. Qed.

Lemma AddDataPoint_cons (s : Store) (chatID : Z) (dp : DataPoint) (dps : list DataPoint) :
  json_Marshal dp = Ok (JSON dp) ->
  AddDataPoint s chatID (dp :: dps)
  = AddDataPoint
      (with_DB s
         (add_data_point s.(DB)
            [VInt (next_id s.(DB).(data_point)); VInt chatID; VBlob (JSON dp);
             VTime (time_Unix dp.(Dt))]))
      chatID dps.
Proof.
  intros Hm. cbn [AddDataPoint]. rewrite Hm, Exec_insert_data_point. reflexivity.
Qed.

Lemma AddDataPoint_refused (s : Store) (chatID : Z) (dp : DataPoint) (dps : list DataPoint) :
  json_Marshal dp = Err ErrMarshal ->
  AddDataPoint s chatID (dp :: dps) = (s, Some (Errorf "marshaling DP: " ErrMarshal)).
Proof. intros Hm. cbn [AddDataPoint]. now rewrite Hm. Qed.

Lemma marshalable_Marshal (dp : DataPoint) :
  marshalable dp = true -> json_Marshal dp = Ok (JSON dp).
Proof. unfold marshalable, json_Marshal. now intros ->. Qed.

Lemma unmarshalable_Marshal (dp : DataPoint) :
  marshalable dp = false -> json_Marshal dp = Err ErrMarshal.
Proof. unfold marshalable, json_Marshal. now intros ->. Qed.

(** ** Timestamps in the engine's order

    The driver writes a [time.Time] as text and the engine orders the texts.
    First the calendar behind [Time_Format]. *)

Lemma absDate_spec (abs : Z) :
  0 <= abs ->
  let n := fst (absDate abs) - absoluteZeroYear in
  let yday := snd (absDate abs) in
  0 <= n /\ 0 <= yday /\ abs / 86400 = days_before n + yday
  /\ days_before n + yday < days_before (n + 1).
Proof.
  intros Habs. unfold absDate, days_before. cbn [fst snd].
  set (d := abs / 86400).
  assert (Hd : 0 <= d) by (apply Z.div_pos; lia).
  clearbody d. clear Habs abs.
  Z.div_mod_to_equations. lia.
Qed.

Lemma days_before_mono (n m : Z) : n <= m -> days_before n <= days_before m.
Proof. unfold days_before. intros H. Z.div_mod_to_equations. lia. Qed.

Lemma year_length (n : Z) :
  days_before (n + 1) - days_before n
  = if isLeap (n + 1) then 366 else 365.
Proof.
  unfold days_before, isLeap.
  destruct (Z.eqb_spec ((n + 1) mod 4) 0); destruct (Z.eqb_spec ((n + 1) mod 100) 0);
    destruct (Z.eqb_spec ((n + 1) mod 400) 0); cbn [andb orb negb];
    Z.div_mod_to_equations; lia.
Qed.

(** Days in the same order as (year, day of the year). *)
Lemma absDate_mono (a b : Z) :
  0 <= a -> a / 86400 < b / 86400 ->
  fst (absDate a) < fst (absDate b)
  \/ (fst (absDate a) = fst (absDate b) /\ snd (absDate a) < snd (absDate b)).
Proof.
  intros Ha Hab.
  assert (Hb : 0 <= b).
  { destruct (Z.le_gt_cases 0 b) as [H|H]; [exact H|].
    assert (b / 86400 < 0) by (apply Z.div_lt_upper_bound; lia).
    assert (0 <= a / 86400) by (apply Z.div_pos; lia). lia. }
  destruct (absDate_spec a Ha) as (Hn1 & Hy1 & He1 & Hl1).
  destruct (absDate_spec b Hb) as (Hn2 & Hy2 & He2 & Hl2).
  set (n1 := fst (absDate a) - absoluteZeroYear) in *.
  set (n2 := fst (absDate b) - absoluteZeroYear) in *.
  destruct (Z.lt_trichotomy n1 n2) as [H|[H|H]].
  - left. lia.
  - right. split; [lia|]. rewrite H in He1. lia.
  - exfalso. pose proof (days_before_mono (n2 + 1) n1 ltac:(lia)). lia.
Qed.

Lemma absDate_same_day (a b : Z) :
  a / 86400 = b / 86400 -> absDate a = absDate b.
Proof. unfold absDate. now intros ->. Qed.

Lemma In_upto (n z : Z) : 0 <= z < n -> In z (upto n).
Proof.
  intros H. unfold upto. apply in_map_iff. exists (Z.to_nat z). split; [lia|].
  apply in_seq. lia.
Qed.

Lemma forall_upto (n : Z) (P : Z -> bool) :
  forallb P (upto n) = true -> forall z, 0 <= z < n -> P z = true.
Proof.
  intros H z Hz. rewrite forallb_forall in H. now apply H, In_upto.
Qed.

Lemma month_day_ok (leap : bool) (i : Z) :
  0 <= i < (if leap then 366 else 365) -> date_ok (month_day leap i) = true.
Proof.
  intros Hi.
  assert (H : forallb (fun i => date_ok (month_day leap i))
                (upto (if leap then 366 else 365)) = true)
    by (destruct leap; vm_compute; reflexivity).
  apply (forall_upto _ _ H). destruct leap; lia.
Qed.

Lemma month_day_next (leap : bool) (i : Z) :
  0 <= i -> i + 1 < (if leap then 366 else 365) ->
  date_key (month_day leap i) < date_key (month_day leap (i + 1)).
Proof.
  intros Hi Hj.
  assert (H : forallb (fun i => date_key (month_day leap i) <? date_key (month_day leap (i + 1)))
                (upto (if leap then 365 else 364)) = true)
    by (destruct leap; vm_compute; reflexivity).
  apply Z.ltb_lt. apply (forall_upto _ _ H). destruct leap; lia.
Qed.

Lemma month_day_mono (leap : bool) (i j : Z) :
  0 <= i -> i < j -> j < (if leap then 366 else 365) ->
  date_key (month_day leap i) < date_key (month_day leap j).
Proof.
  intros Hi Hij Hj.
  assert (H : forall k : nat,
             i + 1 + Z.of_nat k < (if leap then 366 else 365) ->
             date_key (month_day leap i) < date_key (month_day leap (i + 1 + Z.of_nat k))).
  { induction k as [|k IH]; intros Hk.
    - rewrite Z.add_0_r. apply month_day_next; lia.
    - apply Z.lt_trans with (date_key (month_day leap (i + 1 + Z.of_nat k)));
        [apply IH; lia|].
      replace (i + 1 + Z.of_nat (S k)) with (i + 1 + Z.of_nat k + 1) by lia.
      apply month_day_next; lia. }
  specialize (H (Z.to_nat (j - i - 1))).
  replace (i + 1 + Z.of_nat (Z.to_nat (j - i - 1))) with j in H by lia.
  exact (H Hj).
Qed.


Lemma compare_app (f1 f2 r1 r2 : string) :
  String.length f1 = String.length f2 ->
  String.compare (f1 ++ r1)%string (f2 ++ r2)%string
  = match String.compare f1 f2 with
    | Eq => String.compare r1 r2
    | c => c
    end.
Proof.
  revert f2. induction f1 as [|a f1 IH]; intros [|b f2] H; try discriminate.
  - reflexivity.
  - cbn [append String.compare]. destruct (Ascii.compare a b); try reflexivity.
    apply IH. now injection H.
Qed.

Lemma same_order_eq (c : comparison) (a b : Z) : same_order c a b = true -> c = (a ?= b).
Proof. unfold same_order. destruct c, (a ?= b); congruence. Qed.

Lemma appendInt_2_compare (a b : Z) :
  0 <= a < 100 -> 0 <= b < 100 ->
  String.compare (appendInt a 2) (appendInt b 2) = (a ?= b).
Proof.
  intros Ha Hb. apply same_order_eq.
  assert (H : forallb (fun a => forallb (fun b =>
                 same_order (String.compare (appendInt a 2) (appendInt b 2)) a b)
                 (upto 100)) (upto 100) = true) by (vm_compute; reflexivity).
  pose proof (forall_upto _ _ H a Ha) as H1. cbv beta in H1.
  exact (forall_upto _ _ H1 b Hb).
Qed.

Lemma appendInt_2_length (a : Z) : 0 <= a < 100 -> String.length (appendInt a 2) = 2%nat.
Proof.
  intros Ha.
  assert (H : forallb (fun a => Nat.eqb (String.length (appendInt a 2)) 2) (upto 100) = true)
    by (vm_compute; reflexivity).
  apply Nat.eqb_eq. exact (forall_upto _ _ H a Ha).
Qed.

Lemma appendInt_4_split (y : Z) :
  0 <= y < 10000 ->
  appendInt y 4 = (appendInt (y / 100) 2 ++ appendInt (y mod 100) 2)%string.
Proof.
  intros Hy.
  assert (H : forallb (fun y => String.eqb (appendInt y 4)
                                  (appendInt (y / 100) 2 ++ appendInt (y mod 100) 2)%string)
                (upto 10000) = true) by (vm_compute; reflexivity).
  apply String.eqb_eq. exact (forall_upto _ _ H y Hy).
Qed.

Lemma appendInt_4_compare (a b : Z) :
  0 <= a < 10000 -> 0 <= b < 10000 ->
  String.compare (appendInt a 4) (appendInt b 4) = (a ?= b).
Proof.
  intros Ha Hb. rewrite !appendInt_4_split by assumption.
  assert (Ha1 : 0 <= a / 100 < 100) by (Z.div_mod_to_equations; lia).
  assert (Hb1 : 0 <= b / 100 < 100) by (Z.div_mod_to_equations; lia).
  assert (Ha2 : 0 <= a mod 100 < 100) by (Z.div_mod_to_equations; lia).
  assert (Hb2 : 0 <= b mod 100 < 100) by (Z.div_mod_to_equations; lia).
  rewrite compare_app by (now rewrite !appendInt_2_length).
  rewrite !appendInt_2_compare by assumption.
  pose proof (Z.div_mod a 100 ltac:(lia)) as Ea.
  pose proof (Z.div_mod b 100 ltac:(lia)) as Eb.
  destruct (Z.compare_spec (a / 100) (b / 100)) as [E|E|E];
    [destruct (Z.compare_spec (a mod 100) (b mod 100)) as [F|F|F]| |];
    symmetry; first [apply Z.compare_eq_iff | apply Z.compare_lt_iff | apply Z.compare_gt_iff];
    lia.
Qed.

Lemma length_append (s1 s2 : string) :
  String.length (s1 ++ s2)%string = (String.length s1 + String.length s2)%nat.
Proof. induction s1; simpl; congruence. Qed.

Lemma appendInt_4_length (a : Z) : 0 <= a < 10000 -> String.length (appendInt a 4) = 4%nat.
Proof.
  intros Ha. rewrite appendInt_4_split by assumption.
  rewrite length_append, !appendInt_2_length; [reflexivity| |];
    Z.div_mod_to_equations; lia.
Qed.


Lemma absDate_year_range (abs : Z) :
  9223371966548102400 <= abs <= 9223372282117622399 ->
  0 <= fst (absDate abs) <= 9999.
Proof.
  intros H.
  destruct (absDate_spec abs ltac:(lia)) as (Hn & Hy & He & Hl).
  set (n := fst (absDate abs) - absoluteZeroYear) in *.
  assert (H0 : days_before 292277022399 = 9223371966548102400 / 86400)
    by (vm_compute; reflexivity).
  assert (H1 : days_before (292277022399 + 10000) = 9223372282117622399 / 86400 + 1)
    by (vm_compute; reflexivity).
  assert (Hlo : 9223371966548102400 / 86400 <= abs / 86400)
    by (apply Z.div_le_mono; lia).
  assert (Hhi : abs / 86400 <= 9223372282117622399 / 86400)
    by (apply Z.div_le_mono; lia).
  assert (292277022399 <= n <= 292277022399 + 9999).
  { split.
    - destruct (Z.le_gt_cases 292277022399 n) as [G|G]; [exact G|exfalso].
      pose proof (days_before_mono (n + 1) 292277022399 ltac:(lia)). lia.
    - destruct (Z.le_gt_cases n (292277022399 + 9999)) as [G|G]; [exact G|exfalso].
      pose proof (days_before_mono (292277022399 + 10000) n ltac:(lia)). lia. }
  unfold absoluteZeroYear in *. lia.
Qed.

Lemma isLeap_cycle (year : Z) : isLeap (year - absoluteZeroYear + 1) = isLeap year.
Proof.
  unfold isLeap, absoluteZeroYear.
  replace ((year - -292277022399 + 1) mod 4) with (year mod 4)
    by (Z.div_mod_to_equations; lia).
  replace ((year - -292277022399 + 1) mod 100) with (year mod 100)
    by (Z.div_mod_to_equations; lia).
  replace ((year - -292277022399 + 1) mod 400) with (year mod 400)
    by (Z.div_mod_to_equations; lia).
  reflexivity.
Qed.

Lemma absDate_yday_range (abs : Z) :
  0 <= abs ->
  0 <= snd (absDate abs) < (if isLeap (fst (absDate abs)) then 366 else 365).
Proof.
  intros H. destruct (absDate_spec abs H) as (Hn & Hy & He & Hl).
  pose proof (year_length (fst (absDate abs) - absoluteZeroYear)) as Hlen.
  rewrite isLeap_cycle in Hlen. destruct (isLeap (fst (absDate abs))); lia.
Qed.

Lemma appendNano_0 : appendNano 0 = ""%string.
Proof. reflexivity. Qed.

Lemma whole_seconds (sec : Z) : sec * Second / Second = sec /\ (sec * Second) mod Second = 0.
Proof. unfold Second. split; [apply Z.div_mul; lia | apply Z.mod_mul; lia]. Qed.

Lemma int64_small (z : Z) : - 2 ^ 63 <= z < 2 ^ 63 -> int64 z = z.
Proof. unfold int64. intros H. rewrite Z.mod_small; lia. Qed.

Lemma unixSec_plain (loc : time_Location) (sec : Z) :
  four_digit_year loc sec -> unixSec (sec * Second) = sec.
Proof.
  unfold four_digit_year, unixSec. intros [H1 H2].
  destruct (whole_seconds sec) as [-> _]. apply int64_small. lia.
Qed.

Lemma time_abs_plain (loc : time_Location) (sec : Z) :
  four_digit_year loc sec ->
  time_abs loc (sec * Second) = sec + loc sec + unixToAbsolute
  /\ 9223371966548102400 <= sec + loc sec + unixToAbsolute <= 9223372282117622399.
Proof.
  intros H. unfold time_abs. rewrite (unixSec_plain loc sec H).
  destruct H as [H _]. unfold unixToAbsolute. split; [|lia].
  apply Z.mod_small. lia.
Qed.

Lemma clock_key_mono (a b : Z) :
  a / 86400 = b / 86400 -> a < b -> clock_key a < clock_key b.
Proof.
  unfold clock_key. intros Hd Hlt. Z.div_mod_to_equations. lia.
Qed.

Ltac field2 :=
  rewrite compare_app by (rewrite !appendInt_2_length by lia; reflexivity);
  rewrite appendInt_2_compare by lia.

Lemma compare_refl (s : string) : String.compare s s = Eq.
Proof.
  induction s as [|c s IH]; [reflexivity|].
  cbn [String.compare]. unfold Ascii.compare. now rewrite N.compare_refl.
Qed.

Lemma compare_sep (c : string) (r1 r2 : string) :
  String.compare (c ++ r1)%string (c ++ r2)%string = String.compare r1 r2.
Proof.
  rewrite compare_app by reflexivity. now rewrite compare_refl.
Qed.

Lemma Time_Format_mono (loc : time_Location) (a b : Z) :
  four_digit_year loc a -> four_digit_year loc b ->
  loc a = loc b -> a < b ->
  String.compare (Time_Format loc (a * Second)) (Time_Format loc (b * Second)) = Lt.
Proof.
  intros Ha Hb Hloc Hlt.
  destruct (time_abs_plain loc a Ha) as [Ea Ra].
  destruct (time_abs_plain loc b Hb) as [Eb Rb].
  unfold Time_Format. rewrite Ea, Eb.
  rewrite (unixSec_plain loc a Ha), (unixSec_plain loc b Hb).
  destruct (whole_seconds a) as [_ ->]. destruct (whole_seconds b) as [_ ->].
  rewrite appendNano_0, <- Hloc. rewrite <- Hloc in Rb.
  set (x := a + loc a + unixToAbsolute) in *.
  set (y := b + loc a + unixToAbsolute) in *.
  assert (Hxy : x < y) by (unfold x, y; lia).
  pose proof (absDate_year_range x Ra) as Yx.
  pose proof (absDate_year_range y Rb) as Yy.
  pose proof (absDate_yday_range x ltac:(lia)) as Dx.
  pose proof (absDate_yday_range y ltac:(lia)) as Dy.
  pose proof (month_day_ok _ _ Dx) as Mx.
  pose proof (month_day_ok _ _ Dy) as My.
  assert (Hdays : x / 86400 < y / 86400 \/ x / 86400 = y / 86400).
  { assert (x / 86400 <= y / 86400) by (apply Z.div_le_mono; lia). lia. }
  assert (Hdate :
    fst (absDate x) < fst (absDate y)
    \/ (fst (absDate x) = fst (absDate y)
        /\ date_key (month_day (isLeap (fst (absDate x))) (snd (absDate x)))
           < date_key (month_day (isLeap (fst (absDate y))) (snd (absDate y))))
    \/ (fst (absDate x) = fst (absDate y)
        /\ month_day (isLeap (fst (absDate x))) (snd (absDate x))
           = month_day (isLeap (fst (absDate y))) (snd (absDate y))
        /\ clock_key x < clock_key y)).
  { destruct Hdays as [Hd|Hd].
    - destruct (absDate_mono x y ltac:(lia) Hd) as [H|[H1 H2]]; [now left|].
      right; left. split; [exact H1|]. rewrite <- H1.
      apply month_day_mono; [lia | exact H2 | rewrite H1; lia].
    - right; right. rewrite (absDate_same_day x y Hd).
      split; [reflexivity|]. split; [reflexivity | now apply clock_key_mono]. }
  clear Hdays.
  destruct (absDate x) as [yx dx], (absDate y) as [yy dy]. cbn [fst snd] in *.
  destruct (month_day (isLeap yx) dx) as [mx ddx], (month_day (isLeap yy) dy) as [my ddy].
  unfold date_ok, date_key, clock_key in *. cbn [fst snd] in *.
  assert (Sx : 0 <= x mod 86400 < 86400) by (apply Z.mod_pos_bound; lia).
  assert (Sy : 0 <= y mod 86400 < 86400) by (apply Z.mod_pos_bound; lia).
  set (sx := x mod 86400) in *. set (sy := y mod 86400) in *.
  assert (Hx1 : 0 <= sx / 3600 < 100) by (Z.div_mod_to_equations; lia).
  assert (Hx2 : 0 <= sx mod 3600 / 60 < 100) by (Z.div_mod_to_equations; lia).
  assert (Hx3 : 0 <= sx mod 60 < 100) by (Z.div_mod_to_equations; lia).
  assert (Hy1 : 0 <= sy / 3600 < 100) by (Z.div_mod_to_equations; lia).
  assert (Hy2 : 0 <= sy mod 3600 / 60 < 100) by (Z.div_mod_to_equations; lia).
  assert (Hy3 : 0 <= sy mod 60 < 100) by (Z.div_mod_to_equations; lia).
  set (hx := sx / 3600) in *. set (ix := sx mod 3600 / 60) in *. set (cx := sx mod 60) in *.
  set (hy := sy / 3600) in *. set (iy := sy mod 3600 / 60) in *. set (cy := sy mod 60) in *.
  clearbody hx ix cx hy iy cy.
  rewrite compare_app by (rewrite !appendInt_4_length by lia; reflexivity).
  rewrite appendInt_4_compare by lia.
  destruct (Z.compare_spec yx yy) as [E|E|E]; [subst yy | reflexivity | exfalso; lia].
  rewrite compare_sep. field2.
  destruct (Z.compare_spec mx my) as [E|E|E]; [subst my | reflexivity | exfalso].
  2:{ destruct Hdate as [H|[[_ H]|(_ & H & _)]]; [lia | lia | injection H; intros; lia]. }
  rewrite compare_sep. field2.
  destruct (Z.compare_spec ddx ddy) as [E|E|E]; [subst ddy | reflexivity | exfalso].
  2:{ destruct Hdate as [H|[[_ H]|(_ & H & _)]]; [lia | lia | injection H; intros; lia]. }
  assert (Hclock : 10000 * hx + 100 * ix + cx < 10000 * hy + 100 * iy + cy).
  { destruct Hdate as [H|[[_ H]|(_ & _ & H)]]; [lia | lia | exact H]. }
  rewrite compare_sep. field2.
  destruct (Z.compare_spec hx hy) as [E|E|E]; [subst hy | reflexivity | exfalso; lia].
  rewrite compare_sep. field2.
  destruct (Z.compare_spec ix iy) as [E|E|E]; [subst iy | reflexivity | exfalso; lia].
  rewrite compare_sep. field2.
  destruct (Z.compare_spec cx cy) as [E|E|E]; [exfalso; lia | reflexivity | exfalso; lia].
Qed.

(** *** The order of timestamps *)

(** Away from the ends of int64, [time.Unix] is the plain count of seconds. *)
Lemma time_Unix_plain (sec : Z) :
  - 2 ^ 63 <= sec + unixToInternal < 2 ^ 63 -> time_Unix sec = sec * Second.
Proof. unfold time_Unix. intros H. rewrite int64_small by exact H. f_equal. lia. Qed.

Lemma time_Unix_four_digit (loc : time_Location) (sec : Z) :
  four_digit_year loc sec -> time_Unix sec = sec * Second.
Proof.
  unfold four_digit_year. intros [H1 H2]. apply time_Unix_plain.
  unfold unixToInternal. lia.
Qed.

Lemma value_ltb_VTime (loc : time_Location) (a b : Time) :
  value_ltb loc (VTime a) (VTime b)
  = match String.compare (Time_Format loc a) (Time_Format loc b) with
    | Lt => true
    | _ => false
    end.
Proof. reflexivity. Qed.

(** In years of four digits and at one offset, the later second has the
    larger text. *)
Lemma later_sorts_after (loc : time_Location) (a b : Z) :
  four_digit_year loc a -> four_digit_year loc b -> loc a = loc b -> a < b ->
  value_ltb loc (VTime (time_Unix a)) (VTime (time_Unix b)) = true.
Proof.
  intros Ha Hb Hloc Hlt.
  rewrite (time_Unix_four_digit loc a Ha), (time_Unix_four_digit loc b Hb), value_ltb_VTime.
  now rewrite Time_Format_mono.
Qed.

Lemma compare_lt_trans (a b c : string) :
  String.compare a b = Lt -> String.compare b c = Lt -> String.compare a c = Lt.
Proof.
  revert b c. induction a as [|x a IH]; intros [|y b] [|z c]; cbn [String.compare];
    try discriminate; try reflexivity.
  unfold Ascii.compare.
  destruct (N.compare_spec (N_of_ascii x) (N_of_ascii y)) as [E1|E1|E1]; try discriminate;
    destruct (N.compare_spec (N_of_ascii y) (N_of_ascii z)) as [E2|E2|E2]; try discriminate;
    destruct (N.compare_spec (N_of_ascii x) (N_of_ascii z)) as [E3|E3|E3];
    intros H1 H2; try reflexivity; try lia; eauto.
Qed.

Lemma timestamp_irreflexive (loc : time_Location) (t : Time) :
  value_ltb loc (VTime t) (VTime t) = false.
Proof. now rewrite value_ltb_VTime, compare_refl. Qed.

Lemma timestamp_asymmetric (loc : time_Location) (a b : Time) :
  value_ltb loc (VTime a) (VTime b) = true -> value_ltb loc (VTime b) (VTime a) = false.
Proof.
  rewrite !value_ltb_VTime, (String.compare_antisym (Time_Format loc a)).
  destruct (String.compare (Time_Format loc b) (Time_Format loc a)); cbn; congruence.
Qed.

(** Timestamps are totally ordered: what sorts neither before [h] nor after
    it sorts where [h] does. *)
Lemma timestamp_not_before (loc : time_Location) (a h x : Time) :
  value_ltb loc (VTime a) (VTime h) = false ->
  value_ltb loc (VTime h) (VTime x) = false ->
  value_ltb loc (VTime a) (VTime x) = false.
Proof.
  rewrite !value_ltb_VTime.
  destruct (String.compare (Time_Format loc a) (Time_Format loc h)) eqn:E1; try discriminate;
    intros _;
    destruct (String.compare (Time_Format loc h) (Time_Format loc x)) eqn:E2;
    try discriminate; intros _;
    destruct (String.compare (Time_Format loc a) (Time_Format loc x)) eqn:E3;
    try reflexivity; exfalso.
  - apply String.compare_eq_iff in E1, E2. rewrite E1, E2, compare_refl in E3. discriminate.
  - apply String.compare_eq_iff in E1. rewrite E1, E2 in E3. discriminate.
  - apply String.compare_eq_iff in E2. rewrite <- E2, E1 in E3. discriminate.
  - rewrite String.compare_antisym in E1, E2.
    assert (F1 : String.compare (Time_Format loc h) (Time_Format loc a) = Lt)
      by (destruct (String.compare (Time_Format loc h) (Time_Format loc a));
          cbn in E1; congruence).
    assert (F2 : String.compare (Time_Format loc x) (Time_Format loc h) = Lt)
      by (destruct (String.compare (Time_Format loc x) (Time_Format loc h));
          cbn in E2; congruence).
    pose proof (compare_lt_trans _ _ _ F2 F1) as F3.
    rewrite String.compare_antisym, F3 in E3. discriminate.
Qed.

Lemma insert_sorted_not_nil (loc : time_Location) (i : nat) (desc : bool) (r : row)
    (l : list row) :
  insert_sorted loc i desc r l <> [].
Proof. destruct l; cbn [insert_sorted]; [|destruct (precedes _ _ _ _)]; discriminate. Qed.

Lemma sort_rows_cons (loc : time_Location) (i : nat) (desc : bool) (a : row) (l : list row) :
  sort_rows loc i desc (a :: l) = insert_sorted loc i desc a (sort_rows loc i desc l).
Proof. reflexivity. Qed.

Lemma sort_rows_nil_iff (loc : time_Location) (i : nat) (desc : bool) (l : list row) :
  sort_rows loc i desc l = [] -> l = [].
Proof.
  destruct l as [|a l]; [reflexivity|]. rewrite sort_rows_cons.
  intros H. now apply insert_sorted_not_nil in H.
Qed.


(** The first row in descending order of the timestamps is one that no row
    sorts after. *)
Lemma sort_rows_head_last (loc : time_Location) (l : list row) :
  Forall (fun r => exists t, field 3 r = VTime t) l ->
  forall h rest, sort_rows loc 3 true l = h :: rest ->
  In h l /\ forall x, In x l -> value_ltb loc (field 3 h) (field 3 x) = false.
Proof.
  induction 1 as [|a l [ta Ha] Hl IH]; intros h rest Hs; [discriminate|].
  rewrite sort_rows_cons in Hs.
  destruct (sort_rows loc 3 true l) as [|h' rest'] eqn:Hsort.
  - apply sort_rows_nil_iff in Hsort. subst l.
    cbn in Hs. injection Hs as <- <-. split; [now left|].
    intros x [<-|[]]. rewrite Ha. apply timestamp_irreflexive.
  - destruct (IH h' rest' eq_refl) as [Hin Hmax].
    assert (Hh' : exists t', field 3 h' = VTime t').
    { rewrite Forall_forall in Hl. now apply Hl. }
    destruct Hh' as [t' Ht'].
    cbn [insert_sorted] in Hs. unfold precedes in Hs. rewrite Ht', Ha in Hs.
    destruct (value_ltb loc (VTime ta) (VTime t')) eqn:E.
    + injection Hs as <- _. split; [now right|].
      intros x [<-|Hx].
      * rewrite Ht', Ha. now apply timestamp_asymmetric.
      * now apply Hmax.
    + injection Hs as <- _. split; [now left|].
      intros x [<-|Hx].
      * rewrite Ha. apply timestamp_irreflexive.
      * rewrite Forall_forall in Hl. destruct (Hl x Hx) as [tx Htx].
        rewrite Ha, Htx. apply (timestamp_not_before loc ta t' tx E).
        rewrite <- Ht', <- Htx. now apply Hmax.
Qed.


(** A reading later than the stored ones of the chat sorts after them, when
    all of them fall in years of four digits and were written at one
    offset. *)
Lemma newer_than_stored_by_time (s : Store) (chatID : Z) (dp : DataPoint) :
  four_digit_year s.(DB).(zone) dp.(Dt) ->
  (forall r, In r s.(DB).(data_point).(rows) -> field 1 r = VInt chatID ->
             exists sec,
               field 3 r = VTime (time_Unix sec)
               /\ four_digit_year s.(DB).(zone) sec
               /\ s.(DB).(zone) sec = s.(DB).(zone) dp.(Dt)
               /\ sec < dp.(Dt)) ->
  newer_than_stored s chatID dp.
Proof.
  intros Hdp H r Hr Hc. destruct (H r Hr Hc) as (sec & -> & Hy & Hoff & Hlt).
  unfold sorts_before. now apply later_sorts_after.
Qed.

(** On typed rows, what [GetLastPD] returns for a chat with readings is the
    chat's most recent reading. *)
Lemma GetLastPD_most_recent (s : Store) (chatID : Z) :
  forallb (row_typed data_point_types) s.(DB).(data_point).(rows) = true ->
  has_reading s chatID ->
  exists dp, most_recent s chatID dp.
Proof.
  intros Ht (r0 & Hr0 & Hc0).
  rewrite forallb_forall in Ht.
  set (hits := filter (row_matches [(1%nat, VInt chatID)]) s.(DB).(data_point).(rows)).
  assert (Hhits : forall r, In r hits <->
                    In r s.(DB).(data_point).(rows) /\ field 1 r = VInt chatID).
  { intros r. unfold hits. rewrite filter_In, row_matches_one. reflexivity. }
  assert (Htimes : Forall (fun r => exists t, field 3 r = VTime t) hits).
  { apply Forall_forall. intros r Hr. apply Hhits in Hr as [Hr _].
    apply Ht, data_point_row_typed in Hr. destruct Hr as (id & c & b & t & ->).
    now exists t. }
  destruct (sort_rows s.(DB).(zone) 3 true hits) as [|h rest] eqn:Hs.
  { exfalso. apply sort_rows_nil_iff in Hs.
    assert (Hin : In r0 hits) by (apply Hhits; auto).
    rewrite Hs in Hin. exact Hin. }
  destruct (sort_rows_head_last _ hits Htimes h rest Hs) as [Hin Hmax].
  apply Hhits in Hin as [Hin Hc].
  pose proof (Ht h Hin) as Hty. apply data_point_row_typed in Hty.
  destruct Hty as (id & c & [dp] & t & ->). cbn in Hc. injection Hc as ->.
  exists dp. split.
  - unfold GetLastPD, QueryRow. rewrite Query_last_reading. fold hits. rewrite Hs.
    reflexivity.
  - exists [VInt id; VInt chatID; VBlob (JSON dp); VTime t].
    repeat split; [exact Hin|].
    intros x Hx Hcx. unfold sorts_before.
    rewrite (Hmax x); [discriminate|]. apply Hhits. auto.
Qed.

(** *** Where the order of the texts is not the order of the instants *)

(** Across the end of summer time: the reading taken at 02:10 winter time is
    forty minutes later than the one taken at 02:30 summer time and sorts
    before it, so [GetLastPD] answers with the earlier reading. *)
Lemma GetLastPD_across_offset_change :
  Time_Format berlin (time_Unix 1792888200) = "2026-10-25 02:30:00+02:00"%string
  /\ Time_Format berlin (time_Unix 1792890600) = "2026-10-25 02:10:00+01:00"%string
  /\ GetLastPD store_berlin 42 = Ok (reading 1792888200 2).
Proof. vm_compute. repeat split. Qed.

(** After year 9999 the text has a digit more and sorts before the texts of
    today. *)
Lemma five_digit_year_sorts_first :
  Time_Format time_UTC (time_Unix 253402300800) = "10000-01-01 00:00:00+00:00"%string
  /\ value_ltb time_UTC (VTime (time_Unix 253402300800)) (VTime example_now) = true.
Proof. vm_compute. split; reflexivity. Qed.

(** [time.Unix] of the largest int64 is a time long before year 1: it has
    been stale for longer than a Duration can say. *)
Lemma time_Unix_wraps :
  time_Unix (2 ^ 63 - 1) < time_Unix 0
  /\ time_Since example_now (time_Unix (2 ^ 63 - 1)) = maxDuration.
Proof. vm_compute. split; reflexivity. Qed.

(** ** C1: the duplicate check *)

Lemma duplicate_check_iff (s : Store) (chatID : Z) (us : UserSession) :
  forallb (row_typed subscription_types) s.(DB).(subscription).(rows) = true ->
  existsb
    (fun s0 : AQISubscription =>
       PrimFloat.ltb (math_Abs (s0.(sub_UserSession).(Latitude) - us.(Latitude))%float)
         0.0009%float
       || PrimFloat.ltb (math_Abs (s0.(sub_UserSession).(Longitude) - us.(Longitude))%float)
            0.0009%float)
    (map (listed false)
       (filter (row_matches [(1%nat, VInt chatID); (6%nat, VInt 1)])
          s.(DB).(subscription).(rows))) = true
  <-> exists id language lon lat aqi t,
        In (subscription_row id chatID language (VReal lon) (VReal lat) aqi 1 t)
           s.(DB).(subscription).(rows)
        /\ too_close lat lon us.
Proof.
  intros Ht. rewrite existsb_exists. split.
  - intros (x & Hx & Hc). apply in_map_iff in Hx as (r & <- & Hr).
    apply filter_In in Hr as [Hr Hm].
    rewrite forallb_forall in Ht. pose proof (Ht r Hr) as Hty.
    apply subscription_row_typed in Hty
      as (id & c & l & lon & lat & aqi & en & t & ->).
    apply row_matches_chat_enabled in Hm as [Hc1 Hc2].
    simpl in Hc1, Hc2. injection Hc1 as ->. injection Hc2 as ->.
    exists id, l, lon, lat, aqi, t. split; [assumption|].
    simpl in Hc. now apply orb_true_iff in Hc.
  - intros (id & l & lon & lat & aqi & t & Hin & Hc).
    exists (listed false (subscription_row id chatID l (VReal lon) (VReal lat) aqi 1 t)).
    split.
    + apply in_map, filter_In. split; [assumption|].
      apply row_matches_chat_enabled. split; reflexivity.
    + simpl. now apply orb_true_iff.
Qed.

(** C1. With a stored session [us] for the chat, [AddAQISubscription] answers
    [ErrNotificationExists] exactly when the subscription relation holds an
    enabled row of that chat whose latitude is within 0.0009 of the session's
    or whose longitude is within 0.0009 of the session's (either one
    suffices); when it does, the store is left as it was. *)
Theorem AddAQISubscription_duplicate_iff
    (s : Store) (chatID : Z) (now : Time) (us : UserSession) :
  well_typed s.(DB) = true ->
  GetSessionByChatID s chatID = Ok us ->
  (snd (AddAQISubscription s chatID now) = Some ErrNotificationExists
   <-> exists id language lon lat aqi t,
         In (subscription_row id chatID language (VReal lon) (VReal lat) aqi 1 t)
            s.(DB).(subscription).(rows)
         /\ too_close lat lon us)
  /\ (snd (AddAQISubscription s chatID now) = Some ErrNotificationExists ->
      fst (AddAQISubscription s chatID now) = s).
Proof.
  intros Hwt Hs. apply well_typed_tables in Hwt as (_ & _ & Ht).
  pose proof (duplicate_check_iff s chatID us Ht) as Hdup.
  unfold AddAQISubscription.
  rewrite Hs, (ListAQISubscriptions_eq _ _ Ht).
  destruct (existsb _ _).
  - simpl. repeat split; auto. intros _. now apply Hdup.
  - assert (Hno : forall e : option error,
               e <> Some ErrNotificationExists ->
               (e = Some ErrNotificationExists <->
                exists id language lon lat aqi t,
                  In (subscription_row id chatID language (VReal lon) (VReal lat) aqi 1 t)
                     s.(DB).(subscription).(rows)
                  /\ too_close lat lon us)).
    { intros e He. split; [contradiction|].
      intros H. apply Hdup in H. discriminate. }
    destruct (GetLastPD_cases s chatID) as [[dp ->] | ->].
    + rewrite Exec_insert_subscription. simpl.
      split; [apply Hno|]; discriminate.
    + simpl. split; [apply Hno|]; discriminate.
Qed.

Lemma AddAQISubscription_duplicate_iff_witness :
  well_typed store_moved.(DB) = true
  /\ GetSessionByChatID store_moved 42 = Ok session_B_stored
  /\ snd (AddAQISubscription store_moved 42 example_now) = Some ErrNotificationExists
  /\ fst (AddAQISubscription store_moved 42 example_now) = store_moved.
Proof.
  assert (H1 : well_typed store_moved.(DB) = true) by (vm_compute; reflexivity).
  assert (H2 : GetSessionByChatID store_moved 42 = Ok session_B_stored)
    by (vm_compute; reflexivity).
  destruct (AddAQISubscription_duplicate_iff store_moved 42 example_now
              session_B_stored H1 H2) as [Hiff Hsame].
  assert (H3 : snd (AddAQISubscription store_moved 42 example_now)
               = Some ErrNotificationExists).
  { apply Hiff. exists 1, "en", 2%float, 1%float, 3, example_now.
    assert (Hrows : store_moved.(DB).(subscription).(rows)
                    = [subscription_row 1 42 "en" (VReal 2) (VReal 1) 3 1 example_now])
      by (vm_compute; reflexivity).
    rewrite Hrows. split; [left; reflexivity | left; vm_compute; reflexivity]. }
  repeat split; auto.
Defined.

(** ** C5: subscribing before any reading was stored *)

Lemma no_reading_session_only : no_reading store_session_only 42.
Proof. intros r Hr. vm_compute in Hr. destruct Hr. Qed.

(** At a chat with a session and no reading the subscription is created all
    the same, with index 0. *)
Lemma AddAQISubscription_without_reading :
  GetSessionByChatID store_session_only 42 = Ok session_A_stored
  /\ no_reading store_session_only 42
  /\ snd (AddAQISubscription store_session_only 42 example_now) = None
  /\ (fst (AddAQISubscription store_session_only 42 example_now)).(DB).(subscription).(rows)
     = [subscription_row 1 42 "en" (VReal 2) (VReal 1) 0 1 example_now].
Proof.
  split; [vm_compute; reflexivity|].
  split; [exact no_reading_session_only|].
  split; vm_compute; reflexivity.
Qed.

(** C5, as the code has it.  For a chat with a stored session and no stored
    reading, [AddAQISubscription] does not fail for the missing reading:
    unless it rejects a duplicate, it returns no error and appends an enabled
    subscription row whose aqi is 0, the index of the zero DataPoint that
    [GetLastPD] returns for "no rows". *)
Theorem AddAQISubscription_no_reading
    (s : Store) (chatID : Z) (now : Time) (us : UserSession) :
  well_typed s.(DB) = true ->
  GetSessionByChatID s chatID = Ok us ->
  no_reading s chatID ->
  snd (AddAQISubscription s chatID now) = Some ErrNotificationExists
  \/ AddAQISubscription s chatID now
     = (with_DB s
          (add_subscription s.(DB)
             (subscription_row (next_id s.(DB).(subscription)) us.(ChatID)
                us.(LanguageCode) (bind_float us.(Longitude)) (bind_float us.(Latitude))
                0 1 now)),
        None).
Proof.
  intros Hwt Hs Hno. apply well_typed_tables in Hwt as (_ & _ & Ht).
  unfold AddAQISubscription.
  rewrite Hs, (ListAQISubscriptions_eq _ _ Ht).
  destruct (existsb _ _); [left; reflexivity|].
  right. rewrite (GetLastPD_no_reading _ _ Hno), Exec_insert_subscription.
  reflexivity.
Qed.

Lemma AddAQISubscription_no_reading_witness :
  well_typed store_session_only.(DB) = true
  /\ GetSessionByChatID store_session_only 42 = Ok session_A_stored
  /\ no_reading store_session_only 42
  /\ (snd (AddAQISubscription store_session_only 42 example_now)
        = Some ErrNotificationExists
      \/ AddAQISubscription store_session_only 42 example_now
         = (with_DB store_session_only
              (add_subscription store_session_only.(DB)
                 (subscription_row (next_id store_session_only.(DB).(subscription))
                    session_A_stored.(ChatID) session_A_stored.(LanguageCode)
                    (bind_float session_A_stored.(Longitude))
                    (bind_float session_A_stored.(Latitude)) 0 1 example_now)),
            None)).
Proof.
  assert (H1 : well_typed store_session_only.(DB) = true) by (vm_compute; reflexivity).
  assert (H2 : GetSessionByChatID store_session_only 42 = Ok session_A_stored)
    by (vm_compute; reflexivity).
  split; [exact H1|]. split; [exact H2|].
  split; [exact no_reading_session_only|].
  exact (AddAQISubscription_no_reading store_session_only 42 example_now
           session_A_stored H1 H2 no_reading_session_only).
Defined.

(** ** C6: how "no reading" is reported *)

Lemma has_reading_after_insert (s : Store) (chatID : Z) (dp : DataPoint) :
  json_Marshal dp = Ok (JSON dp) ->
  has_reading (fst (AddDataPoint s chatID [dp])) chatID.
Proof.
  intros Hm. rewrite (AddDataPoint_cons _ _ _ _ Hm). cbn.
  eexists. split; [apply in_or_app; right; left; reflexivity | reflexivity].
Qed.

Lemma GetLastPD_first_reading (chatID : Z) (dp : DataPoint) :
  json_Marshal dp = Ok (JSON dp) ->
  GetLastPD (fst (AddDataPoint NewStore chatID [dp])) chatID = Ok dp.
Proof.
  intros Hm. rewrite (AddDataPoint_cons _ _ _ _ Hm).
  unfold GetLastPD, QueryRow. rewrite Query_last_reading. cbn.
  rewrite Z.eqb_refl. reflexivity.
Qed.

(** On a store without readings [GetLastPD] yields a DataPoint whose timestamp
    is 0 and no error, the very answer it gives for a chat whose stored
    reading is the zero DataPoint. *)
Lemma GetLastPD_absence_is_a_zero_reading :
  no_reading NewStore 42
  /\ has_reading store_epoch_reading 42
  /\ GetLastPD NewStore 42 = Ok DataPoint_zero
  /\ GetLastPD store_epoch_reading 42 = Ok DataPoint_zero
  /\ DataPoint_zero.(Dt) = 0.
Proof.
  split; [intros r []|].
  split; [exists [VInt 1; VInt 42; VBlob (JSON DataPoint_zero); VTime 0];
          split; [left|]; vm_compute; reflexivity|].
  repeat split; vm_compute; reflexivity.
Qed.

(** C6, as the code has it.  For a chat without a stored reading [GetLastPD]
    returns the zero DataPoint (timestamp 0, index 0, no components) and a nil
    error; the caller cannot tell this from a chat whose most recent stored
    reading is the zero DataPoint. *)
Theorem GetLastPD_absent_is_zero_DataPoint (s : Store) (chatID : Z) :
  no_reading s chatID ->
  GetLastPD s chatID = Ok DataPoint_zero
  /\ DataPoint_zero.(Dt) = 0
  /\ exists s', has_reading s' chatID /\ GetLastPD s' chatID = GetLastPD s chatID.
Proof.
  intros Hno. rewrite (GetLastPD_no_reading _ _ Hno).
  repeat split.
  exists (fst (AddDataPoint NewStore chatID [DataPoint_zero])). split.
  - now apply has_reading_after_insert.
  - now apply GetLastPD_first_reading.
Qed.

Lemma GetLastPD_absent_is_zero_DataPoint_witness :
  no_reading NewStore 42
  /\ GetLastPD NewStore 42 = Ok DataPoint_zero
  /\ DataPoint_zero.(Dt) = 0
  /\ exists s', has_reading s' 42 /\ GetLastPD s' 42 = GetLastPD NewStore 42.
Proof.
  assert (H : no_reading NewStore 42) by (intros r []).
  split; [exact H|].
  exact (GetLastPD_absent_is_zero_DataPoint NewStore 42 H).
Defined.

(** ** C7 and C8: the janitor *)

(** C7 at a store with two disabled subscriptions and an enabled one:
    [CronCleanup] logs the engine's syntax error and all three rows are still
    there. *)
Theorem CronCleanup_keeps_disabled_subscriptions :
  (store (CronCleanup (offline_bot store_with_disabled))).(DB).(subscription).(rows)
  = [subscription_row 1 42 "en" (VReal 2) (VReal 1) 3 0 example_now;
     subscription_row 2 42 "en" (VReal 2) (VReal 1) 3 0 example_now;
     subscription_row 3 42 "en" (VReal 2) (VReal 1) 3 1 example_now]
  /\ events (CronCleanup (offline_bot store_with_disabled))
     = [LogPrint "CronCleanup:" (ErrSyntax "subscription")].
Proof. split; vm_compute; reflexivity. Qed.

(** C8 at a store with readings 13, 11 and 1 hours old: [CronCleanup] does
    not call [ClenupDataPoint], and [ClenupDataPoint] itself is refused by the
    engine; the three readings are still there. *)
Theorem CronCleanup_keeps_old_readings :
  List.length store_with_old_readings.(DB).(data_point).(rows) = 3%nat
  /\ (store (CronCleanup (offline_bot store_with_old_readings))).(DB).(data_point)
     = store_with_old_readings.(DB).(data_point)
  /\ ClenupDataPoint store_with_old_readings
     = (store_with_old_readings, Some (ErrSyntax "data_point")).
Proof.
  split; [vm_compute; reflexivity|].
  split; [now rewrite CronCleanup_store | apply ClenupDataPoint_fails].
Qed.

(** ** C10: subscribing again after unsubscribing *)

Lemma DeleteAQISubscriptions_eq (s : Store) (chatID : Z) :
  DeleteAQISubscriptions s chatID
  = (with_DB s
       {| user_session := s.(DB).(user_session);
          data_point := s.(DB).(data_point);
          subscription :=
            {| rows := map (fun r => if row_matches [(1%nat, VInt chatID)] r
                                     then set_nth 6 (VInt 0) r else r)
                         s.(DB).(subscription).(rows);
               seq := s.(DB).(subscription).(seq) |};
          zone := s.(DB).(zone) |},
     None).
Proof.
  unfold DeleteAQISubscriptions, Exec, prepare_bound. run_prepare. reflexivity.
Qed.

Lemma field_set_nth_same (i : nat) (v : value) (r : row) :
  field i (set_nth i v r) = v \/ field i (set_nth i v r) = VNull.
Proof.
  revert i. induction r as [|x r IH]; intros [|i]; simpl; auto.
  apply IH.
Qed.

Lemma field_set_nth_other (i j : nat) (v : value) (r : row) :
  i <> j -> field i (set_nth j v r) = field i r.
Proof.
  revert i j. induction r as [|x r IH]; intros [|i] [|j] H; simpl; auto.
  - contradiction.
  - apply IH. congruence.
Qed.

Lemma no_enabled_after_disable (chatID : Z) (l : list row) :
  filter (row_matches [(1%nat, VInt chatID); (6%nat, VInt 1)])
    (map (fun r => if row_matches [(1%nat, VInt chatID)] r
                   then set_nth 6 (VInt 0) r else r) l) = [].
Proof.
  apply filter_nil_iff. intros x Hx.
  apply in_map_iff in Hx as (r & <- & _).
  destruct (row_matches [(1%nat, VInt chatID); (6%nat, VInt 1)] _) eqn:E; [|reflexivity].
  apply row_matches_chat_enabled in E as [E1 E6].
  destruct (row_matches [(1%nat, VInt chatID)] r) eqn:Er.
  - destruct (field_set_nth_same 6 (VInt 0) r) as [H|H]; rewrite H in E6; discriminate.
  - apply row_matches_one in E1. congruence.
Qed.

Lemma Query_session (d : db) (chatID : Z) :
  Query d
    "SELECT chatid, userid, language, longitude, latitude, created_at FROM user_session WHERE chatid=?"
    [VInt chatID]
  = Ok (map (project [0; 1; 2; 3; 4; 5]%nat)
          (filter (row_matches [(0%nat, VInt chatID)]) d.(user_session).(rows))).
Proof.
  unfold Query, prepare_bound. run_prepare. reflexivity.
Qed.

Lemma GetSessionByChatID_same_sessions (s s' : Store) (chatID : Z) :
  s'.(DB).(user_session) = s.(DB).(user_session) ->
  GetSessionByChatID s' chatID = GetSessionByChatID s chatID.
Proof.
  intros H. unfold GetSessionByChatID, QueryRow. rewrite !Query_session, H. reflexivity.
Qed.

(** C10. For a chat with a stored session, [DeleteAQISubscriptions] succeeds
    and the [AddAQISubscription] that follows it is not rejected as a
    duplicate: it returns no error at all, whatever subscriptions the chat had
    before. *)
Theorem AddAQISubscription_after_DeleteAQISubscriptions
    (s : Store) (chatID : Z) (now : Time) (us : UserSession) :
  well_typed s.(DB) = true ->
  GetSessionByChatID s chatID = Ok us ->
  snd (DeleteAQISubscriptions s chatID) = None
  /\ snd (AddAQISubscription (fst (DeleteAQISubscriptions s chatID)) chatID now)
     <> Some ErrNotificationExists
  /\ snd (AddAQISubscription (fst (DeleteAQISubscriptions s chatID)) chatID now) = None.
Proof.
  intros Hwt Hs. apply well_typed_tables in Hwt as (_ & Hd & _).
  rewrite DeleteAQISubscriptions_eq. cbn [fst snd].
  set (s1 := with_DB s _).
  assert (Hadd : snd (AddAQISubscription s1 chatID now) = None).
  { unfold AddAQISubscription.
    rewrite (GetSessionByChatID_same_sessions s s1 chatID eq_refl), Hs.
    unfold ListAQISubscriptions. rewrite Query_chat_subscriptions.
    unfold s1 at 1. cbn [DB with_DB subscription rows].
    rewrite no_enabled_after_disable. cbn [map bind mapM existsb].
    rewrite (GetLastPD_same_readings s s1 chatID eq_refl eq_refl).
    destruct (GetLastPD_typed s chatID Hd) as [dp ->].
    rewrite Exec_insert_subscription. reflexivity. }
  rewrite Hadd. repeat split. discriminate.
Qed.

Lemma AddAQISubscription_after_DeleteAQISubscriptions_witness :
  well_typed store_subscribed.(DB) = true
  /\ GetSessionByChatID store_subscribed 42 = Ok session_A_stored
  /\ snd (AddAQISubscription store_subscribed 42 example_now) = Some ErrNotificationExists
  /\ snd (AddAQISubscription (fst (DeleteAQISubscriptions store_subscribed 42)) 42
            example_now) = None.
Proof.
  assert (H1 : well_typed store_subscribed.(DB) = true) by (vm_compute; reflexivity).
  assert (H2 : GetSessionByChatID store_subscribed 42 = Ok session_A_stored)
    by (vm_compute; reflexivity).
  split; [exact H1|]. split; [exact H2|].
  split; [vm_compute; reflexivity|].
  exact (proj2 (proj2 (AddAQISubscription_after_DeleteAQISubscriptions
                         store_subscribed 42 example_now session_A_stored H1 H2))).
Defined.

(** ** C9: sessions *)

Lemma UpdateUserSession_eq (s : Store) (n : UserSession) (now : Time) :
  UpdateUserSession s n now = (with_DB s (replace_session s.(DB) (session_row n now)), None).
Proof.
  unfold UpdateUserSession, Exec, prepare_bound. run_prepare.
  transitivity
    (exec_result s (Some "UpdateUserSession: ")
       (if existsb (fun x => rowid 0 x =? n.(ChatID)) s.(DB).(user_session).(rows) && false
        then Err (ErrConstraint "user_session")
        else Ok (replace_session s.(DB) (session_row n now)))).
  { reflexivity. }
  rewrite andb_false_r. reflexivity.
Qed.

Lemma insert_row_perm (pk : nat) (r : row) (l : list row) :
  Permutation (insert_row pk r l) (r :: l).
Proof.
  induction l as [|a l IH]; simpl; [reflexivity|].
  destruct (rowid pk r <? rowid pk a); [reflexivity|].
  rewrite IH. apply perm_swap.
Qed.

Lemma NoDup_map_filter {A B : Type} (f : A -> B) (g : A -> bool) (l : list A) :
  NoDup (map f l) -> NoDup (map f (filter g l)).
Proof.
  induction l as [|a l IH]; simpl; intros H; [constructor|].
  inversion H as [|? ? Hn Hd]; subst.
  destruct (g a); simpl; [|auto].
  constructor; [|auto].
  intros Hin. apply Hn. apply in_map_iff in Hin as (x & Hx & Hin).
  apply filter_In in Hin as [Hin _]. apply in_map_iff. eauto.
Qed.

Lemma replace_session_unique (d : db) (r : row) :
  NoDup (map (rowid 0) d.(user_session).(rows)) ->
  NoDup (map (rowid 0) (replace_session d r).(user_session).(rows)).
Proof.
  intros H. cbn [replace_session user_session rows].
  eapply Permutation_NoDup.
  { symmetry. apply Permutation_map, insert_row_perm. }
  simpl. constructor.
  - intros Hin. apply in_map_iff in Hin as (x & Hx & Hin).
    apply filter_In in Hin as [_ Hne].
    rewrite Hx, Z.eqb_refl in Hne. discriminate.
  - now apply NoDup_map_filter.
Qed.

Lemma update_sessions_unique (updates : list (UserSession * Time)) (s : Store) :
  unique_sessions s -> unique_sessions (update_sessions s updates).
Proof.
  revert s. induction updates as [|[n now] updates IH]; intros s H; [exact H|].
  apply IH. cbn [fst snd]. rewrite UpdateUserSession_eq.
  unfold unique_sessions. cbn [fst DB with_DB]. now apply replace_session_unique.
Qed.

Lemma filter_insert_row_only (f : row -> bool) (pk : nat) (r : row) (l : list row) :
  f r = true -> (forall x, In x l -> f x = false) ->
  filter f (insert_row pk r l) = [r].
Proof.
  intros Hr. induction l as [|a l IH]; intros Hl; simpl.
  - now rewrite Hr.
  - assert (Ha : f a = false) by (apply Hl; now left).
    assert (Hl' : filter f l = []) by (apply filter_nil_iff; intros x Hx; apply Hl; now right).
    destruct (rowid pk r <? rowid pk a); simpl.
    + now rewrite Hr, Ha, Hl'.
    + rewrite Ha. apply IH. intros x Hx. apply Hl. now right.
Qed.

Lemma bind_float_number (x : float) :
  PrimFloat.is_nan x = false -> bind_float x = VReal (stored_float x).
Proof. unfold bind_float. now intros ->. Qed.

(** What the sign-losing storage of a REAL changes: nothing but a negative
    zero, which becomes zero. *)
Lemma stored_float_keeps (x : float) : negative_zero x = false -> stored_float x = x.
Proof. unfold stored_float. now intros ->. Qed.

Lemma stored_float_zero (x : float) : negative_zero x = true -> stored_float x = 0%float.
Proof. unfold stored_float. now intros ->. Qed.

Lemma stored_float_plain (x : float) : negative_zero (stored_float x) = false.
Proof. unfold stored_float. destruct (negative_zero x) eqn:E; [reflexivity | exact E]. Qed.

Lemma stored_float_number (x : float) :
  PrimFloat.is_nan x = false -> PrimFloat.is_nan (stored_float x) = false.
Proof. unfold stored_float. destruct (negative_zero x); [reflexivity | auto]. Qed.

Lemma stored_as_bind_float (x : float) :
  PrimFloat.is_nan x = false -> stored_as SReal (bind_float x) = true.
Proof.
  intros H. rewrite (bind_float_number _ H). cbn [stored_as].
  now rewrite (stored_float_number _ H), stored_float_plain.
Qed.

Lemma GetSessionByChatID_after_update (s : Store) (n : UserSession) (now : Time) :
  PrimFloat.is_nan n.(Longitude) = false ->
  PrimFloat.is_nan n.(Latitude) = false ->
  GetSessionByChatID (fst (UpdateUserSession s n now)) n.(ChatID) = Ok (stamped n now).
Proof.
  intros Hlon Hlat. rewrite UpdateUserSession_eq. cbn [fst].
  unfold GetSessionByChatID, QueryRow. rewrite Query_session.
  cbn [DB with_DB replace_session user_session rows].
  rewrite filter_insert_row_only.
  - unfold session_row. rewrite (bind_float_number _ Hlon), (bind_float_number _ Hlat).
    reflexivity.
  - apply row_matches_one. reflexivity.
  - intros x Hx. apply filter_In in Hx as [_ Hne].
    destruct (row_matches [(0%nat, VInt n.(ChatID))] x) eqn:E; [|reflexivity].
    apply row_matches_one in E. unfold rowid in Hne. rewrite E in Hne.
    cbn in Hne. rewrite Z.eqb_refl in Hne. discriminate.
Qed.

Lemma update_sessions_app (s : Store) (l1 l2 : list (UserSession * Time)) :
  update_sessions s (l1 ++ l2) = update_sessions (update_sessions s l1) l2.
Proof. apply fold_left_app. Qed.

(** C9. Starting from a store with at most one session per chat, after any
    sequence of [UpdateUserSession] calls there is still at most one session
    per chat, and after the last call, for a session [n] at time [now] (with
    coordinates that are numbers), the session read back for n's chat has
    n's user, chat and language, n's coordinates as a REAL column gives them
    back (a negative zero reads as zero, every other number as itself) and
    the time [now]: nothing of the previous session remains. *)
Theorem UpdateUserSession_full_replace
    (s : Store) (updates : list (UserSession * Time)) (n : UserSession) (now : Time) :
  unique_sessions s ->
  PrimFloat.is_nan n.(Longitude) = false ->
  PrimFloat.is_nan n.(Latitude) = false ->
  unique_sessions (update_sessions s (updates ++ [(n, now)]))
  /\ GetSessionByChatID (update_sessions s (updates ++ [(n, now)])) n.(ChatID)
     = Ok (stamped n now)
  /\ (negative_zero n.(Longitude) = false -> (stamped n now).(Longitude) = n.(Longitude))
  /\ (negative_zero n.(Latitude) = false -> (stamped n now).(Latitude) = n.(Latitude))
  /\ (negative_zero n.(Longitude) = true -> (stamped n now).(Longitude) = 0%float)
  /\ (negative_zero n.(Latitude) = true -> (stamped n now).(Latitude) = 0%float).
Proof.
  intros Hu Hlon Hlat. split; [|split].
  - now apply update_sessions_unique.
  - rewrite update_sessions_app. cbn [update_sessions fold_left fst snd].
    now apply GetSessionByChatID_after_update.
  - cbn [stamped Longitude Latitude].
    repeat split; first [apply stored_float_keeps | apply stored_float_zero].
Qed.

Lemma UpdateUserSession_full_replace_witness :
  unique_sessions NewStore
  /\ PrimFloat.is_nan session_B.(Longitude) = false
  /\ PrimFloat.is_nan session_B.(Latitude) = false
  /\ unique_sessions (update_sessions NewStore [(session_A, 5); (session_B, example_now)])
  /\ GetSessionByChatID
       (update_sessions NewStore [(session_A, 5); (session_B, example_now)]) 42
     = Ok session_B_stored.
Proof.
  assert (H1 : unique_sessions NewStore) by constructor.
  split; [exact H1|]. split; [reflexivity|]. split; [reflexivity|].
  destruct (UpdateUserSession_full_replace NewStore [(session_A, 5)] session_B example_now
              H1 eq_refl eq_refl) as (Hu & Hg & _).
  split; [exact Hu | exact Hg].
Defined.

(** A negative zero does not survive the REAL column: a session sent from
    longitude -0.0 is read back at longitude 0.0. *)
Lemma UpdateUserSession_negative_zero :
  GetSessionByChatID
    (fst (UpdateUserSession NewStore
            (SetLocation session_A {| loc_Latitude := 1%float; loc_Longitude := (-0)%float |})
            example_now)) 42
  = Ok {| UserID := session_A.(UserID); ChatID := 42;
          LanguageCode := session_A.(LanguageCode);
          Longitude := 0%float; Latitude := 1%float; CreatedAt := example_now |}.
Proof. vm_compute. reflexivity. Qed.

(** ** C3: the staleness check *)

Lemma reading_dec (s : Store) (chatID : Z) : no_reading s chatID \/ has_reading s chatID.
Proof.
  unfold no_reading, has_reading.
  induction s.(DB).(data_point).(rows) as [|a l IH].
  - left. intros r [].
  - destruct (sql_eqb (field 1 a) (VInt chatID)) eqn:E.
    + right. exists a. split; [now left | now apply sql_eqb_VInt].
    + destruct IH as [IH | (r & Hr & Hc)].
      * left. intros r [<-|Hr]; [|now apply IH].
        intros Hc. apply sql_eqb_VInt in Hc. congruence.
      * right. exists r. split; [now right | assumption].
Qed.

Lemma reading_exclusive (s : Store) (chatID : Z) :
  no_reading s chatID -> has_reading s chatID -> False.
Proof. intros Hn (r & Hr & Hc). exact (Hn r Hr Hc). Qed.

Lemma reply_events {World : Type} (bot : Bot World) (p : Printer) (chatID : Z) (dp : DataPoint) :
  exists e, events (reply bot p chatID dp) = events bot ++ [e] /\ forall l, e <> Fetch l.
Proof.
  unfold reply. destruct (SprintfRef p _); eexists; (split; [reflexivity | discriminate]).
Qed.

Lemma fetches_head (l : Location) (evs : list event) : fetches (Fetch l :: evs).
Proof. exists l. now left. Qed.

Lemma not_fetches_one (e : event) : (forall l, e <> Fetch l) -> ~ fetches [e].
Proof. intros H (l & [->|[]]). exact (H l eq_refl). Qed.

(** With a hundred-year cache time and no reading stored, the handler does
    not call the provider. *)
Lemma no_refresh_for_absent_reading :
  ~ refresh_iff_stale_or_absent offline (fun _ => example_printer)
      (offline_bot patient_store) location_message example_now example_now.
Proof.
  intros (evs & Hev & Hiff).
  assert (Hf : fetches evs) by (apply Hiff; left; intros r []).
  destruct Hf as (l & Hin).
  cbn [events offline_bot app] in Hev. rewrite <- Hev in Hin.
  vm_compute in Hin. destruct Hin as [H|[]]. discriminate H.
Qed.

Lemma most_recent_reading (s : Store) (chatID : Z) (dp : DataPoint) :
  most_recent s chatID dp -> has_reading s chatID /\ GetLastPD s chatID = Ok dp.
Proof.
  intros (Hg & r & Hin & Hc & _). split; [|exact Hg]. exists r. auto.
Qed.

(** C3, as the code has it.  When the handler runs for a shared location, it
    calls the provider exactly in two cases: the chat has a reading and the
    most recent one (the one no other reading of the chat sorts after, which
    [GetLastPD] returns) is older than CacheTime, its age being the time from
    [time.Unix] of its seconds to the clock as a Duration; or the chat has no
    reading and CacheTime is shorter than the time since the Unix epoch.  So
    with a CacheTime of at least the time since the epoch a chat without a
    reading is not refreshed.  No error arises from the check itself. *)
Theorem handleLocationMessage_refresh_iff {World : Type}
    (GetAirPollution : World -> Location -> World * result ApiPollutionResponse)
    (newLangPrinter : string -> Printer)
    (bot : Bot World) (msg : Message) (l : Location) (now_update now_check : Time) :
  well_typed (store bot).(DB) = true ->
  msg.(msg_Location) = Some l ->
  refresh_iff_stale GetAirPollution newLangPrinter bot msg now_update now_check.
Proof.
  intros Hwt Hloc. apply well_typed_tables in Hwt as (_ & Hd & _).
  unfold refresh_iff_stale, handleLocationMessage.
  rewrite Hloc, UpdateUserSession_eq.
  set (chatID := msg_Chat_ID msg).
  set (s1 := with_DB (store bot) _).
  rewrite (GetLastPD_same_readings (store bot) s1 chatID eq_refl eq_refl).
  destruct (GetLastPD_typed (store bot) chatID Hd) as [dp Hdp]. rewrite Hdp.
  change (CacheTime s1) with (CacheTime (store bot)).
  destruct (time_Since now_check (time_Unix (Dt dp)) >? CacheTime (store bot)) eqn:E.
  - (* stale or absent: the provider is called *)
    apply Z.gtb_lt in E.
    assert (Hrhs : (no_reading (store bot) chatID
                    /\ CacheTime (store bot) < time_Since now_check (time_Unix 0))
                   \/ exists dp0, most_recent (store bot) chatID dp0
                        /\ CacheTime (store bot)
                           < time_Since now_check (time_Unix (Dt dp0))).
    { destruct (reading_dec (store bot) chatID) as [Hn|Hh].
      - left. split; [exact Hn|].
        rewrite (GetLastPD_no_reading _ _ Hn) in Hdp. injection Hdp as <-. exact E.
      - right. destruct (GetLastPD_most_recent (store bot) chatID Hd Hh) as [dp0 Hm].
        exists dp0. split; [exact Hm|].
        destruct Hm as [Hg _]. rewrite Hdp in Hg. injection Hg as <-. exact E. }
    destruct (GetAirPollution _ _) as [w [resp|err]].
    + destruct (AddDataPoint s1 chatID (resp_DP resp)) as [s2 [err|]].
      * eexists. split; [cbn; rewrite <- app_assoc; reflexivity|].
        split; [auto | intros _; apply fetches_head].
      * destruct (GetLastPD s2 chatID) as [dp'|err].
        -- match goal with
           | |- context [reply ?b ?p ?c ?d] =>
               destruct (reply_events b p c d) as (e & He & _)
           end.
           eexists. split; [rewrite He; cbn; rewrite <- app_assoc; reflexivity|].
           split; [auto | intros _; apply fetches_head].
        -- eexists. split; [cbn; rewrite <- app_assoc; reflexivity|].
           split; [auto | intros _; apply fetches_head].
    + eexists. split; [cbn; rewrite <- !app_assoc; reflexivity|].
      split; [auto | intros _; apply fetches_head].
  - (* fresh: the stored reading is used *)
    match goal with
    | |- context [reply ?b ?p ?c ?d] =>
        destruct (reply_events b p c d) as (e & He & Hne)
    end.
    exists [e]. split; [exact He|]. split.
    + intros Hf. exfalso. now apply (not_fetches_one e).
    + rewrite Z.gtb_ltb in E. apply Z.ltb_ge in E.
      intros [[Hn Hlt] | (dp0 & Hm & Hlt)]; exfalso.
      * rewrite (GetLastPD_no_reading _ _ Hn) in Hdp. injection Hdp as <-.
        cbn [Dt DataPoint_zero] in E. lia.
      * destruct Hm as [Hg _]. rewrite Hdp in Hg. injection Hg as <-. lia.
Qed.

Lemma handleLocationMessage_refresh_iff_witness :
  well_typed (store (offline_bot store_with_old_readings)).(DB) = true
  /\ location_message.(msg_Location)
     = Some {| loc_Latitude := 1%float; loc_Longitude := 2%float |}
  /\ refresh_iff_stale offline (fun _ => example_printer)
       (offline_bot store_with_old_readings) location_message
       example_now (example_now + 5 * Minute).
Proof.
  assert (H1 : well_typed (store (offline_bot store_with_old_readings)).(DB) = true)
    by (vm_compute; reflexivity).
  split; [exact H1|]. split; [reflexivity|].
  exact (handleLocationMessage_refresh_iff offline (fun _ => example_printer)
           (offline_bot store_with_old_readings) location_message
           {| loc_Latitude := 1%float; loc_Longitude := 2%float |}
           example_now (example_now + 5 * Minute) H1 eq_refl).
Defined.

(** The rule at the end of int64: a reading whose seconds are the largest
    int64 is, after [time.Unix], older than anything, and the handler calls
    the provider. *)
Lemma handleLocationMessage_at_end_of_time :
  GetLastPD store_end_of_time 42 = Ok (reading (2 ^ 63 - 1) 3)
  /\ fetched (events (handleLocationMessage offline (fun _ => example_printer)
                        (offline_bot store_end_of_time) location_message
                        example_now example_now))
     = [{| loc_Latitude := 1%float; loc_Longitude := 2%float |}].
Proof. vm_compute. split; reflexivity. Qed.

(** ** C4: the reconciliation loop *)

Lemma UpdateSubscriptionAQI_eq (s : Store) (subID aqi : Z) :
  UpdateSubscriptionAQI s subID aqi
  = (with_DB s
       {| user_session := s.(DB).(user_session);
          data_point := s.(DB).(data_point);
          subscription :=
            {| rows := map (fun r => if row_matches [(0%nat, VInt subID)] r
                                     then set_nth 5 (VInt aqi) r else r)
                         s.(DB).(subscription).(rows);
               seq := s.(DB).(subscription).(seq) |};
          zone := s.(DB).(zone) |},
     None).
Proof.
  unfold UpdateSubscriptionAQI, Exec, prepare_bound. run_prepare. reflexivity.
Qed.

Lemma AddDataPoint_other_tables (dps : list DataPoint) (s s' : Store) (chatID : Z)
    (e : option error) :
  AddDataPoint s chatID dps = (s', e) ->
  s'.(DB).(subscription) = s.(DB).(subscription)
  /\ s'.(DB).(user_session) = s.(DB).(user_session)
  /\ s'.(CacheTime) = s.(CacheTime).
Proof.
  revert s. induction dps as [|dp dps IH]; intros s H.
  - injection H as <- _. auto.
  - destruct (json_Marshal_cases dp) as [Hm|Hm].
    + rewrite (AddDataPoint_cons _ _ _ _ Hm) in H. apply IH in H. exact H.
    + rewrite (AddDataPoint_refused _ _ _ _ Hm) in H. injection H as <- _. auto.
Qed.

Lemma AddDataPoint_zone (dps : list DataPoint) (s : Store) (chatID : Z) :
  (fst (AddDataPoint s chatID dps)).(DB).(zone) = s.(DB).(zone).
Proof.
  revert s. induction dps as [|dp dps IH]; intros s; [reflexivity|].
  destruct (json_Marshal_cases dp) as [Hm|Hm].
  - rewrite (AddDataPoint_cons _ _ _ _ Hm), IH. reflexivity.
  - now rewrite (AddDataPoint_refused _ _ _ _ Hm).
Qed.





Lemma Cron_body_count {World : Type}
    (GetAirPollution : World -> Location -> World * result ApiPollutionResponse)
    (newLangPrinter : string -> Printer) (bot : Bot World) (i : Z) (s : AQISubscription) :
  i <= snd (Cron_body GetAirPollution newLangPrinter (bot, i) s) <= i + 1.
Proof.
  unfold Cron_body.
  destruct (GetAirPollution _ _) as [w [resp|err]]; cbn [snd]; [|lia].
  destruct (AddDataPoint _ _ _) as [s1 [err|]]; cbn [snd]; [lia|].
  destruct (GetLastPD _ _) as [dp|err]; cbn [snd]; [|lia].
  destruct (negb _); cbn [snd]; [|lia].
  destruct (UpdateSubscriptionAQI _ _ _) as [s2 [err|]]; cbn [snd]; lia.
Qed.

Lemma Cron_loop_count {World : Type}
    (GetAirPollution : World -> Location -> World * result ApiPollutionResponse)
    (newLangPrinter : string -> Printer) (subs : list AQISubscription)
    (bot : Bot World) (i : Z) :
  i <= snd (Cron_loop GetAirPollution newLangPrinter subs (bot, i))
    <= i + Z.of_nat (List.length subs).
Proof.
  revert bot i. induction subs as [|s subs IH]; intros bot i.
  - cbn. lia.
  - unfold Cron_loop. cbn [fold_left].
    pose proof (Cron_body_count GetAirPollution newLangPrinter bot i s) as Hb.
    destruct (Cron_body GetAirPollution newLangPrinter (bot, i) s) as [bot' i'].
    cbn [snd] in Hb. specialize (IH bot' i'). unfold Cron_loop in IH.
    rewrite length_cons. lia.
Qed.

Lemma Cron_body_fetch_failure {World : Type}
    (GetAirPollution : World -> Location -> World * result ApiPollutionResponse)
    (newLangPrinter : string -> Printer) (bot : Bot World) (i : Z) (s : AQISubscription)
    (w : World) (err : error) :
  GetAirPollution (wAPI bot)
    {| loc_Latitude := s.(sub_UserSession).(Latitude);
       loc_Longitude := s.(sub_UserSession).(Longitude) |} = (w, Err err) ->
  Cron_body GetAirPollution newLangPrinter (bot, i) s = (skipped bot w s err, i).
Proof. intros H. unfold Cron_body. rewrite H. reflexivity. Qed.

(** C4. A run of [Cron] over the snapshot [l1 ++ s :: l2] in which the fetch
    for [s] fails: the run goes on, its result is that of the loop over [l2]
    started from the bot and count reached after [l1], with only the failed
    call and its log line added and the store untouched; the failed
    subscription adds nothing to the count, which is at most the number of
    the other subscriptions. *)
Theorem Cron_fetch_failure_isolated {World : Type}
    (GetAirPollution : World -> Location -> World * result ApiPollutionResponse)
    (newLangPrinter : string -> Printer)
    (bot : Bot World) (l1 l2 : list AQISubscription) (s : AQISubscription)
    (bot1 : Bot World) (i1 : Z) (w : World) (err : error) :
  ListEnabledSubscriptions (store bot) = Ok (l1 ++ s :: l2) ->
  Cron_loop GetAirPollution newLangPrinter l1
    (emit bot (LogPrintf "%d subsription(s) to process"
                 (Z.of_nat (List.length (l1 ++ s :: l2)))), 0) = (bot1, i1) ->
  GetAirPollution (wAPI bot1)
    {| loc_Latitude := s.(sub_UserSession).(Latitude);
       loc_Longitude := s.(sub_UserSession).(Longitude) |} = (w, Err err) ->
  Cron GetAirPollution newLangPrinter bot
  = emit (fst (Cron_loop GetAirPollution newLangPrinter l2 (skipped bot1 w s err, i1)))
      (LogPrintf "Sent %d messages"
         (snd (Cron_loop GetAirPollution newLangPrinter l2 (skipped bot1 w s err, i1))))
  /\ store (skipped bot1 w s err) = store bot1
  /\ i1 <= snd (Cron_loop GetAirPollution newLangPrinter l2 (skipped bot1 w s err, i1))
     <= Z.of_nat (List.length l1 + List.length l2).
Proof.
  intros Hl H1 Hf. split; [|split].
  - unfold Cron. rewrite Hl. unfold Cron_loop in *.
    rewrite fold_left_app, H1. cbn [fold_left].
    rewrite (Cron_body_fetch_failure _ _ _ _ _ _ _ Hf).
    destruct (fold_left _ l2 _). reflexivity.
  - reflexivity.
  - pose proof (Cron_loop_count GetAirPollution newLangPrinter l1
                  (emit bot (LogPrintf "%d subsription(s) to process"
                               (Z.of_nat (List.length (l1 ++ s :: l2))))) 0) as Hc1.
    rewrite H1 in Hc1. cbn [snd] in Hc1.
    pose proof (Cron_loop_count GetAirPollution newLangPrinter l2
                  (skipped bot1 w s err) i1) as Hc2.
    lia.
Qed.

Lemma Cron_fetch_failure_isolated_witness :
  ListEnabledSubscriptions (store {| store := store_two_chats; wAPI := O; events := [] |})
  = Ok ([] ++ subscription_A :: [subscription_C])
  /\ flaky O {| loc_Latitude := subscription_A.(sub_UserSession).(Latitude);
               loc_Longitude := subscription_A.(sub_UserSession).(Longitude) |}
     = (1%nat, Err (ErrProvider "timeout"))
  /\ snd (Cron_loop flaky (fun _ => example_printer) [subscription_C]
            (skipped
               (emit {| store := store_two_chats; wAPI := O; events := [] |}
                  (LogPrintf "%d subsription(s) to process" 2))
               1%nat subscription_A (ErrProvider "timeout"), 0)) = 1
  /\ Cron flaky (fun _ => example_printer)
       {| store := store_two_chats; wAPI := O; events := [] |}
     = emit (fst (Cron_loop flaky (fun _ => example_printer) [subscription_C]
                    (skipped
                       (emit {| store := store_two_chats; wAPI := O; events := [] |}
                          (LogPrintf "%d subsription(s) to process" 2))
                       1%nat subscription_A (ErrProvider "timeout"), 0)))
         (LogPrintf "Sent %d messages" 1).
Proof.
  assert (H1 : ListEnabledSubscriptions
                 (store {| store := store_two_chats; wAPI := O; events := [] |})
               = Ok ([] ++ subscription_A :: [subscription_C]))
    by (vm_compute; reflexivity).
  assert (H3 : snd (Cron_loop flaky (fun _ => example_printer) [subscription_C]
                      (skipped
                         (emit {| store := store_two_chats; wAPI := O; events := [] |}
                            (LogPrintf "%d subsription(s) to process" 2))
                         1%nat subscription_A (ErrProvider "timeout"), 0)) = 1)
    by (vm_compute; reflexivity).
  split; [exact H1|]. split; [reflexivity|]. split; [exact H3|].
  rewrite <- H3.
  exact (proj1 (Cron_fetch_failure_isolated flaky (fun _ => example_printer)
                  {| store := store_two_chats; wAPI := O; events := [] |}
                  [] [subscription_C] subscription_A
                  (emit {| store := store_two_chats; wAPI := O; events := [] |}
                     (LogPrintf "%d subsription(s) to process" 2))
                  0 1%nat (ErrProvider "timeout") H1 eq_refl eq_refl)).
Defined.

(** ** Reachable stores are well typed *)

Lemma forallb_insert_row (P : row -> bool) (pk : nat) (r : row) (l : list row) :
  P r = true -> forallb P l = true -> forallb P (insert_row pk r l) = true.
Proof.
  intros Hr. induction l as [|a l IH]; simpl; intros Hl.
  - now rewrite Hr.
  - apply andb_true_iff in Hl as [Ha Hl].
    destruct (rowid pk r <? rowid pk a); simpl.
    + now rewrite Hr, Ha, Hl.
    + now rewrite Ha, IH.
Qed.

Lemma forallb_filter (P f : row -> bool) (l : list row) :
  forallb P l = true -> forallb P (filter f l) = true.
Proof.
  rewrite !forallb_forall. intros H r Hr. apply filter_In in Hr as [Hr _]. auto.
Qed.

Lemma forallb_map (P : row -> bool) (g : row -> row) (l : list row) :
  (forall r, P r = true -> P (g r) = true) ->
  forallb P l = true -> forallb P (map g l) = true.
Proof.
  rewrite !forallb_forall. intros Hg H r Hr.
  apply in_map_iff in Hr as (x & <- & Hx). auto.
Qed.

Lemma row_typed_set_nth (ks : list storage) (r : row) (i : nat) (k : storage) (v : value) :
  row_typed ks r = true -> nth_error ks i = Some k -> stored_as k v = true ->
  row_typed ks (set_nth i v r) = true.
Proof.
  revert r i. induction ks as [|k0 ks IH]; intros r i Hr Hk Hv.
  - destruct i; discriminate.
  - destruct r as [|x r]; [discriminate|].
    cbn [row_typed] in Hr. apply andb_true_iff in Hr as [Hx Hr].
    destruct i as [|i]; cbn [set_nth row_typed].
    + injection Hk as ->. now rewrite Hv, Hr.
    + rewrite Hx. cbn [andb]. now apply IH.
Qed.

Lemma well_typed_intro (d : db) :
  forallb (row_typed user_session_types) d.(user_session).(rows) = true ->
  forallb (row_typed data_point_types) d.(data_point).(rows) = true ->
  forallb (row_typed subscription_types) d.(subscription).(rows) = true ->
  well_typed d = true.
Proof. unfold well_typed. now intros -> -> ->. Qed.

Lemma UpdateUserSession_well_typed (s : Store) (n : UserSession) (now : Time) :
  PrimFloat.is_nan n.(Longitude) = false ->
  PrimFloat.is_nan n.(Latitude) = false ->
  well_typed s.(DB) = true ->
  well_typed (fst (UpdateUserSession s n now)).(DB) = true.
Proof.
  intros Hlon Hlat H. apply well_typed_tables in H as (Hu & Hd & Hs).
  rewrite UpdateUserSession_eq. apply well_typed_intro; [|exact Hd|exact Hs].
  cbn [fst DB with_DB replace_session user_session rows].
  apply forallb_insert_row; [|now apply forallb_filter].
  unfold session_row, user_session_types. cbn [row_typed].
  rewrite !stored_as_bind_float by assumption. reflexivity.
Qed.

Lemma AddDataPoint_well_typed (dps : list DataPoint) (s : Store) (chatID : Z) :
  well_typed s.(DB) = true ->
  well_typed (fst (AddDataPoint s chatID dps)).(DB) = true.
Proof.
  revert s. induction dps as [|dp dps IH]; intros s H; [exact H|].
  destruct (json_Marshal_cases dp) as [Hm|Hm].
  - rewrite (AddDataPoint_cons _ _ _ _ Hm). apply IH.
    apply well_typed_tables in H as (Hu & Hd & Hs).
    apply well_typed_intro; [exact Hu| |exact Hs].
    cbn [DB with_DB add_data_point data_point rows].
    rewrite forallb_app, Hd. reflexivity.
  - now rewrite (AddDataPoint_refused _ _ _ _ Hm).
Qed.

Lemma GetSessionByChatID_numbers (s : Store) (chatID : Z) (us : UserSession) :
  forallb (row_typed user_session_types) s.(DB).(user_session).(rows) = true ->
  GetSessionByChatID s chatID = Ok us ->
  PrimFloat.is_nan us.(Longitude) = false /\ PrimFloat.is_nan us.(Latitude) = false
  /\ negative_zero us.(Longitude) = false /\ negative_zero us.(Latitude) = false.
Proof.
  intros Ht H. unfold GetSessionByChatID, QueryRow in H. rewrite Query_session in H.
  pose proof (forallb_filter _ (row_matches [(0%nat, VInt chatID)]) _ Ht) as Hf.
  destruct (filter _ _) as [|r l]; [discriminate|].
  cbn [forallb] in Hf. apply andb_true_iff in Hf as [Hr _].
  unfold user_session_types in Hr. invert_typed Hr.
  cbn in H. injection H as <-. cbn.
  repeat match goal with
         | Hv : (_ && _)%bool = true |- _ => apply andb_true_iff in Hv as [? ?]
         end.
  repeat split; apply negb_true_iff; assumption.
Qed.

Lemma AddAQISubscription_well_typed (s : Store) (chatID : Z) (now : Time) :
  well_typed s.(DB) = true ->
  well_typed (fst (AddAQISubscription s chatID now)).(DB) = true.
Proof.
  intros H. pose proof H as H0. apply well_typed_tables in H as (Hu & Hd & Hs).
  unfold AddAQISubscription.
  destruct (GetSessionByChatID s chatID) as [us|e] eqn:Hus; [|exact H0].
  rewrite (ListAQISubscriptions_eq _ _ Hs).
  destruct (existsb _ _); [exact H0|].
  destruct (GetLastPD_typed s chatID Hd) as [dp ->].
  rewrite Exec_insert_subscription. cbn [exec_result fst DB with_DB].
  destruct (GetSessionByChatID_numbers s chatID us Hu Hus) as (Hlon & Hlat & _).
  apply well_typed_intro; [exact Hu|exact Hd|].
  cbn [add_subscription subscription rows].
  rewrite forallb_app, Hs. unfold subscription_row, subscription_types.
  cbn [forallb row_typed].
  rewrite !stored_as_bind_float by assumption. reflexivity.
Qed.

Lemma DeleteAQISubscriptions_well_typed (s : Store) (chatID : Z) :
  well_typed s.(DB) = true ->
  well_typed (fst (DeleteAQISubscriptions s chatID)).(DB) = true.
Proof.
  intros H. apply well_typed_tables in H as (Hu & Hd & Hs).
  rewrite DeleteAQISubscriptions_eq. apply well_typed_intro; [exact Hu|exact Hd|].
  cbn [fst DB with_DB subscription rows].
  apply forallb_map; [|exact Hs]. intros r Hr.
  destruct (row_matches _ r); [|exact Hr].
  now apply (row_typed_set_nth _ _ 6 SInteger).
Qed.

Lemma UpdateSubscriptionAQI_well_typed (s : Store) (subID aqi : Z) :
  well_typed s.(DB) = true ->
  well_typed (fst (UpdateSubscriptionAQI s subID aqi)).(DB) = true.
Proof.
  intros H. apply well_typed_tables in H as (Hu & Hd & Hs).
  rewrite UpdateSubscriptionAQI_eq. apply well_typed_intro; [exact Hu|exact Hd|].
  cbn [fst DB with_DB subscription rows].
  apply forallb_map; [|exact Hs]. intros r Hr.
  destruct (row_matches _ r); [|exact Hr].
  now apply (row_typed_set_nth _ _ 5 SInteger).
Qed.

Lemma step_well_typed (s s' : Store) :
  step s s' -> well_typed s.(DB) = true -> well_typed s'.(DB) = true.
Proof.
  intros Hstep H. destruct Hstep.
  - now apply UpdateUserSession_well_typed.
  - now apply AddDataPoint_well_typed.
  - now apply AddAQISubscription_well_typed.
  - now apply DeleteAQISubscriptions_well_typed.
  - now apply UpdateSubscriptionAQI_well_typed.
  - now rewrite ClenupAQISubscriptions_fails.
  - now rewrite ClenupDataPoint_fails.
Qed.

(** Whatever the program has done since [NewBot], every row of its database
    has the shape the statements of the store give it. *)
Lemma reachable_well_typed (s : Store) : reachable s -> well_typed s.(DB) = true.
Proof.
  induction 1 as [|s s' _ IH Hstep]; [reflexivity|].
  exact (step_well_typed s s' Hstep IH).
Qed.

(** The example stores are reachable. *)
Lemma store_subscribed_reachable : reachable store_subscribed.
Proof.
  apply (reachable_step store_with_reading);
    [|exact (step_AddAQISubscription store_with_reading 42 example_now)].
  apply (reachable_step store_session_only);
    [|exact (step_AddDataPoint store_session_only 42 [reading example_day 3])].
  apply (reachable_step NewStore);
    [|exact (step_UpdateUserSession NewStore session_A example_now eq_refl eq_refl)].
  constructor.
Qed.

(** ** Further facts about the loop and the janitor *)

Lemma sends_app (a b : list event) : sends (a ++ b) = sends a + sends b.
Proof. unfold sends. rewrite filter_app, length_app. lia. Qed.

Lemma sends_snoc (evs : list event) (e : event) :
  sends (evs ++ [e]) = sends evs + match e with Send _ => 1 | _ => 0 end.
Proof. rewrite sends_app. destruct e; reflexivity. Qed.

Ltac count_sends :=
  unfold emit, with_store, with_wAPI; cbn [events fst snd];
  rewrite !sends_snoc; lia.

(** The count of the loop body is the number of messages it sent. *)
Lemma Cron_body_sends {World : Type}
    (GetAirPollution : World -> Location -> World * result ApiPollutionResponse)
    (newLangPrinter : string -> Printer) (bot : Bot World) (i : Z) (s : AQISubscription) :
  sends (events (fst (Cron_body GetAirPollution newLangPrinter (bot, i) s)))
  - sends (events bot)
  = snd (Cron_body GetAirPollution newLangPrinter (bot, i) s) - i.
Proof.
  unfold Cron_body.
  destruct (GetAirPollution _ _) as [w [resp|err]]; [|count_sends].
  destruct (AddDataPoint _ _ _) as [s1 [err|]]; [count_sends|].
  destruct (GetLastPD _ _) as [dp|err]; [|count_sends].
  destruct (negb _); [|count_sends].
  destruct (UpdateSubscriptionAQI _ _ _) as [s2 [err|]]; count_sends.
Qed.

Lemma Cron_loop_sends {World : Type}
    (GetAirPollution : World -> Location -> World * result ApiPollutionResponse)
    (newLangPrinter : string -> Printer) (subs : list AQISubscription)
    (bot : Bot World) (i : Z) :
  sends (events (fst (Cron_loop GetAirPollution newLangPrinter subs (bot, i))))
  - sends (events bot)
  = snd (Cron_loop GetAirPollution newLangPrinter subs (bot, i)) - i.
Proof.
  revert bot i. induction subs as [|s subs IH]; intros bot i.
  - cbn. lia.
  - unfold Cron_loop. cbn [fold_left].
    pose proof (Cron_body_sends GetAirPollution newLangPrinter bot i s) as Hb.
    destruct (Cron_body GetAirPollution newLangPrinter (bot, i) s) as [bot' i'].
    cbn [fst snd] in Hb. specialize (IH bot' i'). unfold Cron_loop in IH. lia.
Qed.

(** With its FROM, the janitor's statement would delete the disabled rows
    and nothing else. *)
Lemma Exec_delete_from_disabled (d : db) :
  Exec d "DELETE FROM subscription WHERE enabled=0" []
  = Ok {| user_session := d.(user_session);
          data_point := d.(data_point);
          subscription :=
            {| rows := filter (fun r => negb (row_matches [(6%nat, VInt 0)] r))
                         d.(subscription).(rows);
               seq := d.(subscription).(seq) |};
          zone := d.(zone) |}.
Proof.
  unfold Exec, prepare_bound. run_prepare. reflexivity.
Qed.

(** The spec's other example of the duplicate rule: with A = (1, 2)
    subscribed, a session at (3, 5) subscribes without objection. *)
Lemma AddAQISubscription_far_away_accepted :
  snd (AddAQISubscription
         (fst (UpdateUserSession store_subscribed
                 (SetLocation session_A
                    {| loc_Latitude := 3%float; loc_Longitude := 5%float |})
                 example_now))
         42 example_now) = None.
Proof. vm_compute. reflexivity. Qed.

(** *** One session per chat, in every reachable store *)

Lemma AddAQISubscription_sessions (s : Store) (chatID : Z) (now : Time) :
  (fst (AddAQISubscription s chatID now)).(DB).(user_session) = s.(DB).(user_session).
Proof.
  unfold AddAQISubscription.
  destruct (GetSessionByChatID s chatID) as [us|e]; [|reflexivity].
  destruct (ListAQISubscriptions s chatID) as [subs|e]; [|reflexivity].
  destruct (existsb _ subs); [reflexivity|].
  destruct (GetLastPD s chatID) as [dp|e]; [|reflexivity].
  rewrite Exec_insert_subscription. reflexivity.
Qed.

Lemma step_sessions (s s' : Store) :
  step s s' -> unique_sessions s -> unique_sessions s'.
Proof.
  unfold unique_sessions. intros Hstep H. destruct Hstep.
  - rewrite UpdateUserSession_eq. now apply replace_session_unique.
  - destruct (AddDataPoint s chatID dps) as [s' e] eqn:Ha. cbn [fst].
    apply AddDataPoint_other_tables in Ha as (_ & Hu & _). now rewrite Hu.
  - now rewrite AddAQISubscription_sessions.
  - now rewrite DeleteAQISubscriptions_eq.
  - now rewrite UpdateSubscriptionAQI_eq.
  - now rewrite ClenupAQISubscriptions_fails.
  - now rewrite ClenupDataPoint_fails.
Qed.

Lemma reachable_unique_sessions (s : Store) : reachable s -> unique_sessions s.
Proof.
  induction 1 as [|s s' _ IH Hstep]; [constructor|].
  exact (step_sessions s s' Hstep IH).
Qed.

(** ** C2: change detection *)




(** Two subscriptions of one chat share the chat's readings: the index 5
    fetched for the second place is stored behind the slightly later reading
    of the first, and the run sends nothing. *)
Lemma Cron_two_places_one_chat :
  fetched (events (Cron by_place (fun _ => example_printer) (offline_bot store_two_places)))
  = [{| loc_Latitude := 1%float; loc_Longitude := 2%float |};
     {| loc_Latitude := 50%float; loc_Longitude := 60%float |}]
  /\ sends (events (Cron by_place (fun _ => example_printer)
                      (offline_bot store_two_places))) = 0.
Proof. vm_compute. split; reflexivity. Qed.




(** * Further properties of the code *)

(** ** store.go: sessions *)

Lemma no_session_filter (s : Store) (chatID : Z) :
  no_session s chatID ->
  filter (row_matches [(0%nat, VInt chatID)]) s.(DB).(user_session).(rows) = [].
Proof.
  intros H. apply filter_nil_iff. intros r Hr.
  destruct (row_matches [(0%nat, VInt chatID)] r) eqn:E; [|reflexivity].
  apply row_matches_one in E. now apply H in Hr.
Qed.

(** X1. For a chat that never shared a location [GetSessionByChatID] returns
    [sql.ErrNoRows], and [AddAQISubscription] returns that same error and
    leaves the store as it was. *)
Theorem AddAQISubscription_without_session (s : Store) (chatID : Z) (now : Time) :
  no_session s chatID ->
  GetSessionByChatID s chatID = Err ErrNoRows
  /\ AddAQISubscription s chatID now = (s, Some ErrNoRows).
Proof.
  intros H.
  assert (Hg : GetSessionByChatID s chatID = Err ErrNoRows).
  { unfold GetSessionByChatID, QueryRow.
    rewrite Query_session, (no_session_filter _ _ H). reflexivity. }
  split; [exact Hg|]. unfold AddAQISubscription. now rewrite Hg.
Qed.

Lemma AddAQISubscription_without_session_witness :
  no_session store_with_old_readings 43
  /\ GetSessionByChatID store_with_old_readings 43 = Err ErrNoRows
  /\ AddAQISubscription store_with_old_readings 43 example_now
     = (store_with_old_readings, Some ErrNoRows).
Proof.
  assert (H : no_session store_with_old_readings 43).
  { intros r Hr. vm_compute in Hr. destruct Hr as [<-|[]]. discriminate. }
  split; [exact H|].
  exact (AddAQISubscription_without_session store_with_old_readings 43 example_now H).
Defined.

Lemma filter_insert_row_skip (f : row -> bool) (pk : nat) (r : row) (l : list row) :
  f r = false -> filter f (insert_row pk r l) = filter f l.
Proof.
  intros Hr. induction l as [|a l IH]; simpl.
  - now rewrite Hr.
  - destruct (rowid pk r <? rowid pk a); simpl.
    + now rewrite Hr.
    + now rewrite IH.
Qed.

Lemma filter_filter_absorb {A : Type} (f g : A -> bool) (l : list A) :
  (forall x, f x = true -> g x = true) -> filter f (filter g l) = filter f l.
Proof.
  intros H. induction l as [|a l IH]; simpl; [reflexivity|].
  destruct (g a) eqn:Hg; simpl.
  - now rewrite IH.
  - destruct (f a) eqn:Hf; [|exact IH].
    apply H in Hf. congruence.
Qed.

Lemma rowid_session_row (n : UserSession) (now : Time) :
  rowid 0 (session_row n now) = n.(ChatID).
Proof. reflexivity. Qed.

(** X2. A session update for one chat does not touch the session any other
    chat reads back. *)
Theorem UpdateUserSession_other_chats
    (s : Store) (n : UserSession) (now : Time) (chatID : Z) :
  chatID <> n.(ChatID) ->
  GetSessionByChatID (fst (UpdateUserSession s n now)) chatID
  = GetSessionByChatID s chatID.
Proof.
  intros Hne. rewrite UpdateUserSession_eq. cbn [fst].
  unfold GetSessionByChatID, QueryRow. rewrite !Query_session.
  cbn [DB with_DB replace_session user_session rows].
  rewrite filter_insert_row_skip, filter_filter_absorb; [reflexivity| |].
  - intros x Hx. apply row_matches_one in Hx.
    rewrite rowid_session_row. unfold rowid. rewrite Hx.
    apply negb_true_iff, Z.eqb_neq. exact Hne.
  - destruct (row_matches _ _) eqn:E; [|reflexivity].
    apply row_matches_one in E. cbn in E. congruence.
Qed.

Lemma UpdateUserSession_other_chats_witness :
  42 <> session_C.(ChatID)
  /\ GetSessionByChatID (fst (UpdateUserSession store_session_only session_C 7)) 42
     = Ok session_A_stored.
Proof.
  assert (H : 42 <> session_C.(ChatID)) by discriminate.
  split; [exact H|].
  rewrite (UpdateUserSession_other_chats store_session_only session_C 7 42 H).
  vm_compute. reflexivity.
Defined.

(** X3. A second session update for the same chat leaves the database as if
    the first had never been made: whatever the first wrote is gone. *)
Theorem UpdateUserSession_overwrites
    (s : Store) (n1 n2 : UserSession) (t1 t2 : Time) :
  n1.(ChatID) = n2.(ChatID) ->
  fst (UpdateUserSession (fst (UpdateUserSession s n1 t1)) n2 t2)
  = fst (UpdateUserSession s n2 t2).
Proof.
  intros Hc. rewrite !UpdateUserSession_eq. cbn [fst].
  unfold with_DB. cbn [DB CacheTime]. f_equal.
  unfold replace_session. cbn [user_session data_point subscription rows seq].
  do 2 f_equal. rewrite !rowid_session_row, Hc.
  rewrite filter_insert_row_skip.
  - f_equal. apply filter_filter_absorb. auto.
  - rewrite rowid_session_row, Hc, Z.eqb_refl. reflexivity.
Qed.

Lemma UpdateUserSession_overwrites_witness :
  session_A.(ChatID) = session_B.(ChatID)
  /\ fst (UpdateUserSession (fst (UpdateUserSession NewStore session_A 5)) session_B 9)
     = fst (UpdateUserSession NewStore session_B 9).
Proof.
  split; [reflexivity|].
  exact (UpdateUserSession_overwrites NewStore session_A session_B 5 9 eq_refl).
Defined.

(** ** store.go: readings *)

Lemma AddDataPoint_appends (dps : list DataPoint) (s : Store) (chatID : Z) :
  exists added,
    (fst (AddDataPoint s chatID dps)).(DB).(data_point).(rows)
    = s.(DB).(data_point).(rows) ++ added
    /\ Forall (fun r => field 1 r = VInt chatID) added.
Proof.
  revert s. induction dps as [|dp dps IH]; intros s.
  - exists []. split; [now rewrite app_nil_r | constructor].
  - destruct (json_Marshal_cases dp) as [Hm|Hm].
    + rewrite (AddDataPoint_cons _ _ _ _ Hm).
      destruct (IH (with_DB s
                      (add_data_point s.(DB)
                         [VInt (next_id s.(DB).(data_point)); VInt chatID;
                          VBlob (JSON dp); VTime (time_Unix dp.(Dt))])))
        as (added & Hrows & Hall).
      eexists. split.
      * rewrite Hrows. cbn [DB with_DB add_data_point data_point rows].
        rewrite <- app_assoc. reflexivity.
      * constructor; [reflexivity | exact Hall].
    + rewrite (AddDataPoint_refused _ _ _ _ Hm).
      exists []. split; [now rewrite app_nil_r | constructor].
Qed.

(** X4. When every reading of the list can be marshalled, [AddDataPoint]
    returns no error and appends one row per reading, in the order of the
    list, each with the chat's id, the reading's JSON and the reading's own
    timestamp; the rows that were there stay in front. *)
Theorem AddDataPoint_stores_all (dps : list DataPoint) (s : Store) (chatID : Z) :
  forallb marshalable dps = true ->
  snd (AddDataPoint s chatID dps) = None
  /\ exists added,
       (fst (AddDataPoint s chatID dps)).(DB).(data_point).(rows)
       = s.(DB).(data_point).(rows) ++ added
       /\ map row_payload added = map (reading_payload chatID) dps.
Proof.
  revert s. induction dps as [|dp dps IH]; intros s H.
  - split; [reflexivity|]. exists []. split; [now rewrite app_nil_r | reflexivity].
  - cbn [forallb] in H. apply andb_true_iff in H as [Hdp Hdps].
    rewrite (AddDataPoint_cons _ _ _ _ (marshalable_Marshal _ Hdp)).
    destruct (IH (with_DB s
                    (add_data_point s.(DB)
                       [VInt (next_id s.(DB).(data_point)); VInt chatID;
                        VBlob (JSON dp); VTime (time_Unix dp.(Dt))])) Hdps)
      as (Hnone & added & Hrows & Hpay).
    split; [exact Hnone|].
    eexists. split.
    + rewrite Hrows. cbn [DB with_DB add_data_point data_point rows].
      rewrite <- app_assoc. reflexivity.
    + cbn [app map]. now rewrite Hpay.
Qed.

Lemma AddDataPoint_stores_all_witness :
  forallb marshalable [reading 10 2; reading 20 3] = true
  /\ snd (AddDataPoint store_with_reading 42 [reading 10 2; reading 20 3]) = None
  /\ exists added,
       (fst (AddDataPoint store_with_reading 42 [reading 10 2; reading 20 3]))
         .(DB).(data_point).(rows)
       = store_with_reading.(DB).(data_point).(rows) ++ added
       /\ map row_payload added = map (reading_payload 42) [reading 10 2; reading 20 3].
Proof.
  split; [reflexivity|].
  exact (AddDataPoint_stores_all [reading 10 2; reading 20 3] store_with_reading 42
           eq_refl).
Defined.

(** X5. Readings stored for one chat never change what [GetLastPD] returns
    for another chat, whether [AddDataPoint] succeeds or stops half way. *)
Theorem AddDataPoint_other_chats
    (dps : list DataPoint) (s : Store) (chatID other : Z) :
  other <> chatID ->
  GetLastPD (fst (AddDataPoint s chatID dps)) other = GetLastPD s other.
Proof.
  intros Hne. destruct (AddDataPoint_appends dps s chatID) as (added & Hrows & Hall).
  unfold GetLastPD, QueryRow.
  rewrite !Query_last_reading, Hrows, filter_app, AddDataPoint_zone.
  replace (filter (row_matches [(1%nat, VInt other)]) added) with (@nil row).
  - now rewrite app_nil_r.
  - symmetry. apply filter_nil_iff. intros r Hr.
    rewrite Forall_forall in Hall. apply Hall in Hr.
    destruct (row_matches _ r) eqn:E; [|reflexivity].
    apply row_matches_one in E. congruence.
Qed.

Lemma AddDataPoint_other_chats_witness :
  43 <> 42
  /\ GetLastPD (fst (AddDataPoint store_two_chats 42 [reading (example_day + 60) 5])) 43
     = Ok (reading example_day 3).
Proof.
  assert (H : 43 <> 42) by discriminate.
  split; [exact H|].
  rewrite (AddDataPoint_other_chats [reading (example_day + 60) 5] store_two_chats 42 43 H).
  vm_compute. reflexivity.
Defined.

(** X6. [AddDataPoint] stops at the first reading that [json.Marshal] refuses
    (a NaN or infinite component): the readings before it are stored, that
    reading and the ones after it are not, and the marshalling error is
    returned. *)
Theorem AddDataPoint_stops_at_unmarshalable
    (good rest : list DataPoint) (bad : DataPoint) (s : Store) (chatID : Z) :
  forallb marshalable good = true ->
  marshalable bad = false ->
  AddDataPoint s chatID (good ++ bad :: rest)
  = (fst (AddDataPoint s chatID good), Some (Errorf "marshaling DP: " ErrMarshal)).
Proof.
  revert s. induction good as [|dp good IH]; intros s Hgood Hbad.
  - cbn [app]. now rewrite (AddDataPoint_refused _ _ _ _ (unmarshalable_Marshal _ Hbad)).
  - cbn [forallb] in Hgood. apply andb_true_iff in Hgood as [Hdp Hgood].
    cbn [app]. rewrite !(AddDataPoint_cons _ _ _ _ (marshalable_Marshal _ Hdp)).
    now apply IH.
Qed.

Lemma AddDataPoint_stops_at_unmarshalable_witness :
  forallb marshalable [reading 10 2] = true
  /\ marshalable broken_reading = false
  /\ AddDataPoint store_session_only 42 ([reading 10 2] ++ broken_reading :: [reading 20 3])
     = (fst (AddDataPoint store_session_only 42 [reading 10 2]),
        Some (Errorf "marshaling DP: " ErrMarshal)).
Proof.
  split; [reflexivity|]. split; [reflexivity|].
  exact (AddDataPoint_stops_at_unmarshalable [reading 10 2] [reading 20 3] broken_reading
           store_session_only 42 eq_refl eq_refl).
Defined.

(** X7. For a chat with stored readings, [GetLastPD] returns one of that
    chat's stored readings, and none of the chat's readings sorts after it in
    the engine's order of the timestamp texts, wherever the rows stand in the
    table.  Among readings whose seconds fall in years 0000 to 9999 of the
    process's zone and were written at one UTC offset, this is the order of
    time: none of them is later than the reading returned. *)
Theorem GetLastPD_latest (s : Store) (chatID : Z) :
  forallb (row_typed data_point_types) s.(DB).(data_point).(rows) = true ->
  has_reading s chatID ->
  exists id b t,
    In [VInt id; VInt chatID; VBlob b; VTime t] s.(DB).(data_point).(rows)
    /\ GetLastPD s chatID = Ok (json_Unmarshal b)
    /\ forall id' b' t',
         In [VInt id'; VInt chatID; VBlob b'; VTime t'] s.(DB).(data_point).(rows) ->
         ~ sorts_before s.(DB) (VTime t) (VTime t')
         /\ forall sec sec',
              t = time_Unix sec -> t' = time_Unix sec' ->
              four_digit_year s.(DB).(zone) sec -> four_digit_year s.(DB).(zone) sec' ->
              s.(DB).(zone) sec = s.(DB).(zone) sec' ->
              sec' <= sec.
Proof.
  intros Ht Hh.
  destruct (GetLastPD_most_recent s chatID Ht Hh) as (dp & Hg & r & Hin & Hc & Hb & Hmax).
  rewrite forallb_forall in Ht.
  pose proof (Ht r Hin) as Hty. apply data_point_row_typed in Hty.
  destruct Hty as (id & c & b & t & ->). cbn in Hc, Hb. injection Hc as ->.
  injection Hb as ->.
  exists id, (JSON dp), t. split; [exact Hin|]. split; [exact Hg|].
  intros id' b' t' Hin'.
  pose proof (Hmax _ Hin' eq_refl) as Hnot. cbn [field nth] in Hnot.
  split; [exact Hnot|].
  intros sec sec' -> -> Hy Hy' Hoff.
  destruct (Z.le_gt_cases sec' sec) as [Hle|Hgt]; [exact Hle|].
  exfalso. apply Hnot. unfold sorts_before. now apply later_sorts_after.
Qed.

Lemma GetLastPD_latest_witness :
  forallb (row_typed data_point_types) store_with_old_readings.(DB).(data_point).(rows)
  = true
  /\ has_reading store_with_old_readings 42
  /\ exists id b t,
       In [VInt id; VInt 42; VBlob b; VTime t]
          store_with_old_readings.(DB).(data_point).(rows)
       /\ GetLastPD store_with_old_readings 42 = Ok (json_Unmarshal b)
       /\ forall id' b' t',
            In [VInt id'; VInt 42; VBlob b'; VTime t']
               store_with_old_readings.(DB).(data_point).(rows) ->
            ~ sorts_before store_with_old_readings.(DB) (VTime t) (VTime t')
            /\ forall sec sec',
                 t = time_Unix sec -> t' = time_Unix sec' ->
                 four_digit_year store_with_old_readings.(DB).(zone) sec ->
                 four_digit_year store_with_old_readings.(DB).(zone) sec' ->
                 store_with_old_readings.(DB).(zone) sec
                 = store_with_old_readings.(DB).(zone) sec' ->
                 sec' <= sec.
Proof.
  assert (H1 : forallb (row_typed data_point_types)
                 store_with_old_readings.(DB).(data_point).(rows) = true)
    by (vm_compute; reflexivity).
  assert (H2 : has_reading store_with_old_readings 42).
  { exists [VInt 1; VInt 42; VBlob (JSON (reading (example_day - 13 * 3600) 2));
            VTime (time_Unix (example_day - 13 * 3600))].
    split; [|reflexivity].
    assert (Hrows : store_with_old_readings.(DB).(data_point).(rows)
                    = [[VInt 1; VInt 42; VBlob (JSON (reading (example_day - 13 * 3600) 2));
                        VTime (time_Unix (example_day - 13 * 3600))];
                       [VInt 2; VInt 42; VBlob (JSON (reading (example_day - 11 * 3600) 3));
                        VTime (time_Unix (example_day - 11 * 3600))];
                       [VInt 3; VInt 42; VBlob (JSON (reading (example_day - 3600) 3));
                        VTime (time_Unix (example_day - 3600))]])
      by (vm_compute; reflexivity).
    rewrite Hrows. now left. }
  split; [exact H1|]. split; [exact H2|].
  exact (GetLastPD_latest store_with_old_readings 42 H1 H2).
Defined.

(** ** store.go: subscriptions *)

Lemma GetSessionByChatID_chat (s : Store) (chatID : Z) (us : UserSession) :
  forallb (row_typed user_session_types) s.(DB).(user_session).(rows) = true ->
  GetSessionByChatID s chatID = Ok us -> us.(ChatID) = chatID.
Proof.
  intros Ht H. unfold GetSessionByChatID, QueryRow in H. rewrite Query_session in H.
  destruct (filter _ _) as [|r l] eqn:Hf; [discriminate|].
  assert (Hin : In r (filter (row_matches [(0%nat, VInt chatID)])
                        s.(DB).(user_session).(rows))) by (rewrite Hf; now left).
  apply filter_In in Hin as [Hin Hm]. apply row_matches_one in Hm.
  rewrite forallb_forall in Ht. apply Ht in Hin.
  unfold user_session_types in Hin. invert_typed Hin.
  cbn in Hm. injection Hm as ->. cbn in H. now injection H as <-.
Qed.

(** X8. A successful [AddAQISubscription] shows up in the chat's list as one
    new entry, after the ones that were there, carrying the session's
    language and location, the index of the reading [GetLastPD] returned and
    the time of the call. *)
Theorem AddAQISubscription_then_list
    (s : Store) (chatID : Z) (now : Time) (us : UserSession) (dp : DataPoint)
    (old : list AQISubscription) :
  well_typed s.(DB) = true ->
  GetSessionByChatID s chatID = Ok us ->
  GetLastPD s chatID = Ok dp ->
  ListAQISubscriptions s chatID = Ok old ->
  snd (AddAQISubscription s chatID now) = None ->
  ListAQISubscriptions (fst (AddAQISubscription s chatID now)) chatID
  = Ok (old ++ [listed_entry us (GetAQI dp) now]).
Proof.
  intros Hwt Hus Hdp Hold Hnone.
  pose proof (AddAQISubscription_well_typed s chatID now Hwt) as Hwt'.
  apply well_typed_tables in Hwt as (Hu & _ & Hs).
  apply well_typed_tables in Hwt' as (_ & _ & Hs').
  rewrite (ListAQISubscriptions_eq _ _ Hs').
  rewrite (ListAQISubscriptions_eq _ _ Hs) in Hold. injection Hold as <-.
  unfold AddAQISubscription in *.
  rewrite Hus, (ListAQISubscriptions_eq _ _ Hs), Hdp in *.
  destruct (existsb _ _); [discriminate|].
  rewrite Exec_insert_subscription in *.
  cbn [exec_result fst DB with_DB add_subscription subscription rows].
  destruct (GetSessionByChatID_numbers s chatID us Hu Hus) as (Hlon & Hlat & Zlon & Zlat).
  rewrite (GetSessionByChatID_chat s chatID us Hu Hus).
  rewrite (bind_float_number _ Hlon), (bind_float_number _ Hlat).
  rewrite (stored_float_keeps _ Zlon), (stored_float_keeps _ Zlat).
  rewrite filter_app, map_app. f_equal. f_equal.
  cbn. rewrite Z.eqb_refl. cbn. unfold listed_entry.
  now rewrite (GetSessionByChatID_chat s chatID us Hu Hus).
Qed.

Lemma AddAQISubscription_then_list_witness :
  well_typed store_with_reading.(DB) = true
  /\ GetSessionByChatID store_with_reading 42 = Ok session_A_stored
  /\ GetLastPD store_with_reading 42 = Ok (reading example_day 3)
  /\ ListAQISubscriptions store_with_reading 42 = Ok []
  /\ snd (AddAQISubscription store_with_reading 42 (example_now + 1)) = None
  /\ ListAQISubscriptions (fst (AddAQISubscription store_with_reading 42 (example_now + 1)))
       42
     = Ok ([] ++ [listed_entry session_A_stored 3 (example_now + 1)]).
Proof.
  assert (H1 : well_typed store_with_reading.(DB) = true) by (vm_compute; reflexivity).
  assert (H2 : GetSessionByChatID store_with_reading 42 = Ok session_A_stored)
    by (vm_compute; reflexivity).
  assert (H3 : GetLastPD store_with_reading 42 = Ok (reading example_day 3))
    by (vm_compute; reflexivity).
  assert (H4 : ListAQISubscriptions store_with_reading 42 = Ok [])
    by (vm_compute; reflexivity).
  assert (H5 : snd (AddAQISubscription store_with_reading 42 (example_now + 1)) = None)
    by (vm_compute; reflexivity).
  repeat (split; [assumption|]).
  exact (AddAQISubscription_then_list store_with_reading 42 (example_now + 1)
           session_A_stored (reading example_day 3) [] H1 H2 H3 H4 H5).
Defined.

(** X9. [ListAQISubscriptions] lists exactly the enabled subscription rows of
    the chat: an entry is listed if and only if the relation holds an enabled
    row of that chat with the entry's language, location, index and creation
    time.  Disabled rows and rows of other chats never appear. *)
Theorem ListAQISubscriptions_exact
    (s : Store) (chatID : Z) (subs : list AQISubscription) (x : AQISubscription) :
  well_typed s.(DB) = true ->
  ListAQISubscriptions s chatID = Ok subs ->
  (In x subs <->
   exists id language lon lat aqi t,
     In (subscription_row id chatID language (VReal lon) (VReal lat) aqi 1 t)
        s.(DB).(subscription).(rows)
     /\ x = {| ID := 0;
              sub_UserSession :=
                {| UserID := 0; ChatID := chatID; LanguageCode := language;
                   Longitude := lon; Latitude := lat; CreatedAt := t |};
              sub_AirQualityIndex := aqi |}).
Proof.
  intros Hwt Hl. apply well_typed_tables in Hwt as (_ & _ & Hs).
  rewrite (ListAQISubscriptions_eq _ _ Hs) in Hl. injection Hl as <-.
  rewrite forallb_forall in Hs. rewrite in_map_iff. split.
  - intros (r & <- & Hr). apply filter_In in Hr as [Hr Hm].
    pose proof (Hs r Hr) as Hty.
    apply subscription_row_typed in Hty as (id & c & l & lon & lat & aqi & en & t & ->).
    apply row_matches_chat_enabled in Hm as [Hc He].
    cbn in Hc, He. injection Hc as ->. injection He as ->.
    exists id, l, lon, lat, aqi, t. split; [exact Hr | reflexivity].
  - intros (id & l & lon & lat & aqi & t & Hr & ->).
    exists (subscription_row id chatID l (VReal lon) (VReal lat) aqi 1 t).
    split; [reflexivity|]. apply filter_In. split; [exact Hr|].
    apply row_matches_chat_enabled. split; reflexivity.
Qed.

Lemma ListAQISubscriptions_exact_witness :
  well_typed store_with_disabled.(DB) = true
  /\ ListAQISubscriptions store_with_disabled 42 = Ok [listed_entry session_A_stored 3 example_now]
  /\ In (listed_entry session_A_stored 3 example_now)
        [listed_entry session_A_stored 3 example_now].
Proof.
  assert (H1 : well_typed store_with_disabled.(DB) = true) by (vm_compute; reflexivity).
  assert (H2 : ListAQISubscriptions store_with_disabled 42
               = Ok [listed_entry session_A_stored 3 example_now])
    by (vm_compute; reflexivity).
  split; [exact H1|]. split; [exact H2|].
  apply (ListAQISubscriptions_exact store_with_disabled 42
           [listed_entry session_A_stored 3 example_now]
           (listed_entry session_A_stored 3 example_now) H1 H2).
  exists 3, "en", 2%float, 1%float, 3, example_now.
  assert (Hrows : store_with_disabled.(DB).(subscription).(rows)
                  = [subscription_row 1 42 "en" (VReal 2) (VReal 1) 3 0 example_now;
                     subscription_row 2 42 "en" (VReal 2) (VReal 1) 3 0 example_now;
                     subscription_row 3 42 "en" (VReal 2) (VReal 1) 3 1 example_now])
    by (vm_compute; reflexivity).
  rewrite Hrows. split; [right; right; left; reflexivity | reflexivity].
Defined.

Lemma filter_map_fixed {A : Type} (f : A -> bool) (g : A -> A) (l : list A) :
  (forall x, f (g x) = f x) -> (forall x, f x = true -> g x = x) ->
  filter f (map g l) = filter f l.
Proof.
  intros H1 H2. induction l as [|a l IH]; simpl; [reflexivity|].
  rewrite H1. destruct (f a) eqn:E; [|exact IH].
  rewrite (H2 a E). now f_equal.
Qed.

Lemma set_nth_twice (i : nat) (v w : value) (r : row) :
  set_nth i v (set_nth i w r) = set_nth i v r.
Proof.
  revert i. induction r as [|x r IH]; intros [|i]; simpl; try reflexivity.
  now rewrite IH.
Qed.

Lemma row_matches_set_nth_other (i j : nat) (n : Z) (v : value) (r : row) :
  i <> j -> row_matches [(i, VInt n)] (set_nth j v r) = row_matches [(i, VInt n)] r.
Proof.
  intros H. unfold row_matches. cbn [forallb fst snd].
  now rewrite (field_set_nth_other i j v r H).
Qed.

Lemma disable_other_chat (chatID other : Z) (r : row) :
  other <> chatID ->
  row_matches [(1%nat, VInt other); (6%nat, VInt 1)]
    (if row_matches [(1%nat, VInt chatID)] r then set_nth 6 (VInt 0) r else r)
  = row_matches [(1%nat, VInt other); (6%nat, VInt 1)] r.
Proof.
  intros Hne. destruct (row_matches [(1%nat, VInt chatID)] r) eqn:E; [|reflexivity].
  apply row_matches_one in E.
  assert (H1 : row_matches [(1%nat, VInt other); (6%nat, VInt 1)] r = false).
  { destruct (row_matches _ r) eqn:E'; [|reflexivity].
    apply row_matches_chat_enabled in E' as [E' _]. congruence. }
  rewrite H1.
  destruct (row_matches _ (set_nth 6 (VInt 0) r)) eqn:E'; [|reflexivity].
  apply row_matches_chat_enabled in E' as [E' _].
  rewrite field_set_nth_other in E' by discriminate. congruence.
Qed.

(** X10. [DeleteAQISubscriptions] returns no error; afterwards the chat's
    list is empty, every other chat's list is what it was, no row has been
    removed from the relation, and doing it a second time changes nothing
    more. *)
Theorem DeleteAQISubscriptions_effect (s : Store) (chatID : Z) :
  snd (DeleteAQISubscriptions s chatID) = None
  /\ ListAQISubscriptions (fst (DeleteAQISubscriptions s chatID)) chatID = Ok []
  /\ (forall other, other <> chatID ->
      ListAQISubscriptions (fst (DeleteAQISubscriptions s chatID)) other
      = ListAQISubscriptions s other)
  /\ List.length (fst (DeleteAQISubscriptions s chatID)).(DB).(subscription).(rows)
     = List.length s.(DB).(subscription).(rows)
  /\ fst (DeleteAQISubscriptions (fst (DeleteAQISubscriptions s chatID)) chatID)
     = fst (DeleteAQISubscriptions s chatID).
Proof.
  rewrite !DeleteAQISubscriptions_eq. cbn [fst snd].
  split; [reflexivity|]. split; [|split; [|split]].
  - unfold ListAQISubscriptions. rewrite Query_chat_subscriptions.
    cbn [DB with_DB subscription rows]. now rewrite no_enabled_after_disable.
  - intros other Hne. unfold ListAQISubscriptions.
    rewrite !Query_chat_subscriptions. cbn [DB with_DB subscription rows].
    rewrite filter_map_fixed; [reflexivity| |].
    + intros x. now apply disable_other_chat.
    + intros x Hx. destruct (row_matches [(1%nat, VInt chatID)] x) eqn:E; [|reflexivity].
      apply row_matches_one in E. apply row_matches_chat_enabled in Hx as [Hx _].
      congruence.
  - cbn [DB with_DB subscription rows]. apply length_map.
  - unfold with_DB. cbn [DB CacheTime subscription user_session data_point rows seq].
    do 3 f_equal. rewrite map_map. apply map_ext. intros r.
    destruct (row_matches [(1%nat, VInt chatID)] r) eqn:E; [|now rewrite E].
    rewrite row_matches_set_nth_other by discriminate. rewrite E.
    apply set_nth_twice.
Qed.

(** X11. [UpdateSubscriptionAQI] with an id that no subscription has is
    accepted without error and changes nothing. *)
Theorem UpdateSubscriptionAQI_unknown_id (s : Store) (subID : Z) (aqi : AirQualityIndex) :
  (forall r, In r s.(DB).(subscription).(rows) -> field 0 r <> VInt subID) ->
  UpdateSubscriptionAQI s subID aqi = (s, None).
Proof.
  intros H. rewrite UpdateSubscriptionAQI_eq.
  destruct s as [[u d [rs sq]] ct]. unfold with_DB.
  cbn [DB CacheTime subscription user_session data_point rows seq] in *.
  do 5 f_equal. rewrite <- (map_id rs) at 2. apply map_ext_in. intros r Hr.
  destruct (row_matches [(0%nat, VInt subID)] r) eqn:E; [|reflexivity].
  apply row_matches_one in E. now apply H in Hr.
Qed.

Lemma UpdateSubscriptionAQI_unknown_id_witness :
  (forall r, In r store_subscribed.(DB).(subscription).(rows) -> field 0 r <> VInt 99)
  /\ UpdateSubscriptionAQI store_subscribed 99 5 = (store_subscribed, None).
Proof.
  assert (H : forall r, In r store_subscribed.(DB).(subscription).(rows) ->
                        field 0 r <> VInt 99).
  { intros r Hr. vm_compute in Hr. destruct Hr as [<-|[]]. discriminate. }
  split; [exact H|].
  exact (UpdateSubscriptionAQI_unknown_id store_subscribed 99 5 H).
Defined.

Lemma AddAQISubscription_cases (s : Store) (chatID : Z) (now : Time) :
  fst (AddAQISubscription s chatID now) = s
  \/ exists r, fst (AddAQISubscription s chatID now) = with_DB s (add_subscription s.(DB) r).
Proof.
  unfold AddAQISubscription.
  destruct (GetSessionByChatID s chatID) as [us|e]; [|now left].
  destruct (ListAQISubscriptions s chatID) as [subs|e]; [|now left].
  destruct (existsb _ subs); [now left|].
  destruct (GetLastPD s chatID) as [dp|e]; [|now left].
  rewrite Exec_insert_subscription. right. eexists. reflexivity.
Qed.

(** X12. No method of the store ever removes a row of the data_point or the
    subscription relation: after each of them both relations have at least
    as many rows as before (the two clean-up methods included, whose
    statements the engine refuses). *)
Theorem step_never_deletes (s s' : Store) :
  step s s' ->
  (List.length s.(DB).(data_point).(rows) <= List.length s'.(DB).(data_point).(rows))%nat
  /\ (List.length s.(DB).(subscription).(rows)
      <= List.length s'.(DB).(subscription).(rows))%nat.
Proof.
  intros Hstep. destruct Hstep.
  - rewrite UpdateUserSession_eq. cbn. lia.
  - destruct (AddDataPoint_appends dps s chatID) as (added & Hrows & _).
    rewrite Hrows, length_app.
    destruct (AddDataPoint s chatID dps) as [s' e] eqn:Ha. cbn [fst].
    apply AddDataPoint_other_tables in Ha as (Hsub & _ & _). rewrite Hsub. lia.
  - destruct (AddAQISubscription_cases s chatID now) as [->|[r ->]].
    + lia.
    + cbn [DB with_DB add_subscription data_point subscription rows].
      rewrite length_app. cbn. lia.
  - rewrite DeleteAQISubscriptions_eq. cbn [fst DB with_DB data_point subscription rows].
    rewrite length_map. lia.
  - rewrite UpdateSubscriptionAQI_eq. cbn [fst DB with_DB data_point subscription rows].
    rewrite length_map. lia.
  - rewrite ClenupAQISubscriptions_fails. cbn. lia.
  - rewrite ClenupDataPoint_fails. cbn. lia.
Qed.

Lemma step_never_deletes_witness :
  step store_with_old_readings (fst (ClenupDataPoint store_with_old_readings))
  /\ (3 <= List.length
             (fst (ClenupDataPoint store_with_old_readings)).(DB).(data_point).(rows))%nat.
Proof.
  pose proof (step_ClenupDataPoint store_with_old_readings) as H.
  split; [exact H|].
  assert (H3 : List.length store_with_old_readings.(DB).(data_point).(rows) = 3%nat)
    by (vm_compute; reflexivity).
  rewrite <- H3.
  exact (proj1 (step_never_deletes store_with_old_readings
                  (fst (ClenupDataPoint store_with_old_readings)) H)).
Defined.

(** ** owmapi.go: the texts of an index *)

(** X13. [String()] and [Description()] of an index are non-empty exactly for
    the indexes 1 to 5; every other index, the 0 of the zero DataPoint
    included, renders as the empty string. *)
Theorem AQI_texts_defined_iff (aqi : AirQualityIndex) :
  (AQI_String aqi <> "" <-> 1 <= aqi <= 5)
  /\ (AQI_Description aqi <> "" <-> 1 <= aqi <= 5).
Proof.
  unfold AQI_String, AQI_Description, aqiDesc, aqiDescription.
  destruct aqi as [|p|p].
  - split; split; intros H; [contradiction | lia | contradiction | lia].
  - do 3 (try destruct p as [p|p|]);
      (split; split; intros H; try lia; try discriminate; try contradiction).
  - split; split; intros H; [contradiction | lia | contradiction | lia].
Qed.

(** ** bot.go: the reconciliation loop as a whole *)

Lemma fetched_snoc (evs : list event) (e : event) :
  fetched (evs ++ [e]) = fetched evs ++ match e with Fetch l => [l] | _ => [] end.
Proof. unfold fetched. rewrite flat_map_app. cbn. now rewrite app_nil_r. Qed.

Ltac list_fetched :=
  unfold emit, with_store, with_wAPI; cbn [events fst snd];
  rewrite !fetched_snoc, ?app_nil_r; reflexivity.

Lemma Cron_body_fetched {World : Type}
    (GetAirPollution : World -> Location -> World * result ApiPollutionResponse)
    (newLangPrinter : string -> Printer) (bot : Bot World) (i : Z) (s : AQISubscription) :
  fetched (events (fst (Cron_body GetAirPollution newLangPrinter (bot, i) s)))
  = fetched (events bot) ++ [location_of s].
Proof.
  unfold Cron_body, location_of.
  destruct (GetAirPollution _ _) as [w [resp|err]]; [|list_fetched].
  destruct (AddDataPoint _ _ _) as [s1 [err|]]; [list_fetched|].
  destruct (GetLastPD _ _) as [dp|err]; [|list_fetched].
  destruct (negb _); [|list_fetched].
  destruct (UpdateSubscriptionAQI _ _ _) as [s2 [err|]]; list_fetched.
Qed.

Lemma Cron_loop_fetched {World : Type}
    (GetAirPollution : World -> Location -> World * result ApiPollutionResponse)
    (newLangPrinter : string -> Printer) (subs : list AQISubscription)
    (bot : Bot World) (i : Z) :
  fetched (events (fst (Cron_loop GetAirPollution newLangPrinter subs (bot, i))))
  = fetched (events bot) ++ map location_of subs.
Proof.
  revert bot i. induction subs as [|s subs IH]; intros bot i.
  - cbn. now rewrite app_nil_r.
  - unfold Cron_loop. cbn [fold_left map].
    pose proof (Cron_body_fetched GetAirPollution newLangPrinter bot i s) as Hb.
    destruct (Cron_body GetAirPollution newLangPrinter (bot, i) s) as [bot' i'].
    cbn [fst] in Hb. specialize (IH bot' i'). unfold Cron_loop in IH.
    rewrite IH, Hb, <- app_assoc. reflexivity.
Qed.

(** X14. A run of [Cron] asks the provider exactly once for each subscription
    of its snapshot, in the order of the snapshot and at the subscription's
    own location: no subscription is skipped and none is retried, whatever
    the provider answers. *)
Theorem Cron_fetches_once_each {World : Type}
    (GetAirPollution : World -> Location -> World * result ApiPollutionResponse)
    (newLangPrinter : string -> Printer) (bot : Bot World) (subs : list AQISubscription) :
  ListEnabledSubscriptions (store bot) = Ok subs ->
  fetched (events (Cron GetAirPollution newLangPrinter bot))
  = fetched (events bot) ++ map location_of subs.
Proof.
  intros Hl. unfold Cron. rewrite Hl.
  pose proof (Cron_loop_fetched GetAirPollution newLangPrinter subs
                (emit bot (LogPrintf "%d subsription(s) to process"
                             (Z.of_nat (List.length subs)))) 0) as H.
  destruct (Cron_loop _ _ _ _) as [bot' i']. cbn [fst] in H.
  unfold emit at 1. cbn [events]. rewrite fetched_snoc, H. cbn [app].
  unfold emit. cbn [events]. rewrite fetched_snoc. cbn [app].
  now rewrite !app_nil_r.
Qed.

Lemma Cron_fetches_once_each_witness :
  ListEnabledSubscriptions (store {| store := store_two_chats; wAPI := O; events := [] |})
  = Ok [subscription_A; subscription_C]
  /\ fetched (events (Cron flaky (fun _ => example_printer)
                        {| store := store_two_chats; wAPI := O; events := [] |}))
     = [{| loc_Latitude := 1%float; loc_Longitude := 2%float |};
        {| loc_Latitude := 10%float; loc_Longitude := 20%float |}].
Proof.
  assert (H : ListEnabledSubscriptions
                (store {| store := store_two_chats; wAPI := O; events := [] |})
              = Ok [subscription_A; subscription_C]) by (vm_compute; reflexivity).
  split; [exact H|].
  exact (Cron_fetches_once_each flaky (fun _ => example_printer)
           {| store := store_two_chats; wAPI := O; events := [] |}
           [subscription_A; subscription_C] H).
Defined.

(** X15. The number [Cron] reports in its last log line is the number of
    messages it handed to [Send] during the run, and it is at most the number
    of subscriptions in the snapshot. *)
Theorem Cron_reports_sends {World : Type}
    (GetAirPollution : World -> Location -> World * result ApiPollutionResponse)
    (newLangPrinter : string -> Printer) (bot : Bot World) (subs : list AQISubscription) :
  ListEnabledSubscriptions (store bot) = Ok subs ->
  exists evs n,
    events (Cron GetAirPollution newLangPrinter bot)
    = evs ++ [LogPrintf "Sent %d messages" n]
    /\ n = sends evs - sends (events bot)
    /\ 0 <= n <= Z.of_nat (List.length subs).
Proof.
  intros Hl. unfold Cron. rewrite Hl.
  set (bot0 := emit bot (LogPrintf "%d subsription(s) to process"
                          (Z.of_nat (List.length subs)))).
  pose proof (Cron_loop_sends GetAirPollution newLangPrinter subs bot0 0) as Hs.
  pose proof (Cron_loop_count GetAirPollution newLangPrinter subs bot0 0) as Hc.
  destruct (Cron_loop _ _ _ _) as [bot' i']. cbn [fst snd] in Hs, Hc.
  exists (events bot'), i'. split; [reflexivity|]. split; [|lia].
  assert (H0 : sends (events bot0) = sends (events bot)).
  { unfold bot0, emit. cbn [events]. rewrite sends_snoc. lia. }
  lia.
Qed.

Lemma Cron_reports_sends_witness :
  ListEnabledSubscriptions (store {| store := store_two_chats; wAPI := O; events := [] |})
  = Ok [subscription_A; subscription_C]
  /\ exists evs n,
       events (Cron flaky (fun _ => example_printer)
                 {| store := store_two_chats; wAPI := O; events := [] |})
       = evs ++ [LogPrintf "Sent %d messages" n]
       /\ n = sends evs - sends []
       /\ 0 <= n <= 2.
Proof.
  assert (H : ListEnabledSubscriptions
                (store {| store := store_two_chats; wAPI := O; events := [] |})
              = Ok [subscription_A; subscription_C]) by (vm_compute; reflexivity).
  split; [exact H|].
  exact (Cron_reports_sends flaky (fun _ => example_printer)
           {| store := store_two_chats; wAPI := O; events := [] |}
           [subscription_A; subscription_C] H).
Defined.

Lemma same_but_refl (s : Store) : same_but_readings_and_aqi s s.
Proof. repeat split. Qed.

Lemma same_but_trans (s1 s2 s3 : Store) :
  same_but_readings_and_aqi s1 s2 -> same_but_readings_and_aqi s2 s3 ->
  same_but_readings_and_aqi s1 s3.
Proof.
  intros (H1 & H2 & H3 & H4) (K1 & K2 & K3 & K4).
  repeat split; congruence.
Qed.

Lemma AddDataPoint_same_but (dps : list DataPoint) (s : Store) (chatID : Z) :
  same_but_readings_and_aqi s (fst (AddDataPoint s chatID dps)).
Proof.
  destruct (AddDataPoint s chatID dps) as [s' e] eqn:Ha. cbn [fst].
  apply AddDataPoint_other_tables in Ha as (Hsub & Hu & Hc).
  repeat split; try assumption; now rewrite Hsub.
Qed.

Lemma UpdateSubscriptionAQI_same_but (s : Store) (subID : Z) (aqi : AirQualityIndex) :
  same_but_readings_and_aqi s (fst (UpdateSubscriptionAQI s subID aqi)).
Proof.
  rewrite UpdateSubscriptionAQI_eq. cbn [fst]. repeat split.
  cbn [DB with_DB subscription rows]. rewrite map_map. apply map_ext. intros r.
  destruct (row_matches _ r); [|reflexivity].
  unfold without_aqi. apply set_nth_twice.
Qed.

Lemma Cron_body_same_but {World : Type}
    (GetAirPollution : World -> Location -> World * result ApiPollutionResponse)
    (newLangPrinter : string -> Printer) (bot : Bot World) (i : Z) (s : AQISubscription) :
  same_but_readings_and_aqi (store bot)
    (store (fst (Cron_body GetAirPollution newLangPrinter (bot, i) s))).
Proof.
  unfold Cron_body.
  destruct (GetAirPollution _ _) as [w [resp|err]]; [|apply same_but_refl].
  cbn [store emit with_wAPI].
  pose proof (AddDataPoint_same_but (resp_DP resp) (store bot)
                (ChatID (sub_UserSession s))) as Ha.
  destruct (AddDataPoint _ _ _) as [s1 [err|]]; cbn [fst] in Ha; [exact Ha|].
  destruct (GetLastPD _ _) as [dp|err]; [|exact Ha].
  destruct (negb _); [|exact Ha].
  pose proof (UpdateSubscriptionAQI_same_but s1 (ID s) (GetAQI dp)) as Hu.
  destruct (UpdateSubscriptionAQI _ _ _) as [s2 [err|]]; cbn [fst] in Hu;
    exact (same_but_trans _ _ _ Ha Hu).
Qed.

Lemma Cron_loop_same_but {World : Type}
    (GetAirPollution : World -> Location -> World * result ApiPollutionResponse)
    (newLangPrinter : string -> Printer) (subs : list AQISubscription)
    (bot : Bot World) (i : Z) :
  same_but_readings_and_aqi (store bot)
    (store (fst (Cron_loop GetAirPollution newLangPrinter subs (bot, i)))).
Proof.
  revert bot i. induction subs as [|s subs IH]; intros bot i.
  - apply same_but_refl.
  - unfold Cron_loop. cbn [fold_left].
    pose proof (Cron_body_same_but GetAirPollution newLangPrinter bot i s) as Hb.
    destruct (Cron_body GetAirPollution newLangPrinter (bot, i) s) as [bot' i'].
    cbn [fst] in Hb. specialize (IH bot' i'). unfold Cron_loop in IH.
    exact (same_but_trans _ _ _ Hb IH).
Qed.

(** X16. Whatever the provider answers, a run of [Cron] leaves the sessions,
    the cache time and every column of every subscription row except aqi as
    they were: it creates, removes, enables and disables no subscription and
    moves none. *)
Theorem Cron_changes_only_readings_and_aqi {World : Type}
    (GetAirPollution : World -> Location -> World * result ApiPollutionResponse)
    (newLangPrinter : string -> Printer) (bot : Bot World) :
  same_but_readings_and_aqi (store bot) (store (Cron GetAirPollution newLangPrinter bot)).
Proof.
  unfold Cron.
  destruct (ListEnabledSubscriptions (store bot)) as [subs|err]; [|apply same_but_refl].
  pose proof (Cron_loop_same_but GetAirPollution newLangPrinter subs
                (emit bot (LogPrintf "%d subsription(s) to process"
                             (Z.of_nat (List.length subs)))) 0) as H.
  destruct (Cron_loop _ _ _ _) as [bot' i']. exact H.
Qed.

(** ** bot.go: the location handler *)

Lemma reply_store {World : Type} (bot : Bot World) (p : Printer) (chatID : Z)
    (dp : DataPoint) :
  store (reply bot p chatID dp) = store bot.
Proof. unfold reply. destruct (SprintfRef p _); reflexivity. Qed.

(** The store the location handler ends with is the one after the session
    update, or the one after the [AddDataPoint] that followed it. *)
Lemma handleLocationMessage_store {World : Type}
    (GetAirPollution : World -> Location -> World * result ApiPollutionResponse)
    (newLangPrinter : string -> Printer)
    (bot : Bot World) (msg : Message) (l : Location) (now_update now_check : Time) :
  msg.(msg_Location) = Some l ->
  store (handleLocationMessage GetAirPollution newLangPrinter bot msg now_update now_check)
  = fst (UpdateUserSession (store bot)
           {| UserID := msg.(msg_From_ID); ChatID := msg.(msg_Chat_ID);
              LanguageCode := msg.(msg_From_LanguageCode);
              Longitude := l.(loc_Longitude); Latitude := l.(loc_Latitude);
              CreatedAt := 0 |} now_update)
  \/ exists dps,
       store (handleLocationMessage GetAirPollution newLangPrinter bot msg
                now_update now_check)
       = fst (AddDataPoint
                (fst (UpdateUserSession (store bot)
                        {| UserID := msg.(msg_From_ID); ChatID := msg.(msg_Chat_ID);
                           LanguageCode := msg.(msg_From_LanguageCode);
                           Longitude := l.(loc_Longitude); Latitude := l.(loc_Latitude);
                           CreatedAt := 0 |} now_update))
                msg.(msg_Chat_ID) dps).
Proof.
  intros Hloc. unfold handleLocationMessage. rewrite Hloc.
  cbn [SetLocation UserID ChatID LanguageCode CreatedAt loc_Longitude loc_Latitude].
  rewrite !UpdateUserSession_eq. cbn [fst store with_store].
  set (s1 := with_DB (store bot) _).
  destruct (GetLastPD s1 _) as [dp|err]; [|now left].
  destruct (_ >? _); [|left; now rewrite reply_store].
  destruct (GetAirPollution _ _) as [w [resp|err]]; [|now left].
  right. exists (resp_DP resp).
  destruct (AddDataPoint s1 _ _) as [s2 [err|]]; [reflexivity|]. cbn [fst].
  destruct (GetLastPD s2 _) as [dp'|err]; [|reflexivity].
  now rewrite reply_store.
Qed.

(** X17. However the fetch goes (fresh cache, provider failure, storage
    failure or success), when the location handler returns the chat's
    session is the one of the message: sender and language of the message,
    its coordinates (numbers) as a REAL column gives them back, which is
    unchanged unless a coordinate is a negative zero, read back as zero, and
    the time of the update. *)
Theorem handleLocationMessage_stores_session {World : Type}
    (GetAirPollution : World -> Location -> World * result ApiPollutionResponse)
    (newLangPrinter : string -> Printer)
    (bot : Bot World) (msg : Message) (l : Location) (now_update now_check : Time) :
  msg.(msg_Location) = Some l ->
  PrimFloat.is_nan l.(loc_Longitude) = false ->
  PrimFloat.is_nan l.(loc_Latitude) = false ->
  GetSessionByChatID
    (store (handleLocationMessage GetAirPollution newLangPrinter bot msg
              now_update now_check))
    msg.(msg_Chat_ID)
  = Ok {| UserID := msg.(msg_From_ID); ChatID := msg.(msg_Chat_ID);
          LanguageCode := msg.(msg_From_LanguageCode);
          Longitude := stored_float l.(loc_Longitude);
          Latitude := stored_float l.(loc_Latitude);
          CreatedAt := now_update |}
  /\ (negative_zero l.(loc_Longitude) = false ->
      stored_float l.(loc_Longitude) = l.(loc_Longitude))
  /\ (negative_zero l.(loc_Latitude) = false ->
      stored_float l.(loc_Latitude) = l.(loc_Latitude))
  /\ (negative_zero l.(loc_Longitude) = true -> stored_float l.(loc_Longitude) = 0%float)
  /\ (negative_zero l.(loc_Latitude) = true -> stored_float l.(loc_Latitude) = 0%float).
Proof.
  intros Hloc Hlon Hlat.
  split; [|repeat split; first [apply stored_float_keeps | apply stored_float_zero]].
  pose proof (GetSessionByChatID_after_update (store bot)
                {| UserID := msg.(msg_From_ID); ChatID := msg.(msg_Chat_ID);
                   LanguageCode := msg.(msg_From_LanguageCode);
                   Longitude := l.(loc_Longitude); Latitude := l.(loc_Latitude);
                   CreatedAt := 0 |} now_update Hlon Hlat) as Hs.
  cbn [ChatID] in Hs.
  destruct (handleLocationMessage_store GetAirPollution newLangPrinter bot msg l
              now_update now_check Hloc) as [->|[dps ->]].
  - exact Hs.
  - destruct (AddDataPoint _ _ dps) as [s2 e] eqn:Ha. cbn [fst].
    apply AddDataPoint_other_tables in Ha as (_ & Hu & _).
    rewrite (GetSessionByChatID_same_sessions _ _ _ Hu). exact Hs.
Qed.

Lemma handleLocationMessage_stores_session_witness :
  location_message.(msg_Location)
  = Some {| loc_Latitude := 1%float; loc_Longitude := 2%float |}
  /\ GetSessionByChatID
       (store (handleLocationMessage (steady 2) (fun _ => example_printer)
                 (offline_bot NewStore) location_message example_now (example_now + 1)))
       42
     = Ok session_A_stored.
Proof.
  split; [reflexivity|].
  exact (proj1 (handleLocationMessage_stores_session (steady 2) (fun _ => example_printer)
                  (offline_bot NewStore) location_message
                  {| loc_Latitude := 1%float; loc_Longitude := 2%float |}
                  example_now (example_now + 1) eq_refl eq_refl eq_refl)).
Defined.

(** X18. The location handler never touches the subscriptions, and to the
    readings it only ever appends rows of the chat that sent the message. *)
Theorem handleLocationMessage_frame {World : Type}
    (GetAirPollution : World -> Location -> World * result ApiPollutionResponse)
    (newLangPrinter : string -> Printer)
    (bot : Bot World) (msg : Message) (now_update now_check : Time) :
  (store (handleLocationMessage GetAirPollution newLangPrinter bot msg
            now_update now_check)).(DB).(subscription)
  = (store bot).(DB).(subscription)
  /\ exists added,
       (store (handleLocationMessage GetAirPollution newLangPrinter bot msg
                 now_update now_check)).(DB).(data_point).(rows)
       = (store bot).(DB).(data_point).(rows) ++ added
       /\ Forall (fun r => field 1 r = VInt msg.(msg_Chat_ID)) added.
Proof.
  destruct (msg_Location msg) as [l|] eqn:Hloc.
  2:{ unfold handleLocationMessage. rewrite Hloc. split; [reflexivity|].
      exists []. split; [now rewrite app_nil_r | constructor]. }
  destruct (handleLocationMessage_store GetAirPollution newLangPrinter bot msg l
              now_update now_check Hloc) as [->|[dps ->]];
    rewrite UpdateUserSession_eq; cbn [fst].
  - split; [reflexivity|]. exists []. split; [now rewrite app_nil_r | constructor].
  - set (s1 := with_DB (store bot) _).
    destruct (AddDataPoint_appends dps s1 (msg_Chat_ID msg)) as (added & Hrows & Hall).
    split.
    + destruct (AddDataPoint s1 (msg_Chat_ID msg) dps) as [s2 e] eqn:Ha. cbn [fst].
      apply AddDataPoint_other_tables in Ha as (Hsub & _ & _). now rewrite Hsub.
    + exists added. split; [exact Hrows | exact Hall].
Qed.

(** ** bot.go: commands and callback queries *)

Ltac eval_eqb :=
  repeat match goal with
  | |- context [String.eqb ?a ?b] =>
      let r := eval vm_compute in (String.eqb a b) in
      change (String.eqb a b) with r
  end;
  cbn [orb].

Lemma AddAQISubscription_outcome (s : Store) (chatID : Z) (now : Time) :
  (exists r, AddAQISubscription s chatID now
             = (with_DB s (add_subscription s.(DB) r), None))
  \/ (exists err, AddAQISubscription s chatID now = (s, Some err)).
Proof.
  unfold AddAQISubscription.
  destruct (GetSessionByChatID s chatID) as [us|e]; [|right; eauto].
  destruct (ListAQISubscriptions s chatID) as [subs|e]; [|right; eauto].
  destruct (existsb _ subs); [right; eauto|].
  destruct (GetLastPD s chatID) as [dp|e]; [|right; eauto].
  rewrite Exec_insert_subscription. left. eexists. reflexivity.
Qed.

(** X19. Pressing "notifyMe" ends in one of two ways.  Either the
    subscription relation gained exactly one row and the reply is the
    confirmation text; or [AddAQISubscription] returned an error, the store is
    as it was, the error is logged and the reply is the "Error: %v" text for
    that error.  The confirmation is never sent without the row, nor the row
    added without the confirmation. *)
Theorem handleCallbackQuery_notifyMe
    (newLangPrinter : string -> Printer) (newLangFormatter : string -> Formatter)
    (Time_String : Time -> string)
    (range_Components : list (string * float) -> list (string * float))
    (s : Store) (query : CallbackQuery) (now : Time) :
  query.(cq_Data) = "notifyMe" ->
  (exists r,
     handleCallbackQuery newLangPrinter newLangFormatter Time_String range_Components
       s query None now
     = (with_DB s (add_subscription s.(DB) r),
        [Answered {| rc_ChatID := query.(cq_Chat_ID); rc_Text := notifyMeCnfrmText;
                     rc_ReplyToMessageID := query.(cq_MessageID);
                     rc_ReplyMarkup := None |}]))
  \/ (exists err,
        snd (AddAQISubscription s query.(cq_Chat_ID) now) = Some err
        /\ handleCallbackQuery newLangPrinter newLangFormatter Time_String range_Components
             s query None now
           = (s,
              [Logged "AddAQISubscription: " err;
               Answered {| rc_ChatID := query.(cq_Chat_ID);
                           rc_Text := (newLangFormatter query.(cq_From_LanguageCode))
                                        .(Sprintf_v) "Error: %v" err;
                           rc_ReplyToMessageID := query.(cq_MessageID);
                           rc_ReplyMarkup := None |}])).
Proof.
  intros Hd. unfold handleCallbackQuery. rewrite Hd. eval_eqb.
  destruct (AddAQISubscription_outcome s query.(cq_Chat_ID) now) as [[r ->]|[err ->]].
  - left. exists r. reflexivity.
  - right. exists err. split; reflexivity.
Qed.

Lemma handleCallbackQuery_notifyMe_witness :
  (pressed "notifyMe").(cq_Data) = "notifyMe"
  /\ snd (handleCallbackQuery (fun _ => example_printer) (fun _ => example_formatter)
            (fun _ => "") (fun l => l) store_subscribed (pressed "notifyMe") None
            example_now)
     = [Logged "AddAQISubscription: " ErrNotificationExists;
        Answered {| rc_ChatID := 42; rc_Text := "Error: %v";
                    rc_ReplyToMessageID := 101; rc_ReplyMarkup := None |}].
Proof.
  split; [reflexivity|].
  destruct (handleCallbackQuery_notifyMe (fun _ => example_printer)
              (fun _ => example_formatter) (fun _ => "") (fun l => l)
              store_subscribed (pressed "notifyMe") example_now eq_refl)
    as [[r Hr]|[err [Herr Hr]]].
  - exfalso. apply (f_equal snd) in Hr. vm_compute in Hr. discriminate Hr.
  - rewrite Hr. cbn [snd].
    assert (He : snd (AddAQISubscription store_subscribed 42 example_now)
                 = Some ErrNotificationExists) by (vm_compute; reflexivity).
    cbn [pressed cq_Chat_ID] in Herr. rewrite He in Herr. injection Herr as <-.
    reflexivity.
Defined.

Lemma enabled_rows_nonempty (s : Store) (chatID : Z) :
  forallb (row_typed subscription_types) s.(DB).(subscription).(rows) = true ->
  (filter (row_matches [(1%nat, VInt chatID); (6%nat, VInt 1)])
     s.(DB).(subscription).(rows) <> []
   <-> exists id language lon lat aqi t,
         In (subscription_row id chatID language (VReal lon) (VReal lat) aqi 1 t)
            s.(DB).(subscription).(rows)).
Proof.
  intros Hs. rewrite forallb_forall in Hs. split.
  - destruct (filter _ _) as [|r l] eqn:Hf; [congruence|]. intros _.
    assert (Hr : In r (filter (row_matches [(1%nat, VInt chatID); (6%nat, VInt 1)])
                         s.(DB).(subscription).(rows)))
      by (rewrite Hf; now left).
    apply filter_In in Hr as [Hr Hm].
    pose proof (Hs r Hr) as Hty.
    apply subscription_row_typed in Hty as (id & c & l0 & lon & lat & aqi & en & t & ->).
    apply row_matches_chat_enabled in Hm as [Hc He].
    cbn in Hc, He. injection Hc as ->. injection He as ->.
    exists id, l0, lon, lat, aqi, t. exact Hr.
  - intros (id & l & lon & lat & aqi & t & Hr) Hf.
    assert (Hin : In (subscription_row id chatID l (VReal lon) (VReal lat) aqi 1 t)
                    (filter (row_matches [(1%nat, VInt chatID); (6%nat, VInt 1)])
                       s.(DB).(subscription).(rows))).
    { apply filter_In. split; [exact Hr|].
      apply row_matches_chat_enabled. split; reflexivity. }
    rewrite Hf in Hin. exact Hin.
Qed.

(** X20. "/mySubsription" on a store of well-typed rows sends one reply, to
    the chat and in answer to the command; the reply offers the clean-up
    keyboard exactly when the chat has an enabled subscription, and carries no
    keyboard otherwise. *)
Theorem handleCommand_mySubsription
    (newLangPrinter : string -> Printer) (newLangFormatter : string -> Formatter)
    (s : Store) (msg : CommandMessage) :
  well_typed s.(DB) = true ->
  msg.(cmd_Command) = "mySubsription" ->
  exists m,
    handleCommand newLangPrinter newLangFormatter s msg = [Answered m]
    /\ m.(rc_ChatID) = msg.(cmd_Chat_ID)
    /\ m.(rc_ReplyToMessageID) = msg.(cmd_MessageID)
    /\ (m.(rc_ReplyMarkup) = Some (Inline cleanupSubscriptionInline)
        \/ m.(rc_ReplyMarkup) = None)
    /\ (m.(rc_ReplyMarkup) = Some (Inline cleanupSubscriptionInline)
        <-> exists id language lon lat aqi t,
              In (subscription_row id msg.(cmd_Chat_ID) language (VReal lon) (VReal lat)
                    aqi 1 t)
                 s.(DB).(subscription).(rows)).
Proof.
  intros Hwt Hc. apply well_typed_tables in Hwt as (_ & _ & Hs).
  pose proof (enabled_rows_nonempty s msg.(cmd_Chat_ID) Hs) as Hex.
  unfold handleCommand. rewrite Hc. eval_eqb.
  rewrite (ListAQISubscriptions_eq _ _ Hs). rewrite length_map.
  destruct (filter _ _) as [|r l]; cbn [List.length Nat.ltb Nat.leb app].
  - eexists. split; [reflexivity|].
    cbn [rc_ChatID rc_ReplyToMessageID rc_ReplyMarkup with_Text].
    repeat split; auto.
    + discriminate.
    + intros H. apply Hex in H. congruence.
  - eexists. split; [reflexivity|].
    cbn [rc_ChatID rc_ReplyToMessageID rc_ReplyMarkup with_Text with_Markup].
    repeat split; auto.
    intros _. apply Hex. discriminate.
Qed.

Lemma handleCommand_mySubsription_witness :
  well_typed store_subscribed.(DB) = true
  /\ my_subscriptions.(cmd_Command) = "mySubsription"
  /\ exists m,
       handleCommand (fun _ => example_printer) (fun _ => example_formatter)
         store_subscribed my_subscriptions = [Answered m]
       /\ m.(rc_ReplyMarkup) = Some (Inline cleanupSubscriptionInline).
Proof.
  assert (H1 : well_typed store_subscribed.(DB) = true) by (vm_compute; reflexivity).
  split; [exact H1|]. split; [reflexivity|].
  destruct (handleCommand_mySubsription (fun _ => example_printer)
              (fun _ => example_formatter) store_subscribed my_subscriptions H1 eq_refl)
    as (m & Hm & _ & _ & _ & Hiff).
  exists m. split; [exact Hm|]. apply Hiff.
  assert (Hr : store_subscribed.(DB).(subscription).(rows)
               = [subscription_row 1 42 "en" (VReal session_A.(Longitude))
                    (VReal session_A.(Latitude)) 3 1 example_now])
    by (vm_compute; reflexivity).
  exists 1, "en"%string, session_A.(Longitude), session_A.(Latitude), 3, example_now.
  rewrite Hr. now left.
Defined.

Lemma ListAQISubscriptions_after_delete (s : Store) (chatID : Z) :
  ListAQISubscriptions (fst (DeleteAQISubscriptions s chatID)) chatID = Ok [].
Proof.
  rewrite DeleteAQISubscriptions_eq. cbn [fst].
  unfold ListAQISubscriptions. rewrite Query_chat_subscriptions.
  cbn [DB with_DB subscription rows]. now rewrite no_enabled_after_disable.
Qed.

(** X21. After the "cleanup" button, "/mySubsription" of the same chat
    reports zero subscriptions and offers no clean-up keyboard, whatever the
    chat had subscribed to before. *)
Theorem cleanup_then_mySubsription
    (newLangPrinter : string -> Printer) (newLangFormatter : string -> Formatter)
    (Time_String : Time -> string)
    (range_Components : list (string * float) -> list (string * float))
    (s : Store) (query : CallbackQuery) (msg : CommandMessage) (now : Time) :
  query.(cq_Data) = "cleanup" ->
  msg.(cmd_Command) = "mySubsription" ->
  msg.(cmd_Chat_ID) = query.(cq_Chat_ID) ->
  handleCommand newLangPrinter newLangFormatter
    (fst (handleCallbackQuery newLangPrinter newLangFormatter Time_String
            range_Components s query None now))
    msg
  = [Answered
       {| rc_ChatID := msg.(cmd_Chat_ID);
          rc_Text := strings_Join
                       [(newLangFormatter msg.(cmd_From_LanguageCode)).(Sprintf_d)
                          numberSubsTmpl 0; ""]
                       newline;
          rc_ReplyToMessageID := msg.(cmd_MessageID);
          rc_ReplyMarkup := None |}].
Proof.
  intros Hd Hc Hchat.
  assert (Hs : fst (handleCallbackQuery newLangPrinter newLangFormatter Time_String
                      range_Components s query None now)
               = fst (DeleteAQISubscriptions s query.(cq_Chat_ID))).
  { unfold handleCallbackQuery. rewrite Hd. eval_eqb.
    rewrite DeleteAQISubscriptions_eq. reflexivity. }
  rewrite Hs. unfold handleCommand. rewrite Hc, Hchat. eval_eqb.
  rewrite ListAQISubscriptions_after_delete. reflexivity.
Qed.

Lemma cleanup_then_mySubsription_witness :
  (pressed "cleanup").(cq_Data) = "cleanup"
  /\ my_subscriptions.(cmd_Command) = "mySubsription"
  /\ my_subscriptions.(cmd_Chat_ID) = (pressed "cleanup").(cq_Chat_ID)
  /\ handleCommand (fun _ => example_printer) (fun _ => example_formatter)
       (fst (handleCallbackQuery (fun _ => example_printer) (fun _ => example_formatter)
               (fun _ => "") (fun l => l) store_subscribed (pressed "cleanup") None
               example_now))
       my_subscriptions
     = [Answered
          {| rc_ChatID := 42;
             rc_Text := strings_Join [numberSubsTmpl; ""] newline;
             rc_ReplyToMessageID := 100;
             rc_ReplyMarkup := None |}].
Proof.
  repeat (split; [reflexivity|]).
  exact (cleanup_then_mySubsription (fun _ => example_printer)
           (fun _ => example_formatter) (fun _ => "") (fun l => l)
           store_subscribed (pressed "cleanup") my_subscriptions example_now
           eq_refl eq_refl eq_refl).
Defined.

(** X22. Pressing "details" in a chat that has no stored reading does not
    fail: the reply shows the header, the time of Unix second 0 and no
    pollutant line, and the store is left as it was. *)
Theorem handleCallbackQuery_details_without_reading
    (newLangPrinter : string -> Printer) (newLangFormatter : string -> Formatter)
    (Time_String : Time -> string)
    (range_Components : list (string * float) -> list (string * float))
    (s : Store) (query : CallbackQuery) (now : Time) :
  range_Components [] = [] ->
  query.(cq_Data) = "details" ->
  no_reading s query.(cq_Chat_ID) ->
  handleCallbackQuery newLangPrinter newLangFormatter Time_String range_Components
    s query None now
  = (s,
     [Answered
        {| rc_ChatID := query.(cq_Chat_ID);
           rc_Text := strings_Join [detailsText; Time_String (time_Unix 0); ""] newline;
           rc_ReplyToMessageID := query.(cq_MessageID);
           rc_ReplyMarkup := None |}]).
Proof.
  intros Hrange Hd Hno. unfold handleCallbackQuery. rewrite Hd. eval_eqb.
  rewrite (GetLastPD_no_reading _ _ Hno).
  cbn [DataPoint_zero Dt Components]. rewrite Hrange. reflexivity.
Qed.

Lemma handleCallbackQuery_details_without_reading_witness :
  (fun l : list (string * float) => l) [] = []
  /\ (pressed "details").(cq_Data) = "details"
  /\ no_reading store_session_only (pressed "details").(cq_Chat_ID)
  /\ handleCallbackQuery (fun _ => example_printer) (fun _ => example_formatter)
       (fun _ => "1970-01-01 00:00:00 +0000 UTC") (fun l => l)
       store_session_only (pressed "details") None example_now
     = (store_session_only,
        [Answered
           {| rc_ChatID := 42;
              rc_Text := strings_Join
                           [detailsText; "1970-01-01 00:00:00 +0000 UTC"; ""] newline;
              rc_ReplyToMessageID := 101;
              rc_ReplyMarkup := None |}]).
Proof.
  assert (Hno : no_reading store_session_only (pressed "details").(cq_Chat_ID)).
  { intros r Hr. vm_compute in Hr. destruct Hr. }
  split; [reflexivity|]. split; [reflexivity|]. split; [exact Hno|].
  exact (handleCallbackQuery_details_without_reading (fun _ => example_printer)
           (fun _ => example_formatter) (fun _ => "1970-01-01 00:00:00 +0000 UTC")
           (fun l => l) store_session_only (pressed "details") example_now
           eq_refl eq_refl Hno).
Defined.

(** X23. A callback query never touches sessions or readings: whatever
    button was pressed and whether or not the acknowledgement succeeded, the
    user_session and data_point relations are left as they were.  The
    subscription relation changes only for "notifyMe" and "cleanup"; in every
    other case, and whenever the acknowledgement failed, the whole store is
    unchanged. *)
Theorem handleCallbackQuery_frame
    (newLangPrinter : string -> Printer) (newLangFormatter : string -> Formatter)
    (Time_String : Time -> string)
    (range_Components : list (string * float) -> list (string * float))
    (s : Store) (query : CallbackQuery) (request_err : option error) (now : Time) :
  let s' := fst (handleCallbackQuery newLangPrinter newLangFormatter Time_String
                   range_Components s query request_err now) in
  s'.(DB).(user_session) = s.(DB).(user_session)
  /\ s'.(DB).(data_point) = s.(DB).(data_point)
  /\ (s' <> s ->
      request_err = None
      /\ (query.(cq_Data) = "notifyMe" \/ query.(cq_Data) = "cleanup")).
Proof.
  unfold handleCallbackQuery.
  destruct request_err as [err|]; cbn [fst]; [repeat split; congruence|].
  destruct (String.eqb (cq_Data query) "notifyMe") eqn:E1.
  { apply String.eqb_eq in E1.
    destruct (AddAQISubscription_outcome s query.(cq_Chat_ID) now) as [[r ->]|[err ->]];
      cbn [fst]; repeat split; auto. }
  destruct (String.eqb (cq_Data query) "details") eqn:E2.
  { destruct (GetLastPD s (cq_Chat_ID query)); cbn [fst]; repeat split; congruence. }
  destruct (String.eqb (cq_Data query) "cleanup") eqn:E3.
  { apply String.eqb_eq in E3. rewrite DeleteAQISubscriptions_eq. cbn [fst].
    repeat split; auto. }
  cbn [fst]. repeat split; congruence.
Qed.

(** X24. Every command is answered: [handleCommand] ends with exactly one
    message, addressed to the chat the command came from and sent as a reply
    to the command; anything before it is a log line.  This holds for unknown
    commands and when the store fails as well. *)
Theorem handleCommand_always_answers
    (newLangPrinter : string -> Printer) (newLangFormatter : string -> Formatter)
    (s : Store) (msg : CommandMessage) :
  exists logged m,
    handleCommand newLangPrinter newLangFormatter s msg = logged ++ [Answered m]
    /\ m.(rc_ChatID) = msg.(cmd_Chat_ID)
    /\ m.(rc_ReplyToMessageID) = msg.(cmd_MessageID)
    /\ (forall a, In a logged -> exists text err, a = Logged text err).
Proof.
  unfold handleCommand.
  destruct (_ || _); [exists []; eexists; repeat split; try reflexivity; intros a []|].
  destruct (String.eqb _ "start");
    [exists []; eexists; repeat split; try reflexivity; intros a []|].
  destruct (String.eqb _ "mySubsription").
  - destruct (ListAQISubscriptions s (cmd_Chat_ID msg)) as [subs|err].
    + exists []. destruct (0 <? List.length subs)%nat;
        eexists; repeat split; try reflexivity; intros a [].
    + exists [Logged "ListAQISubscriptions" err]. cbn [List.length Nat.ltb Nat.leb].
      eexists. repeat split; try reflexivity.
      intros a [<-|[]]. eauto.
  - destruct (String.eqb _ "about");
      exists []; eexists; repeat split; try reflexivity; intros a [].
Qed.
